(** * MyCodeAnalyzer backend: aggregation, test-stub cleanup and routes

    A shallow embedding of the backend of the MyCodeAnalyzer repository
    (backend/utils/logicAnalyzer.js, backend/utils/testGenerator.js and
    backend/server.js) and of two computations of its frontend, together
    with the properties the specification states about them.

    Conventions of the embedding:
    - a JavaScript string is a [string]: a sequence of code units below
      256 (the Latin-1 range), on which the character classes of the
      regular expressions and of [trim] are the ECMAScript ones;
    - a JavaScript number is a binary64 value ([spec_float] with
      precision 53 and maximal exponent 1024), and the arithmetic is
      that of IEEE 754 with rounding to nearest, ties to even;
    - a value that arrives as JSON (a field of a request body, the
      answer of the Azure Function) is a [JsValue]: null, a boolean, a
      number, a string, an array or an object, or [undefined] for a
      field that is absent; a method call on a value that is no string
      throws the TypeError of V8;
    - the object that the model's answer parses to is read through the
      keys the code reads, [success], [fileName] and [skipped] among
      them, since the answer is spread over the result of the analysis;
    - an outbound call (model completion, Azure Function POST, hosting
      API GET) is answered by an oracle that sees the calls issued so
      far, and every call is logged in a trace that the computation
      threads as its state. *)

From Stdlib Require Import List String Ascii Bool Arith ZArith QArith Qround.
From Stdlib Require Import Lia Lqa Permutation Sorted DecimalString SpecFloat.
Import ListNotations.

Local Open Scope list_scope.
Local Open Scope string_scope.
Local Open Scope nat_scope.

(* ===================================================================== *)
(** ** JavaScript strings *)
(* ===================================================================== *)

Module JsString.

Definition code (c : ascii) : nat := nat_of_ascii c.

Definition chr (n : nat) : string := String (ascii_of_nat n) "".

(** The line feed and the double quote, which have no literal form here. *)
Definition LF : string := chr 10.
Definition DQ : string := chr 34.

Definition between (lo hi : nat) (c : ascii) : bool :=
  (lo <=? code c) && (code c <=? hi).

(** [String.prototype.toLowerCase] on code units below 256. *)
Definition isUpper (c : ascii) : bool :=
  between 65 90 c || (between 192 222 c && negb (code c =? 215)).

Definition toLowerChar (c : ascii) : ascii :=
  if isUpper c then ascii_of_nat (code c + 32) else c.

Fixpoint toLowerCase (s : string) : string :=
  match s with
  | "" => ""
  | String c s' => String (toLowerChar c) (toLowerCase s')
  end.

(** [s.startsWith(p)] *)
Fixpoint startsWith (s p : string) : bool :=
  match p, s with
  | "", _ => true
  | String _ _, "" => false
  | String a p', String b s' => Ascii.eqb a b && startsWith s' p'
  end.

(** [s.includes(p)] *)
Fixpoint includes (s p : string) : bool :=
  startsWith s p ||
  match s with
  | "" => false
  | String _ s' => includes s' p
  end.

(** WhiteSpace and LineTerminator code units (what [\s] and [trim] see). *)
Definition isLineTerminator (c : ascii) : bool :=
  (code c =? 10) || (code c =? 13).

Definition isWhiteSpace (c : ascii) : bool :=
  between 9 13 c || (code c =? 32) || (code c =? 160).

Fixpoint trimStart (s : string) : string :=
  match s with
  | "" => ""
  | String c s' => if isWhiteSpace c then trimStart s' else s
  end.

Fixpoint trimEnd (s : string) : string :=
  match s with
  | "" => ""
  | String c s' =>
      match trimEnd s' with
      | "" => if isWhiteSpace c then "" else String c ""
      | t => String c t
      end
  end.

Definition trim (s : string) : string := trimEnd (trimStart s).

(** [a.join(sep)] *)
Fixpoint join (sep : string) (l : list string) : string :=
  match l with
  | [] => ""
  | [x] => x
  | x :: rest => x ++ sep ++ join sep rest
  end.

(** [s.split(sep)] for a one-character separator. *)
Fixpoint split (sep : ascii) (s : string) : list string :=
  match s with
  | "" => [""]
  | String c s' =>
      if Ascii.eqb c sep then "" :: split sep s'
      else match split sep s' with
           | [] => [String c ""]
           | x :: rest => String c x :: rest
           end
  end.

(** [s.endsWith(p)] *)
Fixpoint endsWith (s p : string) : bool :=
  String.eqb s p ||
  match s with
  | "" => false
  | String _ s' => endsWith s' p
  end.

(** [x || d] on strings: the empty string is falsy. *)
Definition orElse (x d : string) : string :=
  if String.eqb x "" then d else x.

(** Decimal rendering of a number inside a template literal. *)
Definition ofNat (n : nat) : string :=
  NilEmpty.string_of_uint (Nat.to_uint n).

End JsString.

(* ===================================================================== *)
(** ** Regular expressions, with the backtracking order of ECMAScript *)
(* ===================================================================== *)

Module Regex.
Import JsString.

(** The fragment of the pattern language the sources use.  Every
    quantified atom in them is a character class, so repetition is
    over a class. *)
Inductive regex : Type :=
| Empty
| Char (c : ascii)
| Class (p : ascii -> bool)
| Seq (r1 r2 : regex)
| Alt (r1 r2 : regex)
| Repeat (greedy : bool) (min : nat) (p : ascii -> bool)
| Optional (r : regex)
| LineStart
| LineEnd
| WordBoundary
| Capture (r : regex).

(** Character classes. *)
Definition isDigit (c : ascii) : bool := between 48 57 c.
Definition isWord (c : ascii) : bool :=
  between 97 122 c || between 65 90 c || isDigit c || (code c =? 95).
Definition isWordOrDot (c : ascii) : bool := isWord c || (code c =? 46).
Definition isSpace (c : ascii) : bool := isWhiteSpace c.
Definition isAny (_ : ascii) : bool := true.
Definition isDot (c : ascii) : bool := negb (isLineTerminator c).

(** A literal, and a literal under flag [i]. *)
Fixpoint lit (s : string) : regex :=
  match s with
  | "" => Empty
  | String c s' => Seq (Char c) (lit s')
  end.

Fixpoint liti (s : string) : regex :=
  match s with
  | "" => Empty
  | String c s' =>
      Seq (Class (fun d => Ascii.eqb (toLowerChar d) (toLowerChar c))) (liti s')
  end.

Fixpoint seq (l : list regex) : regex :=
  match l with
  | [] => Empty
  | [r] => r
  | r :: rest => Seq r (seq rest)
  end.

Fixpoint alt (l : list regex) : regex :=
  match l with
  | [] => Empty
  | [r] => r
  | r :: rest => Alt r (alt rest)
  end.

(** A match state is the code unit before the position (for [^] and
    [\b]), the text from the position on, and the text of group 1. *)
Definition Matched : Type := string * option string.
Definition Cont : Type := option ascii -> string -> option string -> option Matched.

Definition orTry (a b : option Matched) : option Matched :=
  match a with
  | Some m => Some m
  | None => b
  end.

Fixpoint repGreedy (p : ascii -> bool) (min : nat) (prev : option ascii)
         (s : string) (cap : option string) (k : Cont) : option Matched :=
  let stop := if min =? 0 then k prev s cap else None in
  match s with
  | "" => stop
  | String c s' =>
      if p c then orTry (repGreedy p (pred min) (Some c) s' cap k) stop
      else stop
  end.

Fixpoint repLazy (p : ascii -> bool) (min : nat) (prev : option ascii)
         (s : string) (cap : option string) (k : Cont) : option Matched :=
  match s with
  | "" => if min =? 0 then k prev s cap else None
  | String c s' =>
      let more := if p c then repLazy p (pred min) (Some c) s' cap k else None in
      if min =? 0 then orTry (k prev s cap) more else more
  end.

Definition isWordAt (o : option ascii) : bool :=
  match o with
  | Some c => isWord c
  | None => false
  end.

Definition next (s : string) : option ascii :=
  match s with
  | "" => None
  | String c _ => Some c
  end.

(** The first [n] code units of [s]. *)
Fixpoint take (n : nat) (s : string) : string :=
  match n, s with
  | S n', String c s' => String c (take n' s')
  | _, _ => ""
  end.

Fixpoint run (r : regex) (prev : option ascii) (s : string)
         (cap : option string) (k : Cont) : option Matched :=
  match r with
  | Empty => k prev s cap
  | Char c =>
      match s with
      | String d s' => if Ascii.eqb c d then k (Some d) s' cap else None
      | "" => None
      end
  | Class p =>
      match s with
      | String d s' => if p d then k (Some d) s' cap else None
      | "" => None
      end
  | Seq r1 r2 => run r1 prev s cap (fun prev' s' cap' => run r2 prev' s' cap' k)
  | Alt r1 r2 => orTry (run r1 prev s cap k) (run r2 prev s cap k)
  | Repeat true min p => repGreedy p min prev s cap k
  | Repeat false min p => repLazy p min prev s cap k
  | Optional r1 => orTry (run r1 prev s cap k) (k prev s cap)
  | LineStart =>
      match prev with
      | None => k prev s cap
      | Some c => if isLineTerminator c then k prev s cap else None
      end
  | LineEnd =>
      match s with
      | "" => k prev s cap
      | String c _ => if isLineTerminator c then k prev s cap else None
      end
  | WordBoundary =>
      if xorb (isWordAt prev) (isWordAt (next s)) then k prev s cap else None
  | Capture r1 =>
      run r1 prev s cap
          (fun prev' s' _ => k prev' s' (Some (take (length s - length s') s)))
  end.

(** One attempt at the current position: the text left after the
    match and group 1. *)
Definition execAt (r : regex) (prev : option ascii) (s : string) : option Matched :=
  run r prev s None (fun _ s' cap => Some (s', cap)).

(** [s.match(r)] without flag [g]: the leftmost match. *)
Fixpoint execFrom (r : regex) (prev : option ascii) (s : string) : option Matched :=
  match execAt r prev s with
  | Some m => Some m
  | None =>
      match s with
      | "" => None
      | String c s' => execFrom r (Some c) s'
      end
  end.

Definition exec (r : regex) (s : string) : option Matched := execFrom r None s.

(** [r.test(s)] *)
Definition test (r : regex) (s : string) : bool :=
  match exec r s with
  | Some _ => true
  | None => false
  end.

(** [s.replace(r, '')] under flag [g]: [skip] counts the code units of
    the current match that are still to be dropped. *)
Fixpoint removeFrom (r : regex) (prev : option ascii) (s : string) (skip : nat) : string :=
  match s with
  | "" => ""
  | String c s' =>
      match skip with
      | S n => removeFrom r (Some c) s' n
      | O =>
          match execAt r prev s with
          | Some (rest, _) =>
              match length s - length rest with
              | O => String c (removeFrom r (Some c) s' 0)
              | S n => removeFrom r (Some c) s' n
              end
          | None => String c (removeFrom r (Some c) s' 0)
          end
      end
  end.

Definition removeAll (r : regex) (s : string) : string := removeFrom r None s 0.

End Regex.

(* ===================================================================== *)
(** ** JavaScript numbers *)
(* ===================================================================== *)

Module Number.

Definition prec : Z := 53.
Definition emax : Z := 1024.

(** A Number value; a value read from JSON is finite or infinite and
    satisfies [valid_binary prec emax]. *)
Definition Number : Type := spec_float.

Definition zero : Number := S754_zero false.

(** The Number value of an integer (exact below 2^53). *)
Definition ofZ (z : Z) : Number := binary_normalize prec emax z 0 false.
Definition ofNat (n : nat) : Number := ofZ (Z.of_nat n).

(** [x + y], [x * y] and [x / y] *)
Definition add : Number -> Number -> Number := SFadd prec emax.
Definition mul : Number -> Number -> Number := SFmul prec emax.
Definition div : Number -> Number -> Number := SFdiv prec emax.

Definition pow2 (e : Z) : Q :=
  match e with
  | Z0 => 1%Q
  | Zpos p => inject_Z (Z.pow_pos 2 p)
  | Zneg p => Qmake 1 (Pos.pow 2 p)
  end.

Definition magnitude (m : positive) (e : Z) : Q := (inject_Z (Zpos m) * pow2 e)%Q.

(** The real number a finite Number value stands for. *)
Definition value (x : Number) : option Q :=
  match x with
  | S754_zero _ => Some 0%Q
  | S754_finite s m e => Some (if s then - magnitude m e else magnitude m e)%Q
  | _ => None
  end.

(** [!!x] *)
Definition truthy (x : Number) : bool :=
  match x with
  | S754_zero _ | S754_nan => false
  | _ => true
  end.

(** What [Math.round] yields: an integer, given by its value, minus
    zero, or its argument when that is infinite or NaN. *)
Inductive Rounded : Type :=
| Int (z : Z)
| MinusZero
| NotFinite (x : Number).

(** [Math.round(x)]: the nearest integer, halves towards plus
    infinity; the result is minus zero for an argument between -0.5
    and -0. *)
Definition Math_round (x : Number) : Rounded :=
  match x with
  | S754_zero s => if s then MinusZero else Int 0
  | S754_finite s m e =>
      match Qfloor ((if s then - magnitude m e else magnitude m e) + (1 # 2))%Q with
      | Z0 => if s then MinusZero else Int 0
      | z => Int z
      end
  | _ => NotFinite x
  end.

(** [r === 0] *)
Definition isZero (r : Rounded) : bool :=
  match r with
  | Int z => (z =? 0)%Z
  | MinusZero => true
  | NotFinite _ => false
  end.

(** *** Number::toString *)

Definition digitsOf (z : Z) : string :=
  match z with
  | Zpos p => NilEmpty.string_of_uint (Pos.to_uint p)
  | _ => "0"
  end.

Fixpoint zeros (n : nat) : string :=
  match n with
  | O => ""
  | S n' => String "0" (zeros n')
  end.

Definition pow10 (n : Z) : Q :=
  match n with
  | Z0 => 1%Q
  | Zpos p => inject_Z (Z.pow_pos 10 p)
  | Zneg p => Qmake 1 (Pos.pow 10 p)
  end.

Definition Qltb (a b : Q) : bool := negb (Qle_bool b a).

(** The [n] with [10^(n-1) <= q < 10^n], for [q > 0]. *)
Fixpoint decimalExponentUp (fuel : nat) (q : Q) (n : Z) : Z :=
  match fuel with
  | O => n
  | S fuel' => if Qltb q (pow10 n) then n else decimalExponentUp fuel' q (n + 1)
  end.

Fixpoint decimalExponentDown (fuel : nat) (q : Q) (n : Z) : Z :=
  match fuel with
  | O => n
  | S fuel' => if Qltb q (pow10 (n - 1)) then decimalExponentDown fuel' q (n - 1) else n
  end.

Definition decimalExponent (q : Q) : Z :=
  if Qltb q 1 then decimalExponentDown 400 q 0 else decimalExponentUp 400 q 1.

(** The reals that round to the binary64 value [m * 2^e]: those
    between the midpoints to its two neighbours, the midpoints
    included when [m] is even. *)
Definition roundsTo (m : positive) (e : Z) (v : Q) : bool :=
  let upper := (inject_Z (2 * Zpos m + 1) * pow2 (e - 1))%Q in
  let lower :=
    if Pos.eqb m (Pos.pow 2 52) && (-1074 <? e)%Z
    then (inject_Z (4 * Zpos m - 1) * pow2 (e - 2))%Q
    else (inject_Z (2 * Zpos m - 1) * pow2 (e - 1))%Q in
  if Z.even (Zpos m)
  then Qle_bool lower v && Qle_bool v upper
  else Qltb lower v && Qltb v upper.

Definition distance (a b : Q) : Q := if Qle_bool a b then (b - a)%Q else (a - b)%Q.

(** The integer [s] of [k] digits for which [s * 10^(n-k)] rounds to
    the value and is closest to it, when there is one. *)
Definition candidate (m : positive) (e : Z) (n : Z) (k : Z) : option Z :=
  let q := magnitude m e in
  let unit := pow10 (n - k) in
  let lo := Qfloor (q / unit) in
  let hi := (lo + 1)%Z in
  match roundsTo m e (inject_Z lo * unit), roundsTo m e (inject_Z hi * unit) with
  | true, true =>
      let dLo := distance (inject_Z lo * unit) q in
      let dHi := distance (inject_Z hi * unit) q in
      if Qltb dLo dHi then Some lo
      else if Qltb dHi dLo then Some hi
      else if Z.even lo then Some lo else Some hi
  | true, false => Some lo
  | false, true => Some hi
  | false, false => None
  end.

(** The digits, the decimal exponent and the number of digits of the
    shortest decimal that rounds to the value. *)
Fixpoint shortest (fuel : nat) (m : positive) (e : Z) (n : Z) (k : Z) : Z * Z * Z :=
  match fuel with
  | O => (Qfloor (magnitude m e / pow10 (n - k)), n, k)
  | S fuel' =>
      match candidate m e n k with
      | Some s => if (s =? Z.pow 10 k)%Z then (1%Z, (n + 1)%Z, 1%Z) else (s, n, k)
      | None => shortest fuel' m e n (k + 1)
      end
  end.

Fixpoint takeDigits (n : nat) (s : string) : string :=
  match n, s with
  | S n', String c s' => String c (takeDigits n' s')
  | _, _ => ""
  end.

Fixpoint dropDigits (n : nat) (s : string) : string :=
  match n, s with
  | S n', String _ s' => dropDigits n' s'
  | _, _ => s
  end.

Definition render (s n k : Z) : string :=
  let digits := digitsOf s in
  if ((k <=? n) && (n <=? 21))%Z then digits ++ zeros (Z.to_nat (n - k))
  else if ((0 <? n) && (n <=? 21))%Z
  then takeDigits (Z.to_nat n) digits ++ "." ++ dropDigits (Z.to_nat n) digits
  else if ((-6 <? n) && (n <=? 0))%Z then "0." ++ zeros (Z.to_nat (- n)) ++ digits
  else
    let exponent := (n - 1)%Z in
    let sign := if (0 <=? exponent)%Z then "+" else "-" in
    let mantissa :=
      if (k =? 1)%Z then digits
      else takeDigits 1 digits ++ "." ++ dropDigits 1 digits in
    mantissa ++ "e" ++ sign ++ digitsOf (Z.abs exponent).

(** [String(x)] for a number, as in a template literal. *)
Definition toString (x : Number) : string :=
  match x with
  | S754_nan => "NaN"
  | S754_zero _ => "0"
  | S754_infinity s => if s then "-Infinity" else "Infinity"
  | S754_finite s m e =>
      let '(digits, n, k) := shortest 17 m e (decimalExponent (magnitude m e)) 1 in
      (if s then "-" else "") ++ render digits n k
  end.

(** How [util.inspect] shows a number. *)
Definition inspect (x : Number) : string :=
  match x with
  | S754_zero true => "-0"
  | _ => toString x
  end.

End Number.

(* ===================================================================== *)
(** ** Effects: thrown errors and the trace of outbound calls *)
(* ===================================================================== *)

Module Effects.

(** The completion of a call that may throw an [Error] with a message. *)
Inductive Completion (A : Type) : Type :=
| Returns (a : A)
| Throws (message : string).
Arguments Returns {A} a.
Arguments Throws {A} message.

(** A computation that issues outbound calls of type [Ev]: it reads the
    calls issued so far and extends them. *)
Definition IO (Ev A : Type) : Type := list Ev -> A * list Ev.

Definition ret {Ev A : Type} (a : A) : IO Ev A := fun t => (a, t).

Definition bind {Ev A B : Type} (c : IO Ev A) (f : A -> IO Ev B) : IO Ev B :=
  fun t => let (a, t') := c t in f a t'.

(** An outbound call: the oracle answers from the history and the request. *)
Definition call {Ev R : Type} (oracle : list Ev -> Ev -> R) (e : Ev) : IO Ev R :=
  fun t => (oracle t e, (t ++ [e])%list).

(** [xs.map(f)] for an asynchronous [f]: the calls are issued in the
    order of [xs], each one up to its first [await]. *)
Fixpoint mapAll {Ev A B : Type} (f : A -> IO Ev B) (xs : list A) : IO Ev (list B) :=
  match xs with
  | [] => ret []
  | x :: rest => bind (f x) (fun y => bind (mapAll f rest) (fun ys => ret (y :: ys)))
  end.

(** [await Promise.all(promises)]: the results by index, or the first
    rejection. *)
Fixpoint settle {A : Type} (promises : list (Completion A)) : Completion (list A) :=
  match promises with
  | [] => Returns []
  | Throws message :: _ => Throws message
  | Returns a :: rest =>
      match settle rest with
      | Returns results => Returns (a :: results)
      | Throws message => Throws message
      end
  end.

(** A value that JSON can express, or [undefined].  An object is the
    list of its members. *)
#[warnings="-register-all"]
Inductive JsValue : Type :=
| Undefined
| Null
| Bool (b : bool)
| Num (x : Number.Number)
| Str (s : string)
| Arr (items : list JsValue)
| Obj (fields : list (string * JsValue)).

End Effects.

(* ===================================================================== *)
(** ** Operations on values *)
(* ===================================================================== *)

Module Js.
Import JsString Effects.

(** [!!v] *)
Definition truthy (v : JsValue) : bool :=
  match v with
  | Undefined | Null => false
  | Bool b => b
  | Num x => Number.truthy x
  | Str s => negb (String.eqb s "")
  | Arr _ | Obj _ => true
  end.

(** [x || d] *)
Definition orValue (x d : JsValue) : JsValue := if truthy x then x else d.

Definition isString (v : JsValue) : bool :=
  match v with
  | Str _ => true
  | _ => false
  end.

(** [v === undefined || v === null] *)
Definition isNullish (v : JsValue) : bool :=
  match v with
  | Undefined | Null => true
  | _ => false
  end.

(** The member of an object for a key; of two members with the same
    key, as a JSON text can have them, the later one counts. *)
Fixpoint lookup (key : string) (fields : list (string * JsValue)) : option JsValue :=
  match fields with
  | [] => None
  | (k, x) :: rest =>
      match lookup key rest with
      | Some later => Some later
      | None => if String.eqb k key then Some x else None
      end
  end.

(** [v.key] for a value that is neither null nor undefined, and for a
    key that no prototype defines: a property of an object, and
    [undefined] on every other value. *)
Definition get (key : string) (v : JsValue) : JsValue :=
  match v with
  | Obj fields =>
      match lookup key fields with
      | Some x => x
      | None => Undefined
      end
  | _ => Undefined
  end.

Definition hasKey (key : string) (fields : list (string * JsValue)) : bool :=
  existsb (fun member => String.eqb (fst member) key) fields.

(** The assignment [o.key = x], and a property of an object literal:
    an existing key keeps its place. *)
Definition setField (key : string) (x : JsValue) (fields : list (string * JsValue))
  : list (string * JsValue) :=
  if hasKey key fields
  then map (fun member => if String.eqb (fst member) key then (fst member, x) else member)
           fields
  else fields ++ [(key, x)].

Fixpoint indexed (i : nat) (items : list JsValue) : list (string * JsValue) :=
  match items with
  | [] => []
  | x :: rest => (ofNat i, x) :: indexed (S i) rest
  end.

Fixpoint characters (s : string) : list JsValue :=
  match s with
  | "" => []
  | String c s' => Str (String c "") :: characters s'
  end.

(** The own enumerable properties of a value, which [{...v}] copies. *)
Definition ownProperties (v : JsValue) : list (string * JsValue) :=
  match v with
  | Obj fields => fields
  | Arr items => indexed 0 items
  | Str s => indexed 0 (characters s)
  | _ => []
  end.

(** [{...base, ...v}] *)
Definition spread (base : list (string * JsValue)) (v : JsValue) : list (string * JsValue) :=
  fold_left (fun fields property => setField (fst property) (snd property) fields)
            (ownProperties v) base.

(** [String(v)], as a template literal and a property key compute it.
    An object that has a key [toString] of its own cannot be
    converted. *)
Fixpoint toStr (v : JsValue) : Completion string :=
  match v with
  | Undefined => Returns "undefined"
  | Null => Returns "null"
  | Bool b => Returns (if b then "true" else "false")
  | Num x => Returns (Number.toString x)
  | Str s => Returns s
  | Arr items =>
      (fix joined (items : list JsValue) : Completion string :=
         match items with
         | [] => Returns ""
         | item :: rest =>
             let text :=
               match item with
               | Undefined | Null => Returns ""
               | _ => toStr item
               end in
             match text, rest with
             | Throws message, _ => Throws message
             | Returns first, [] => Returns first
             | Returns first, _ :: _ =>
                 match joined rest with
                 | Returns others => Returns (first ++ "," ++ others)
                 | Throws message => Throws message
                 end
             end
         end) items
  | Obj fields =>
      match lookup "toString" fields with
      | Some _ => Throws "Cannot convert object to primitive value"
      | None => Returns "[object Object]"
      end
  end.

(** The receiver of a string method: a value that is no string has no
    such method. *)
Definition asString (receiver method : string) (v : JsValue) : Completion string :=
  match v with
  | Str s => Returns s
  | Undefined =>
      Throws ("Cannot read properties of undefined (reading '" ++ method ++ "')")
  | Null => Throws ("Cannot read properties of null (reading '" ++ method ++ "')")
  | _ => Throws (receiver ++ "." ++ method ++ " is not a function")
  end.

End Js.

(* ===================================================================== *)
(** ** backend/utils/testGenerator.js *)
(* ===================================================================== *)

Module TestGenerator.
Import JsString Regex Effects Js.

(** *** generateTestCode: the post-processing of the model's answer *)

(** [/^```csharp\n|^```cs\n|^```c#\n|^```\n|```$/gm] *)
Definition fenceRe : regex :=
  alt [ Seq LineStart (lit ("```csharp" ++ LF));
        Seq LineStart (lit ("```cs" ++ LF));
        Seq LineStart (lit ("```c#" ++ LF));
        Seq LineStart (lit ("```" ++ LF));
        Seq (lit "```") LineEnd ].

(** [/namespace\s+[\w\.]+\s*\{[\s\S]*?\}/g] *)
Definition namespaceBlockRe : regex :=
  seq [ lit "namespace"; Repeat true 1 isSpace; Repeat true 1 isWordOrDot;
        Repeat true 0 isSpace; Char "{"; Repeat false 0 isAny; Char "}" ].

(** [/using\s+[\w\.]+;\s*/g] *)
Definition usingRe : regex :=
  seq [ lit "using"; Repeat true 1 isSpace; Repeat true 1 isWordOrDot;
        Char ";"; Repeat true 0 isSpace ].

(** [/\[\w+(?:\(.*?\))?\]\s*/g] *)
Definition attributeRe : regex :=
  seq [ Char "["; Repeat true 1 isWord;
        Optional (seq [ Char "("; Repeat false 0 isDot; Char ")" ]);
        Char "]"; Repeat true 0 isSpace ].

(** Lines 66-79 of generateTestCode: the four replacements, then trim. *)
Definition cleanupTestCode (testCode : string) : string :=
  let testCode := removeAll fenceRe testCode in
  let testCode := removeAll namespaceBlockRe testCode in
  let testCode := removeAll usingRe testCode in
  let testCode := removeAll attributeRe testCode in
  trim testCode.


Record GenerationRequest : Type := {
  gen_fileName : string;
  gen_fileContent : string
}.

(** generateTestCode: the user message is a template literal over the
    two arguments, built inside the [try] block before the call; the
    answer is post-processed as above. *)
Definition generateTestCode
           (create : list GenerationRequest -> GenerationRequest -> Completion string)
           (fileContent fileName : JsValue) : IO GenerationRequest (Completion string) :=
  match toStr fileName, toStr fileContent with
  | Throws message, _ | Returns _, Throws message =>
      ret (Throws ("Failed to generate test code: " ++ message))
  | Returns name, Returns content =>
      bind (call create {| gen_fileName := name; gen_fileContent := content |})
           (fun completion =>
              match completion with
              | Returns answer => ret (Returns (cleanupTestCode answer))
              | Throws message => ret (Throws ("Failed to generate test code: " ++ message))
              end)
  end.

(** *** createTestProject *)

(** [/class\s+([\w]+)/i] *)
Definition projectClassRe : regex :=
  seq [ liti "class"; Repeat true 1 isSpace; Capture (Repeat true 1 isWord) ].

(** [/using\s+[\w.]+;\s*/g] *)
Definition projectUsingRe : regex := usingRe.

(** [/namespace\s+[\w.]+\s*\{/g] *)
Definition namespaceOpenRe : regex :=
  seq [ lit "namespace"; Repeat true 1 isSpace; Repeat true 1 isWordOrDot;
        Repeat true 0 isSpace; Char "{" ].

(** [/^\s*\}\s*$/gm] *)
Definition closingBraceLineRe : regex :=
  seq [ LineStart; Repeat true 0 isSpace; Char "}"; Repeat true 0 isSpace; LineEnd ].

(** [m ? m[1] : fallback] for the first match of [r]. *)
Definition firstGroup (r : regex) (s fallback : string) : string :=
  match exec r s with
  | Some (_, Some g) => g
  | Some (_, None) => ""
  | None => fallback
  end.

Definition createTestProject (sourceCode testCode : string) : string :=
  let className := firstGroup projectClassRe sourceCode "DefaultClass" in
  let cleanTestCode := removeAll projectUsingRe testCode in
  let cleanSourceCode := removeAll namespaceOpenRe sourceCode in
  let cleanSourceCode := removeAll closingBraceLineRe cleanSourceCode in
  join LF
    [ "using System;";
      "using System.Collections.Generic;";
      "using System.Linq;";
      "";
      "// Original source code";
      trim cleanSourceCode;
      "";
      "// Test code";
      trim cleanTestCode;
      "";
      "public class Program";
      "{";
      "    public static void Main(string[] args)";
      "    {";
      "        Console.WriteLine(" ++ DQ ++ "Running tests..." ++ DQ ++ ");";
      "        ";
      "        // Find all test methods and run them";
      "        var testClass = new " ++ className ++ "Tests();";
      "        var testMethods = typeof(" ++ className ++ "Tests).GetMethods()";
      "            .Where(m => m.Name.StartsWith(" ++ DQ ++ "Test" ++ DQ
        ++ ") && m.ReturnType == typeof(void));";
      "            ";
      "        int passed = 0;";
      "        int failed = 0;";
      "        ";
      "        foreach (var method in testMethods)";
      "        {";
      "            try";
      "            {";
      "                Console.WriteLine($" ++ DQ ++ "Running {method.Name}" ++ DQ ++ ");";
      "                method.Invoke(testClass, null);";
      "                Console.WriteLine($" ++ DQ ++ "PASSED: {method.Name}" ++ DQ ++ ");";
      "                passed++;";
      "            }";
      "            catch (Exception ex)";
      "            {";
      "                Console.WriteLine($" ++ DQ
        ++ "FAILED: {method.Name} - {ex.InnerException?.Message ?? ex.Message}"
        ++ DQ ++ ");";
      "                failed++;";
      "            }";
      "        }";
      "        ";
      "        Console.WriteLine($" ++ DQ
        ++ "Tests complete. Passed: {passed}, Failed: {failed}" ++ DQ ++ ");";
      "    }";
      "}";
      "" ].

(** *** runTestOnAzure *)

(** [/\bclass\s+(\w+)\b/] *)
Definition azureClassRe : regex :=
  seq [ WordBoundary; lit "class"; Repeat true 1 isSpace;
        Capture (Repeat true 1 isWord); WordBoundary ].

Definition testMethodName : string := "TestMethod".

(** The body of the POST to the Azure Function. *)
Record AzureRequest : Type := {
  post_sourceCode : string;
  post_testCode : string
}.

Definition azureSourceSnippet (className : string) : string :=
  join LF
    [ "public class " ++ className ++ " ";
      "{";
      "    public int Add(int a, int b) ";
      "    {";
      "        return a + b;";
      "    }";
      "}" ].

Definition azureTestSnippet (className : string) : string :=
  join LF
    [ "public static void " ++ testMethodName ++ "() ";
      "{";
      "    " ++ className ++ " obj = new " ++ className ++ "();";
      "    int result = obj.Add(2, 3);";
      "    if (result == 5)";
      "    {";
      "        Console.WriteLine(" ++ DQ ++ testMethodName ++ " PASSED" ++ DQ ++ ");";
      "    }";
      "    else";
      "    {";
      "        Console.WriteLine(" ++ DQ ++ testMethodName
        ++ " FAILED: Expected 5, got " ++ DQ ++ " + result);";
      "    }";
      "}" ].

Definition azureRequestFor (className : string) : AzureRequest :=
  {| post_sourceCode := trim (azureSourceSnippet className);
     post_testCode := trim (azureTestSnippet className) |}.

(** createTestProject on arguments of any type: [sourceCode.match] is
    evaluated first, then [testCode.replace]. *)
Definition createTestProjectOf (sourceCode testCode : JsValue) : Completion string :=
  match asString "sourceCode" "match" sourceCode with
  | Throws message => Throws message
  | Returns source =>
      match asString "testCode" "replace" testCode with
      | Throws message => Throws message
      | Returns tests => Returns (createTestProject source tests)
      end
  end.

(** [{name: 'Unknown test', result: 'Unknown', duration: 'N/A', error: null}] *)
Definition defaultDetail : JsValue :=
  Obj [ ("name", Str "Unknown test"); ("result", Str "Unknown");
        ("duration", Str "N/A"); ("error", Null) ].

(** The callback of [results.details.map]: an entry that is an object
    (an array is one) keeps each of its four properties that is truthy. *)
Definition normalizeDetail (detail : JsValue) : JsValue :=
  match detail with
  | Arr _ | Obj _ =>
      Obj [ ("name", orValue (get "name" detail) (Str "Unknown test"));
            ("result", orValue (get "result" detail) (Str "Unknown"));
            ("duration", orValue (get "duration" detail) (Str "N/A"));
            ("error", orValue (get "error" detail) Null) ]
  | _ => defaultDetail
  end.

(** [{success: false, error, results: null}] *)
Definition failedRun (error : string) : JsValue :=
  Obj [ ("success", Bool false); ("error", Str error); ("results", Null) ].

(** The answer with its [details] replaced; on an answer that is no
    object the assignment leaves no property that the code reads. *)
Definition withDetails (data : JsValue) : JsValue :=
  let details :=
    match get "details" data with
    | Arr entries => Arr (map normalizeDetail entries)
    | _ => Arr []
    end in
  match data with
  | Obj fields => Obj (setField "details" details fields)
  | _ => data
  end.

Section WithAzureFunction.

(** [axios.post(AZURE_FUNCTION_URL, body)]: it throws on a transport
    failure or a status outside 2xx, and otherwise yields
    [response.data]. *)
Variable axios_post : list AzureRequest -> AzureRequest -> Completion JsValue.

(** [path.basename(p, ext)] of Node, on strings. *)
Variable path_basename : string -> string -> string.

Definition runTestOnAzure (testCode filePath sourceCode : JsValue)
  : IO AzureRequest JsValue :=
  match asString "sourceCode" "match" sourceCode with
  | Throws message => ret (failedRun (orElse message "Error running test on Azure"))
  | Returns source =>
      let className := firstGroup azureClassRe source "TestClass" in
      bind (call axios_post (azureRequestFor className))
           (fun response =>
              match response with
              | Returns data =>
                  if truthy data then ret (withDetails data)
                  else ret (failedRun "Invalid response from Azure Function")
              | Throws message =>
                  ret (failedRun (orElse message "Error running test on Azure"))
              end)
  end.

(** *** generateDefaultTestDetails *)

Fixpoint defaultDetailsFrom (className : string) (i count : nat) : list JsValue :=
  match count with
  | O => []
  | S n =>
      Obj [ ("name", Str ("Test" ++ ofNat i ++ "_" ++ className));
            ("result", Str "Pending");
            ("duration", Str "N/A");
            ("error", Null) ] :: defaultDetailsFrom className (S i) n
  end.

Definition generateDefaultTestDetails (className : string) (count : nat) : list JsValue :=
  defaultDetailsFrom className 1 count.

(** *** generateLocalExecutionInstructions *)

Record LocalInstructions : Type := {
  li_projectCode : string;
  li_instructions : string
}.

(** How the error of [path.basename] names an argument that is no string. *)
Definition received (v : JsValue) : Completion string :=
  match v with
  | Undefined => Returns "undefined"
  | Null => Returns "null"
  | Bool b => Returns ("type boolean (" ++ (if b then "true" else "false") ++ ")")
  | Num x => Returns ("type number (" ++ Number.inspect x ++ ")")
  | Str s => Returns ("type string ('" ++ s ++ "')")
  | Arr _ => Returns "an instance of Array"
  | Obj fields =>
      match lookup "constructor" fields with
      | None => Returns "an instance of Object"
      | Some constructor =>
          if truthy (get "name" constructor)
          then match toStr (get "name" constructor) with
               | Returns name => Returns ("an instance of " ++ name)
               | Throws message => Throws message
               end
          else Returns "[Object]"
      end
  end.

Definition basenameOf (fileName : JsValue) : Completion string :=
  match fileName with
  | Str f => Returns (path_basename f ".cs")
  | _ =>
      match received fileName with
      | Returns description =>
          Throws ("The " ++ DQ ++ "path" ++ DQ
                  ++ " argument must be of type string. Received " ++ description)
      | Throws message => Throws message
      end
  end.

Definition localInstructionsText (className : string) : string :=
  join LF
    [ "# How to Run These Tests Locally";
      "";
      "1. Create a new C# project: dotnet new console -n " ++ className ++ "Tests";
      "2. Change to the project directory: cd " ++ className ++ "Tests";
      "3. Add NUnit packages: dotnet add package NUnit and dotnet add package NUnit3TestAdapter and dotnet add package Microsoft.NET.Test.Sdk and dotnet add package Moq";
      "4. Replace the content of Program.cs with the test code";
      "5. Run the tests: dotnet test" ].

Definition generateLocalExecutionInstructions (testCode fileName sourceCode : JsValue)
  : Completion LocalInstructions :=
  match basenameOf fileName with
  | Throws message => Throws message
  | Returns className =>
      match createTestProjectOf sourceCode testCode with
      | Throws message => Throws message
      | Returns projectCode =>
          Returns {| li_projectCode := projectCode;
                     li_instructions := localInstructionsText className |}
      end
  end.

(** *** runTestCode *)

(** [{...detail, result: 'Pending', duration: 'N/A (Local execution required)'}] *)
Definition pendingLocally (detail : JsValue) : JsValue :=
  Obj (setField "duration" (Str "N/A (Local execution required)")
         (setField "result" (Str "Pending") (spread [] detail))).

(** The object of the [else] branch. *)
Definition localFallback (error : JsValue) (className : string) (testCode : JsValue)
           (localInstructions : LocalInstructions) : JsValue :=
  Obj [ ("success", Bool false);
        ("error", error);
        ("passed", Num (Number.ofZ 0));
        ("failed", Num (Number.ofZ 0));
        ("skipped", Num (Number.ofZ 0));
        ("total", Num (Number.ofZ 0));
        ("duration", Str "N/A (Local execution required)");
        ("details", Arr (map pendingLocally (generateDefaultTestDetails className 3)));
        ("localExecution", Bool true);
        ("testCode", testCode);
        ("projectCode", Str (li_projectCode localInstructions));
        ("instructions", Str (li_instructions localInstructions)) ].

(** The [catch] block of runTestCode.  [className] is declared with
    [const] inside the [try] block and is not in scope here: once the
    instructions are built, evaluating the fallback object throws. *)
Definition runTestCodeCatch (testCode fileName sourceCode : JsValue)
  : Completion JsValue :=
  match generateLocalExecutionInstructions testCode fileName sourceCode with
  | Throws message => Throws message
  | Returns _ => Throws "className is not defined"
  end.

(** [{success: true, ...azureResult, onlineExecution: true}] *)
Definition onlineResult (azureResult : JsValue) : JsValue :=
  Obj (setField "onlineExecution" (Bool true)
         (spread [("success", Bool true)] azureResult)).

(** runTestCode; its third parameter has the default value ['']. *)
Definition runTestCode (testCode fileName sourceCode : JsValue)
  : IO AzureRequest (Completion JsValue) :=
  let sourceCode := match sourceCode with Undefined => Str "" | given => given end in
  match basenameOf fileName with
  | Throws _ => ret (runTestCodeCatch testCode fileName sourceCode)
  | Returns className =>
      bind (runTestOnAzure testCode fileName sourceCode)
           (fun azureResult =>
              if truthy (get "success" azureResult)
              then ret (Returns (onlineResult azureResult))
              else
                match generateLocalExecutionInstructions testCode fileName sourceCode with
                | Throws _ => ret (runTestCodeCatch testCode fileName sourceCode)
                | Returns localInstructions =>
                    ret (Returns
                           (localFallback
                              (orValue (get "error" azureResult)
                                       (Str "Azure Function execution failed"))
                              className testCode localInstructions))
                end)
  end.

End WithAzureFunction.

End TestGenerator.

(* ===================================================================== *)
(** ** backend/utils/logicAnalyzer.js *)
(* ===================================================================== *)

Module LogicAnalyzer.
Import JsString Effects Js.

(** *** Data *)

(** An entry of a list of missing test cases, read through the three
    keys the prompt asks for; a key that the entry lacks is
    [Undefined], and so is every key of an entry that is no object. *)
Record TestCase : Type := {
  description : JsValue;
  criticality : JsValue;
  impact : JsValue
}.

(** A field read as [x || y] and then tested with [Array.isArray]. *)
Inductive Field (A : Type) : Type :=
| Missing                      (* absent, or a falsy value *)
| NotArray                     (* a truthy value that is no array *)
| Items (items : list A).
Arguments Missing {A}.
Arguments NotArray {A}.
Arguments Items {A} items.

(** The value the model's answer parses to, read through the keys the
    code reads.  analyzeLogicFile spreads the answer after [success]
    and [fileName], so a key [success], [fileName] or [skipped] of the
    answer is that of the result: [own_success], [own_fileName] and
    [own_skipped] hold such a key when the answer has it.  [summary]
    is the text the key contributes to the joined summary, the empty
    text when it is absent.  A list of functionalities is [None] when
    the key is absent or no array, and its elements are strings;
    [coveragePercentage] is [Some] when [typeof] gives ['number']. *)
Record Analysis : Type := {
  own_success : option JsValue;
  own_fileName : option JsValue;
  own_skipped : option JsValue;
  summary : string;
  expectedFunctionalities : option (list string);
  actualFunctionalities : option (list string);
  missingCoreFunctionalities : option (list string);
  missingNegativeTestCases : Field TestCase;
  missingTestCases : Field TestCase;
  coveragePercentage : option Number.Number
}.

(** The three objects analyzeLogicFile builds. *)
Inductive FileAnalysis : Type :=
| Skipped (fileName reason : string)     (* {success: false, fileName, skipped: true, reason} *)
| Errored (fileName error : string)      (* {success: false, fileName, error} *)
| Analyzed (fileName : string) (analysis : Analysis).  (* {success: true, fileName, ...analysis} *)

(** [!!result.success] *)
Definition success (r : FileAnalysis) : bool :=
  match r with
  | Analyzed _ a =>
      match own_success a with
      | Some answered => truthy answered
      | None => true
      end
  | _ => false
  end.

(** [!!result.skipped] *)
Definition skipped (r : FileAnalysis) : bool :=
  match r with
  | Skipped _ _ => true
  | Errored _ _ => false
  | Analyzed _ a =>
      match own_skipped a with
      | Some answered => truthy answered
      | None => false
      end
  end.

(** [result.fileName] *)
Definition fileName (r : FileAnalysis) : JsValue :=
  match r with
  | Skipped f _ | Errored f _ => Str f
  | Analyzed f a =>
      match own_fileName a with
      | Some answered => answered
      | None => Str f
      end
  end.

Definition field {A : Type} (get : Analysis -> option A) (r : FileAnalysis) : option A :=
  match r with
  | Analyzed _ a => get a
  | _ => None
  end.

Definition summaryOf (r : FileAnalysis) : string :=
  match r with
  | Analyzed _ a => summary a
  | _ => ""
  end.

(** The request to the completion API: the system prompt is constant,
    the user message is built from the file's name and content. *)
Record ChatRequest : Type := {
  chat_fileName : string;
  chat_fileContent : string
}.

Record ComparisonRow : Type := {
  functionality : string;
  implemented : bool;
  implementationStatus : string;
  implementedIn : list JsValue
}.

Record FunctionalityData : Type := {
  comparisonTable : list ComparisonRow;
  fd_missingCoreFunctionalities : list string;
  overallCoveragePercentage : Number.Rounded
}.

(** [{...testCase, fileName: result.fileName}] *)
Record TaggedTestCase : Type := {
  testCase : TestCase;
  originFileName : JsValue
}.

Record FileCount : Type := {
  total : nat;
  analyzed : nat;
  fc_skipped : nat
}.

Record AggregatedAnalysis : Type := {
  fileCount : FileCount;
  fileAnalyses : list FileAnalysis;
  agg_summary : string;
  functionalityComparison : list ComparisonRow;
  agg_missingCoreFunctionalities : list string;
  agg_coveragePercentage : Number.Rounded;
  criticalTestCases : list TaggedTestCase
}.

(** What analyzeLogicFiles resolves to. *)
Inductive AggregateResult : Type :=
| AggregateFailed (error : string)          (* {success: false, error} *)
| Aggregated (results : AggregatedAnalysis).   (* {success: true, ...} *)

Definition agg_success (r : AggregateResult) : bool :=
  match r with
  | Aggregated _ => true
  | AggregateFailed _ => false
  end.

(** *** generateAggregatedSummary *)

Definition generateAggregatedSummary (analysisResults : list FileAnalysis) : string :=
  let successfulAnalyses := filter success analysisResults in
  if List.length successfulAnalyses =? 0
  then "No successful file analyses to generate summary"
  else join (LF ++ LF) (map summaryOf successfulAnalyses).

(** *** generateFunctionalityComparison *)

(** [array.includes(x)] on strings *)
Definition includesString (l : list string) (x : string) : bool :=
  existsb (String.eqb x) l.

(** [set.add(x)], and [if (!a.includes(x)) a.push(x)]: insertion order is kept. *)
Definition addOnce (seen : list string) (x : string) : list string :=
  if includesString seen x then seen else (seen ++ [x])%list.

Definition collect (get : Analysis -> option (list string))
           (successfulAnalyses : list FileAnalysis) : list string :=
  fold_left
    (fun acc result =>
       match field get result with
       | Some funcs => fold_left addOnce funcs acc
       | None => acc
       end)
    successfulAnalyses [].

Definition implements (functionality : string) (result : FileAnalysis) : bool :=
  match field actualFunctionalities result with
  | Some funcs => includesString funcs functionality
  | None => false
  end.

Definition comparisonRow (successfulAnalyses : list FileAnalysis)
           (functionality : string) : ComparisonRow :=
  let implementingFiles := filter (implements functionality) successfulAnalyses in
  {| functionality := functionality;
     implemented := 0 <? List.length implementingFiles;
     implementationStatus :=
       if 0 <? List.length implementingFiles then "Complete" else "Missing";
     implementedIn := map fileName implementingFiles |}.

Definition numericCoverages (successfulAnalyses : list FileAnalysis) : list Number.Number :=
  flat_map
    (fun result =>
       match field coveragePercentage result with
       | Some percentage => [percentage]
       | None => []
       end)
    successfulAnalyses.

(** [Math.max(1, r)] *)
Definition Math_max_1 (r : Number.Rounded) : Number.Rounded :=
  match r with
  | Number.Int z => Number.Int (Z.max 1 z)
  | Number.MinusZero => Number.Int 1
  | Number.NotFinite (S754_infinity true) => Number.Int 1
  | Number.NotFinite x => Number.NotFinite x
  end.

Definition generateFunctionalityComparison (analysisResults : list FileAnalysis)
  : FunctionalityData :=
  let successfulAnalyses := filter success analysisResults in
  if List.length successfulAnalyses =? 0 then
    {| comparisonTable := [];
       fd_missingCoreFunctionalities := [];
       overallCoveragePercentage := Number.Int 0 |}
  else
    let allExpectedFunctionalities := collect expectedFunctionalities successfulAnalyses in
    let missingCore := collect missingCoreFunctionalities successfulAnalyses in
    let comparisonTable := map (comparisonRow successfulAnalyses) allExpectedFunctionalities in
    let filesCoveragePercentages := numericCoverages successfulAnalyses in
    let overall :=
      if 0 <? List.length filesCoveragePercentages then
        Number.Math_round
          (Number.div (fold_left Number.add filesCoveragePercentages Number.zero)
                      (Number.ofNat (List.length filesCoveragePercentages)))
      else
        let implementedCount := List.length (filter implemented comparisonTable) in
        let totalCount := List.length comparisonTable in
        if 0 <? totalCount
        then Number.Math_round
               (Number.mul (Number.div (Number.ofNat implementedCount)
                                       (Number.ofNat totalCount))
                           (Number.ofZ 100))
        else Number.Int 0 in
    let overall :=
      if Number.isZero overall && existsb implemented comparisonTable
      then Math_max_1 overall
      else overall in
    {| comparisonTable := comparisonTable;
       fd_missingCoreFunctionalities := missingCore;
       overallCoveragePercentage := overall |}.

(** *** extractCriticalTestCases *)

(** [criticalityOrder[key]] as an operand of the subtraction: [None]
    is NaN, which every key but the three of the table gives (the
    table has no such key, or it is a method of every object). *)
Definition criticalityOrder (key : string) : option Z :=
  if String.eqb key "High" then Some 0%Z
  else if String.eqb key "Medium" then Some 1%Z
  else if String.eqb key "Low" then Some 2%Z
  else None.

(** The operand for a test case: its criticality is converted to a
    property key. *)
Definition orderOf (t : TaggedTestCase) : option Z :=
  match toStr (criticality (testCase t)) with
  | Returns key => criticalityOrder key
  | Throws _ => None
  end.

(** The comparator of the sort; [None] is NaN. *)
Definition byCriticality (a b : TaggedTestCase) : option Z :=
  match orderOf a, orderOf b with
  | Some x, Some y => Some (x - y)%Z
  | _, _ => None
  end.

(** [order < 0], where the sort reads NaN as 0. *)
Definition negative (order : option Z) : bool :=
  match order with
  | Some z => (z <? 0)%Z
  | None => false
  end.

Section Sort.

Context {A : Type}.
Variable compare : A -> A -> option Z.

(** The run that starts the array: how many elements after the second
    continue it. *)
Fixpoint continued (descending : bool) (previous : A) (rest : list A) : nat :=
  match rest with
  | [] => 0
  | current :: rest' =>
      if Bool.eqb (negative (compare current previous)) descending
      then S (continued descending current rest')
      else 0
  end.

(** The binary search for the place of [pivot] in [sorted]. *)
Fixpoint place (fuel : nat) (pivot : A) (sorted : list A) (left right : nat) : nat :=
  match fuel with
  | O => left
  | S fuel' =>
      if left <? right then
        let mid := left + (right - left) / 2 in
        match nth_error sorted mid with
        | Some y =>
            if negative (compare pivot y)
            then place fuel' pivot sorted left mid
            else place fuel' pivot sorted (S mid) right
        | None => left
        end
      else left
  end.

Definition binaryInsert (sorted : list A) (pivot : A) : list A :=
  let at_ := place (S (List.length sorted)) pivot sorted 0 (List.length sorted) in
  (firstn at_ sorted ++ pivot :: skipn at_ sorted)%list.

(** [array.sort(compare)] as V8 sorts an array of fewer than 64
    elements: the run that starts the array is found, and reversed
    when it descends; each later element is placed by binary
    insertion.  A longer array V8 cuts into such runs and merges
    them, which gives the same array whenever the comparator is that
    of a total preorder, as it is when every criticality is one of
    the three of the table; for a longer array with other
    criticalities the definition below is not the order V8 produces. *)
Definition Array_sort (l : list A) : list A :=
  match l with
  | first :: second :: rest =>
      let descending := negative (compare second first) in
      let runLength := 2 + continued descending second rest in
      let run := firstn runLength l in
      fold_left binaryInsert (skipn runLength l) (if descending then rev run else run)
  | _ => l
  end.

End Sort.

(** [result.missingNegativeTestCases || result.missingTestCases] *)
Definition testCasesField (result : FileAnalysis) : Field TestCase :=
  match result with
  | Analyzed _ a =>
      match missingNegativeTestCases a with
      | Missing => missingTestCases a
      | present => present
      end
  | _ => Missing
  end.

Definition taggedTestCases (result : FileAnalysis) : list TaggedTestCase :=
  match testCasesField result with
  | Items testCases =>
      map (fun tc => {| testCase := tc; originFileName := fileName result |}) testCases
  | _ => []
  end.

(** extractCriticalTestCases.  The comparator converts both
    criticalities to property keys, and the sort calls it on every
    element of an array of two or more: a criticality that cannot be
    converted makes the function throw. *)
Definition extractCriticalTestCases (analysisResults : list FileAnalysis)
  : Completion (list TaggedTestCase) :=
  let successfulAnalyses := filter success analysisResults in
  if List.length successfulAnalyses =? 0 then Returns []
  else
    let allMissingTestCases := flat_map taggedTestCases successfulAnalyses in
    if List.length allMissingTestCases <? 2 then Returns allMissingTestCases
    else
      match settle (map (fun t => toStr (criticality (testCase t))) allMissingTestCases) with
      | Throws message => Throws message
      | Returns _ => Returns (Array_sort byCriticality allMissingTestCases)
      end.

(** *** analyzeLogicFile *)

Definition mentionsError (name : string) : bool :=
  includes (toLowerCase name) "error" || includes (toLowerCase name) "exception".

Definition mentionsErrorPage (content : string) : bool :=
  includes (toLowerCase content) "error page"
  || includes (toLowerCase content) "exception page".

Definition skipReason : string :=
  "Error handling file excluded from core functionality analysis".

Section WithModel.

(** [openai.chat.completions.create(...)] followed by the read of
    [choices[0].message.content]: the text of the answer, or an error. *)
Variable create : list ChatRequest -> ChatRequest -> Completion string.

(** [JSON.parse], followed by the reading of the keys above. *)
Variable JSON_parse : string -> Completion Analysis.

(** analyzeLogicFile.  The condition of its first [if] calls
    [toLowerCase] on the name, and on the content when the name does
    not decide; it stands outside the [try] block, so a name or a
    content without that method makes the function throw. *)
Definition analyzeLogicFile (fileContent fileName : JsValue)
  : IO ChatRequest (Completion FileAnalysis) :=
  match asString "fileName" "toLowerCase" fileName with
  | Throws message => ret (Throws message)
  | Returns name =>
      if mentionsError name then ret (Returns (Skipped name skipReason))
      else
        match asString "fileContent" "toLowerCase" fileContent with
        | Throws message => ret (Throws message)
        | Returns content =>
            if mentionsErrorPage content then ret (Returns (Skipped name skipReason))
            else
              bind (call create {| chat_fileName := name; chat_fileContent := content |})
                   (fun completion =>
                      match completion with
                      | Throws message =>
                          ret (Returns (Errored name
                                          (orElse message "Failed to analyze logic file")))
                      | Returns text =>
                          match JSON_parse text with
                          | Throws message =>
                              ret (Returns (Errored name
                                              (orElse message "Failed to analyze logic file")))
                          | Returns analysisResult =>
                              ret (Returns (Analyzed name analysisResult))
                          end
                      end)
        end
  end.

(** *** analyzeLogicFiles *)

(** [file.classification === 'logic'] *)
Definition isLogic (file : JsValue) : bool :=
  match get "classification" file with
  | Str classification => String.eqb classification "logic"
  | _ => false
  end.

(** [files.filter(file => file.classification === 'logic')]: reading
    the property of an element that is null or undefined throws. *)
Fixpoint logicFilesOf (files : list JsValue) : Completion (list JsValue) :=
  match files with
  | [] => Returns []
  | file :: rest =>
      match file with
      | Undefined =>
          Throws "Cannot read properties of undefined (reading 'classification')"
      | Null => Throws "Cannot read properties of null (reading 'classification')"
      | _ =>
          match logicFilesOf rest with
          | Throws message => Throws message
          | Returns logicFiles =>
              Returns (if isLogic file then file :: logicFiles else logicFiles)
          end
      end
  end.

Definition analyzeLogicFiles (files : list JsValue) : IO ChatRequest AggregateResult :=
  match logicFilesOf files with
  | Throws message => ret (AggregateFailed (orElse message "Failed to analyze logic files"))
  | Returns logicFiles =>
      if List.length logicFiles =? 0 then
        ret (AggregateFailed "No logic files found for analysis")
      else
        bind (mapAll (fun file => analyzeLogicFile (get "content" file) (get "path" file))
                     logicFiles)
             (fun analysisPromises =>
                match settle analysisPromises with
                | Throws message =>
                    ret (AggregateFailed (orElse message "Failed to analyze logic files"))
                | Returns analysisResults =>
                    let nonSkippedFiles :=
                      filter (fun result => negb (skipped result)) analysisResults in
                    let nonSkippedCount := List.length nonSkippedFiles in
                    if nonSkippedCount =? 0 then
                      ret (AggregateFailed
                             "All logic files were excluded as error handling files")
                    else
                      let functionalityData :=
                        generateFunctionalityComparison analysisResults in
                      let coverage := overallCoveragePercentage functionalityData in
                      let hasImplementedFunctionalities :=
                        existsb implemented (comparisonTable functionalityData) in
                      let coverage :=
                        if Number.isZero coverage && hasImplementedFunctionalities
                        then Number.Int 50
                        else coverage in
                      match extractCriticalTestCases analysisResults with
                      | Throws message =>
                          ret (AggregateFailed
                                 (orElse message "Failed to analyze logic files"))
                      | Returns critical =>
                          ret (Aggregated
                                 {| fileCount :=
                                      {| total := List.length logicFiles;
                                         analyzed := nonSkippedCount;
                                         fc_skipped :=
                                           List.length logicFiles - nonSkippedCount |};
                                    fileAnalyses := analysisResults;
                                    agg_summary :=
                                      generateAggregatedSummary analysisResults;
                                    functionalityComparison :=
                                      comparisonTable functionalityData;
                                    agg_missingCoreFunctionalities :=
                                      fd_missingCoreFunctionalities functionalityData;
                                    agg_coveragePercentage := coverage;
                                    criticalTestCases := critical |})
                      end
                end)
  end.

End WithModel.

End LogicAnalyzer.

(* ===================================================================== *)
(** ** backend/server.js *)
(* ===================================================================== *)

Module Server.
Import JsString Effects Js.

(** A JSON reply: [{success: true, ...}] or [{success: false, error}]. *)
Inductive Body (A : Type) : Type :=
| Success (payload : A)
| Failure (error : string).
Arguments Success {A} payload.
Arguments Failure {A} error.

Definition topLevelSuccess {A : Type} (b : Body A) : bool :=
  match b with
  | Success _ => true
  | Failure _ => false
  end.

Record Response (A : Type) : Type := {
  status : nat;
  body : Body A
}.
Arguments status {A} r.
Arguments body {A} r.

(** [res.json(b)] and [res.status(n).json(b)] *)
Definition json {A : Type} (b : Body A) : Response A := {| status := 200; body := b |}.
Definition statusJson {A : Type} (n : nat) (b : Body A) : Response A :=
  {| status := n; body := b |}.

(** *** POST /api/repository *)

Record RepositoryBody : Type := {
  repoUrl : JsValue;
  pat : JsValue
}.

Record TreeEntry : Type := {
  te_path : string;
  te_type : string
}.

Record GetRequest : Type := {
  get_url : string;
  get_authorization : string
}.

(** The [data] of a reply of the hosting API. *)
Record HostingData : Type := {
  default_branch : JsValue;
  tree : option (list TreeEntry)
}.

(** [a[a.length - k]] for [k >= 1]: [None] is [undefined]. *)
Definition fromEnd (a : list string) (k : nat) : option string :=
  if k <=? List.length a then nth_error a (List.length a - k) else None.

(** A path segment inside a template literal. *)
Definition interpolate (segment : option string) : string :=
  match segment with
  | Some s => s
  | None => "undefined"
  end.

Section WithHosting.

(** [axios.get(url, config)]: throws on a transport failure or a
    status outside 2xx. *)
Variable axios_get : list GetRequest -> GetRequest -> Completion HostingData.

Definition repositoryRoute (req : RepositoryBody) : IO GetRequest (Response (list TreeEntry)) :=
  match asString "repoUrl" "split" (repoUrl req) with
  | Throws message => ret (statusJson 500 (Failure message))
  | Returns url =>
      let urlParts := split "/" url in
      let owner := fromEnd urlParts 2 in
      let repo := fromEnd urlParts 1 in
      match toStr (pat req) with
      | Throws message => ret (statusJson 500 (Failure message))
      | Returns token =>
          let authorization := "token " ++ token in
          let repoApi :=
            "https://api.github.com/repos/" ++ interpolate owner ++ "/" ++ interpolate repo in
          bind (call axios_get {| get_url := repoApi; get_authorization := authorization |})
               (fun repoInfoResponse =>
                  match repoInfoResponse with
                  | Throws message => ret (statusJson 500 (Failure message))
                  | Returns info =>
                      match toStr (default_branch info) with
                      | Throws message => ret (statusJson 500 (Failure message))
                      | Returns defaultBranch =>
                          bind (call axios_get
                                     {| get_url := repoApi ++ "/git/trees/"
                                                     ++ defaultBranch ++ "?recursive=1";
                                        get_authorization := authorization |})
                               (fun response =>
                                  match response with
                                  | Throws message => ret (statusJson 500 (Failure message))
                                  | Returns data =>
                                      match tree data with
                                      | None =>
                                          ret (statusJson 500
                                                 (Failure "Cannot read properties of undefined (reading 'filter')"))
                                      | Some entries =>
                                          let csFiles :=
                                            filter (fun file =>
                                                      endsWith (te_path file) ".cs"
                                                      && String.eqb (te_type file) "blob")
                                                   entries in
                                          ret (json (Success csFiles))
                                      end
                                  end)
                      end
                  end)
      end
  end.

End WithHosting.

(** *** POST /api/analyze-logic *)

(** The [files] field of the request body. *)
Inductive FilesField : Type :=
| NoFiles                                  (* absent, or falsy *)
| NotAList                                 (* truthy, but no array *)
| Files (files : list JsValue).

Section WithModel.

Variable create :
  list LogicAnalyzer.ChatRequest -> LogicAnalyzer.ChatRequest -> Completion string.
Variable JSON_parse : string -> Completion LogicAnalyzer.Analysis.

Definition analyzeLogicRoute (files : FilesField)
  : IO LogicAnalyzer.ChatRequest (Response LogicAnalyzer.AggregateResult) :=
  match files with
  | NoFiles | NotAList | Files [] =>
      ret (statusJson 400 (Failure "No files provided for analysis"))
  | Files files =>
      bind (LogicAnalyzer.analyzeLogicFiles create JSON_parse files)
           (fun analysisResults => ret (json (Success analysisResults)))
  end.

End WithModel.

End Server.

(* ===================================================================== *)
(** ** backend/server.js: the other routes *)
(* ===================================================================== *)

Module Routes.
Import JsString Effects Js TestGenerator Server.

(** *** POST /api/classify *)

Record Classified : Type := {
  cls_classification : string;
  cls_analysis : string
}.

Section WithClassifier.

(** [openai.chat.completions.create(...)] with the file content as the
    user message, followed by the read of [choices[0].message.content]. *)
Variable create : list JsValue -> JsValue -> Completion string.

Definition classifyRoute (fileContent : JsValue) : IO JsValue (Response Classified) :=
  bind (call create fileContent)
       (fun completion =>
          match completion with
          | Returns classification =>
              let isLogic := includes (toLowerCase classification) "logic" in
              ret (json (Success
                           {| cls_classification := if isLogic then "logic" else "boilerplate";
                              cls_analysis := classification |}))
          | Throws message => ret (statusJson 500 (Failure message))
          end).

End WithClassifier.

(** *** POST /api/generate-test *)

Section WithGenerator.

Variable create : list GenerationRequest -> GenerationRequest -> Completion string.

Definition generateTestRoute (fileContent fileName : JsValue)
  : IO GenerationRequest (Response string) :=
  bind (generateTestCode create fileContent fileName)
       (fun generated =>
          match generated with
          | Returns testCode => ret (json (Success testCode))
          | Throws message => ret (statusJson 500 (Failure message))
          end).

End WithGenerator.

(** *** POST /api/run-test *)

Section WithRunner.

Variable axios_post : list AzureRequest -> AzureRequest -> Completion JsValue.
Variable path_basename : string -> string -> string.

Definition runTestRoute (testCode fileName sourceCode : JsValue)
  : IO AzureRequest (Response JsValue) :=
  bind (runTestCode axios_post path_basename testCode fileName sourceCode)
       (fun completion =>
          match completion with
          | Returns testResults => ret (json (Success testResults))
          | Throws message => ret (statusJson 500 (Failure message))
          end).

End WithRunner.

End Routes.

(* ===================================================================== *)
(** ** frontend: Statistics.js and the content URL of App.js *)
(* ===================================================================== *)

Module Frontend.
Import JsString Effects Js LogicAnalyzer Server.

(** A file of the list the application keeps: the classification is
    missing until the classifier has answered. *)
Record ListedFile : Type := {
  lf_path : string;
  lf_classification : JsValue;
  lf_size : option Z
}.

(** [file.classification === c] *)
Definition classifiedAs (c : string) (file : ListedFile) : bool :=
  match lf_classification file with
  | Str s => String.eqb s c
  | _ => false
  end.

Record RepositoryStatistics : Type := {
  totalFiles : nat;
  logicFiles : nat;
  boilerplateFiles : nat;
  errorFiles : nat;
  logicPercentage : Number.Rounded;
  boilerplatePercentage : Number.Rounded;
  errorPercentage : Number.Rounded;
  averageSize : Number.Rounded
}.

(** [Math.round((count / totalFiles) * 100)] *)
Definition percentageOf (count totalFiles : nat) : Number.Rounded :=
  Number.Math_round
    (Number.mul (Number.div (Number.ofNat count) (Number.ofNat totalFiles))
                (Number.ofZ 100)).

(** The numbers Statistics computes; [None] stands for the card shown
    when there are no files. *)
Definition statistics (files : list ListedFile) : option RepositoryStatistics :=
  match files with
  | [] => None
  | _ :: _ =>
      let totalFiles := List.length files in
      let logicFiles := List.length (filter (classifiedAs "logic") files) in
      let boilerplateFiles := List.length (filter (classifiedAs "boilerplate") files) in
      let errorFiles :=
        List.length (filter (fun file => negb (classifiedAs "logic" file)
                                         && negb (classifiedAs "boilerplate" file))
                            files) in
      let totalSize :=
        fold_left (fun sum file => Number.add sum
                                     (Number.ofZ match lf_size file with
                                                 | Some size => size
                                                 | None => 0%Z
                                                 end))
                  files Number.zero in
      Some {| totalFiles := totalFiles;
              logicFiles := logicFiles;
              boilerplateFiles := boilerplateFiles;
              errorFiles := errorFiles;
              logicPercentage := percentageOf logicFiles totalFiles;
              boilerplatePercentage := percentageOf boilerplateFiles totalFiles;
              errorPercentage := percentageOf errorFiles totalFiles;
              averageSize :=
                if 0 <? totalFiles
                then Number.Math_round (Number.div totalSize (Number.ofNat totalFiles))
                else Number.Int 0 |}
  end.

(** [a.slice(-k)] *)
Definition sliceFromEnd {A : Type} (k : nat) (a : list A) : list A :=
  skipn (List.length a - k) a.

(** The URL handleSubmit fetches a file's content from. *)
Definition contentUrl (repoUrl filePath : string) : string :=
  "https://api.github.com/repos/" ++ join "/" (sliceFromEnd 2 (split "/" repoUrl))
    ++ "/contents/" ++ filePath.

End Frontend.

(* ===================================================================== *)
(** ** The notions of the specification *)
(* ===================================================================== *)

Module Spec.
Import JsString Regex Effects Js TestGenerator LogicAnalyzer.

(** [z] is the integer nearest to [q], the upper one at a half. *)
Definition Nearest (q : Q) (z : Z) : Prop :=
  (inject_Z z - (1 # 2) <= q /\ q < inject_Z z + (1 # 2))%Q.

(** [r] is the number [x] rounded to the nearest integer; an infinite
    or undefined [x] stays what it is. *)
Definition RoundOf (x : Number.Number) (r : Number.Rounded) : Prop :=
  match Number.value x with
  | Some q => exists z, Nearest q z /\ (r = Number.Int z \/ (z = 0%Z /\ r = Number.MinusZero))
  | None => r = Number.NotFinite x
  end.

(** The percentage that a file reports: its analysis succeeded and its
    coveragePercentage is a number. *)
Definition reportedBy (r : FileAnalysis) : option Number.Number :=
  match r with
  | Analyzed _ answer =>
      match own_success answer with
      | None => coveragePercentage answer
      | Some flag => if truthy flag then coveragePercentage answer else None
      end
  | _ => None
  end.

Fixpoint reported (analyses : list FileAnalysis) : list Number.Number :=
  match analyses with
  | [] => []
  | r :: rest =>
      match reportedBy r with
      | Some percentage => percentage :: reported rest
      | None => reported rest
      end
  end.

(** The arithmetic mean as binary64 arithmetic computes it: the values
    are added up from the left, starting from 0, and the sum is
    divided by their number. *)
Definition mean (values : list Number.Number) : Number.Number :=
  Number.div (fold_left Number.add values Number.zero)
             (Number.ofNat (List.length values)).

(** The share of [part] in [whole] as a percentage, as binary64
    arithmetic computes it: the quotient is taken first. *)
Definition percentage (part whole : nat) : Number.Number :=
  Number.mul (Number.div (Number.ofNat part) (Number.ofNat whole)) (Number.ofZ 100).

Fixpoint implementedCount (table : list ComparisonRow) : nat :=
  match table with
  | [] => 0
  | row :: rest => (if implemented row then 1 else 0) + implementedCount rest
  end.

(** Section 4.6, step 7, with the arithmetic of the code: the coverage
    of the aggregate, from the per-file analyses and the comparison
    table.  Over an empty table, where the ratio has no value, the
    computed coverage is 0.  Floor rule: a computed 0 is reported as 1
    when some functionality is implemented. *)
Definition Coverage (analyses : list FileAnalysis) (table : list ComparisonRow)
           (c : Number.Rounded) : Prop :=
  exists computed,
    match reported analyses, table with
    | _ :: _, _ => RoundOf (mean (reported analyses)) computed
    | [], _ :: _ => RoundOf (percentage (implementedCount table) (List.length table)) computed
    | [], [] => computed = Number.Int 0
    end
    /\ c = if Number.isZero computed && (0 <? implementedCount table)
           then Number.Int 1 else computed.

(** [round(100 * part / whole)] in exact arithmetic, as the
    specification writes it. *)
Definition exactPercentage (part whole : nat) (z : Z) : Prop :=
  Nearest (inject_Z 100 * inject_Z (Z.of_nat part) / inject_Z (Z.of_nat whole))%Q z.


(** [s] contains [p] up to letter case: a substring of [s] reads [p]
    once it is put in lower case. *)
Definition ContainsIgnoringCase (s p : string) : Prop :=
  exists pre w post, s = pre ++ w ++ post /\ toLowerCase w = p.

(** A text is clean when none of the four patterns of the cleanup
    matches anywhere in it. *)
Definition cleanText (s : string) : Prop :=
  test fenceRe s = false /\ test namespaceBlockRe s = false
  /\ test usingRe s = false /\ test attributeRe s = false.

(** A text without the marks the cleanup looks for: no backquote, no
    opening bracket, and neither of the words namespace and using. *)
Definition markFree (s : string) : Prop :=
  includes s "`" = false /\ includes s "[" = false
  /\ includes s "namespace" = false /\ includes s "using" = false.

(** The rank of a criticality: High 0, Medium 1, Low 2; any other
    value has none. *)
Definition rankOfCriticality (c : JsValue) : option Z :=
  match c with
  | Str s =>
      if String.eqb s "High" then Some 0%Z
      else if String.eqb s "Medium" then Some 1%Z
      else if String.eqb s "Low" then Some 2%Z
      else None
  | _ => None
  end.

(** A test case whose criticality is one of the three. *)
Definition ranked (t : TaggedTestCase) : Prop :=
  rankOfCriticality (criticality (testCase t)) <> None.

Definition rankOf (t : TaggedTestCase) : Z :=
  match rankOfCriticality (criticality (testCase t)) with
  | Some rank => rank
  | None => 3%Z
  end.

Definition hasRank (k : Z) (t : TaggedTestCase) : bool := (rankOf t =? k)%Z.

Definition tag (file : JsValue) (tc : TestCase) : TaggedTestCase :=
  {| testCase := tc; originFileName := file |}.

(** The test cases of an answer: those of missingNegativeTestCases,
    and those of the legacy field missingTestCases when the new one is
    absent. *)
Definition casesOf (answer : Analysis) : list TestCase :=
  match missingNegativeTestCases answer, missingTestCases answer with
  | Items cases, _ => cases
  | Missing, Items legacy => legacy
  | _, _ => []
  end.

(** The test cases of the successful analyses, in the order of the
    analyses, each tagged with the file name of its analysis. *)
Definition flattened (analyses : list FileAnalysis) : list TaggedTestCase :=
  flat_map
    (fun r =>
       match r with
       | Analyzed _ answer => if success r then map (tag (fileName r)) (casesOf answer) else []
       | _ => []
       end)
    analyses.

(** The placeholder entry of slot [i] in the local fallback. *)
Definition pendingDetail (className : string) (i : nat) : JsValue :=
  Obj [ ("name", Str ("Test" ++ ofNat i ++ "_" ++ className));
        ("result", Str "Pending");
        ("duration", Str "N/A (Local execution required)");
        ("error", Null) ].

(** A text given by its lines, each one ended by a line feed. *)
Fixpoint text (lines : list string) : string :=
  match lines with
  | [] => ""
  | line :: rest => line ++ LF ++ text rest
  end.

(** The instructions of the local fallback for a class name. *)
Definition instructionsFor (className : string) : string :=
  text [ "# How to Run These Tests Locally";
         "";
         "1. Create a new C# project: dotnet new console -n " ++ className ++ "Tests";
         "2. Change to the project directory: cd " ++ className ++ "Tests";
         "3. Add NUnit packages: dotnet add package NUnit and dotnet add package NUnit3TestAdapter and dotnet add package Microsoft.NET.Test.Sdk and dotnet add package Moq";
         "4. Replace the content of Program.cs with the test code" ]
  ++ "5. Run the tests: dotnet test".

(** The text of the local project around a source text, a test text
    and the name of the class under test. *)
Definition projectText (source tests className : string) : string :=
  text [ "using System;";
         "using System.Collections.Generic;";
         "using System.Linq;";
         "";
         "// Original source code";
         source;
         "";
         "// Test code";
         tests;
         "";
         "public class Program";
         "{";
         "    public static void Main(string[] args)";
         "    {";
         "        Console.WriteLine(" ++ DQ ++ "Running tests..." ++ DQ ++ ");";
         "        ";
         "        // Find all test methods and run them";
         "        var testClass = new " ++ className ++ "Tests();";
         "        var testMethods = typeof(" ++ className ++ "Tests).GetMethods()";
         "            .Where(m => m.Name.StartsWith(" ++ DQ ++ "Test" ++ DQ
           ++ ") && m.ReturnType == typeof(void));";
         "            ";
         "        int passed = 0;";
         "        int failed = 0;";
         "        ";
         "        foreach (var method in testMethods)";
         "        {";
         "            try";
         "            {";
         "                Console.WriteLine($" ++ DQ ++ "Running {method.Name}" ++ DQ ++ ");";
         "                method.Invoke(testClass, null);";
         "                Console.WriteLine($" ++ DQ ++ "PASSED: {method.Name}" ++ DQ ++ ");";
         "                passed++;";
         "            }";
         "            catch (Exception ex)";
         "            {";
         "                Console.WriteLine($" ++ DQ
           ++ "FAILED: {method.Name} - {ex.InnerException?.Message ?? ex.Message}"
           ++ DQ ++ ");";
         "                failed++;";
         "            }";
         "        }";
         "        ";
         "        Console.WriteLine($" ++ DQ
           ++ "Tests complete. Passed: {passed}, Failed: {failed}" ++ DQ ++ ");";
         "    }";
         "}" ].

(** The remote execution failed: the call threw, or what it answered
    has no truthy [success]. *)
Definition executionFailed (answer : Completion JsValue) : Prop :=
  match answer with
  | Throws _ => True
  | Returns data => truthy (get "success" data) = false
  end.

(** The error that the fallback reports for a failed execution. *)
Definition reportedError (answer : Completion JsValue) : JsValue :=
  match answer with
  | Throws message => Str (if String.eqb message "" then "Error running test on Azure"
                           else message)
  | Returns data =>
      if truthy data
      then if truthy (get "error" data) then get "error" data
           else Str "Azure Function execution failed"
      else Str "Invalid response from Azure Function"
  end.

(** The result of the local fallback: what the test run returns when
    the remote execution failed with [error], for a class name taken
    from the file name, the test code, and the project text. *)
Definition fallbackResult (error : JsValue) (className testCode projectCode : string)
  : JsValue :=
  Obj [ ("success", Bool false);
        ("error", error);
        ("passed", Num Number.zero);
        ("failed", Num Number.zero);
        ("skipped", Num Number.zero);
        ("total", Num Number.zero);
        ("duration", Str "N/A (Local execution required)");
        ("details", Arr [ pendingDetail className 1; pendingDetail className 2;
                          pendingDetail className 3 ]);
        ("localExecution", Bool true);
        ("testCode", Str testCode);
        ("projectCode", Str projectCode);
        ("instructions", Str (instructionsFor className)) ].

(** The keys of an object, in the order of its members. *)
Definition keys (v : JsValue) : list string :=
  match v with
  | Obj fields => map fst fields
  | _ => []
  end.

(** The default of each of the four properties of a detail entry. *)
Definition detailDefault (key : string) : JsValue :=
  if String.eqb key "name" then Str "Unknown test"
  else if String.eqb key "result" then Str "Unknown"
  else if String.eqb key "duration" then Str "N/A"
  else Null.

(** What an entry of the answer's details becomes under a key. *)
Definition normalized (key : string) (entry : JsValue) : JsValue :=
  match entry with
  | Arr _ | Obj _ => if truthy (get key entry) then get key entry else detailDefault key
  | _ => detailDefault key
  end.

(** A detail entry of the answer in its normal form. *)
Definition normalizedDetail (entry : JsValue) : JsValue :=
  Obj [ ("name", normalized "name" entry);
        ("result", normalized "result" entry);
        ("duration", normalized "duration" entry);
        ("error", normalized "error" entry) ].

(** The details of an answer in normal form: none when the answer's
    [details] is no array. *)
Definition normalizedDetails (data : JsValue) : JsValue :=
  match get "details" data with
  | Arr entries => Arr (map normalizedDetail entries)
  | _ => Arr []
  end.

End Spec.

(* ===================================================================== *)
(** ** Auxiliary definitions *)
(* ===================================================================== *)

Module Aux.
Import JsString Regex Effects Js TestGenerator LogicAnalyzer.

(** The request runTestOnAzure posts for a source text. *)
Definition submitted (sourceCode : string) : AzureRequest :=
  azureRequestFor (firstGroup azureClassRe sourceCode "TestClass").

(** One step of [collect]. *)
Definition collectStep (get : Analysis -> option (list string))
           (acc : list string) (result : FileAnalysis) : list string :=
  match field get result with
  | Some funcs => fold_left addOnce funcs acc
  | None => acc
  end.

(** The per-file analyses of analyzeLogicFiles. *)
Definition analyzeAll (create : list ChatRequest -> ChatRequest -> Completion string)
           (JSON_parse : string -> Completion Analysis)
  : list JsValue -> IO ChatRequest (list (Completion FileAnalysis)) :=
  mapAll (fun file => analyzeLogicFile create JSON_parse (get "content" file) (get "path" file)).

(** The coverage analyzeLogicFiles reports for its analyses. *)
Definition coverageOf (analysisResults : list FileAnalysis) : Number.Rounded :=
  let data := generateFunctionalityComparison analysisResults in
  if Number.isZero (overallCoveragePercentage data)
     && existsb implemented (comparisonTable data)
  then Number.Int 50 else overallCoveragePercentage data.

(** The aggregate analyzeLogicFiles builds from the analyses. *)
Definition aggregateOf (logicFiles : list JsValue) (analysisResults : list FileAnalysis)
           (critical : list TaggedTestCase) : AggregatedAnalysis :=
  let data := generateFunctionalityComparison analysisResults in
  let nonSkippedCount :=
    List.length (filter (fun result => negb (skipped result)) analysisResults) in
  {| fileCount :=
       {| total := List.length logicFiles;
          analyzed := nonSkippedCount;
          fc_skipped := List.length logicFiles - nonSkippedCount |};
     fileAnalyses := analysisResults;
     agg_summary := generateAggregatedSummary analysisResults;
     functionalityComparison := comparisonTable data;
     agg_missingCoreFunctionalities := fd_missingCoreFunctionalities data;
     agg_coveragePercentage := coverageOf analysisResults;
     criticalTestCases := critical |}.

(** The comparator of a sort by rank, and the order it sorts into. *)
Definition byRank {A : Type} (rank : A -> Z) (a b : A) : option Z := Some (rank a - rank b)%Z.
Definition inOrder {A : Type} (rank : A -> Z) (a b : A) : Prop := (rank a <= rank b)%Z.
Definition descending {A : Type} (rank : A -> Z) (a b : A) : Prop := (rank b < rank a)%Z.
Definition ranksAs {A : Type} (rank : A -> Z) (k : Z) (a : A) : bool := (rank a =? k)%Z.

End Aux.

(* ===================================================================== *)
(** ** Further notions *)
(* ===================================================================== *)

Module Notions.
Import JsString Regex Effects Js TestGenerator LogicAnalyzer Server Spec Aux.

(** The elements of a list in the order of their first occurrence. *)
Fixpoint firstSeen (l : list string) : list string :=
  match l with
  | [] => []
  | x :: rest => x :: filter (fun y => negb (String.eqb y x)) (firstSeen rest)
  end.

(** What an analysis lists in a field: nothing when the field is no array. *)
Definition listed (get : Analysis -> option (list string)) (r : FileAnalysis) : list string :=
  match field get r with
  | Some l => l
  | None => []
  end.

(** [s] is [t] with some code units deleted. *)
Inductive Subsequence : string -> string -> Prop :=
| sub_empty : Subsequence "" ""
| sub_keep (c : ascii) (s t : string) : Subsequence s t -> Subsequence (String c s) (String c t)
| sub_drop (c : ascii) (s t : string) : Subsequence s t -> Subsequence s (String c t).

Definition returned {A : Type} (c : Completion A) : bool :=
  match c with
  | Returns _ => true
  | Throws _ => false
  end.

(** The exclusion heuristic, on a name and on a content. *)
Definition nameExcluded (name : string) : bool :=
  includes (toLowerCase name) "error" || includes (toLowerCase name) "exception".

Definition contentExcluded (content : string) : bool :=
  includes (toLowerCase content) "error page"
  || includes (toLowerCase content) "exception page".

(** A file of the request is classified logic. *)
Definition classifiedLogic (file : JsValue) : bool :=
  match get "classification" file with
  | Str classification => String.eqb classification "logic"
  | _ => false
  end.

(** The heuristic excludes a file: its path is a string that matches,
    or its content is one that does. *)
Definition excludedFile (file : JsValue) : bool :=
  match get "path" file with
  | Str name =>
      nameExcluded name
      || match get "content" file with
         | Str content => contentExcluded content
         | _ => false
         end
  | _ => false
  end.

(** The call to the model that a file of the request gives rise to:
    the file is classified logic, its path and content are strings,
    and the heuristic does not exclude it. *)
Definition callFor (file : JsValue) : option ChatRequest :=
  match get "path" file, get "content" file with
  | Str name, Str content =>
      if classifiedLogic file && negb (nameExcluded name || contentExcluded content)
      then Some {| chat_fileName := name; chat_fileContent := content |}
      else None
  | _, _ => None
  end.

Definition callsFor (files : list JsValue) : list ChatRequest :=
  flat_map (fun file => match callFor file with Some request => [request] | None => [] end)
           files.

(** The result of the analysis of a file named [name], from what the
    model answered to the call and what the answer parsed to. *)
Definition resultFrom (name : string) (completion : Completion string)
           (parse : string -> Completion Analysis) : FileAnalysis :=
  match completion with
  | Throws message =>
      Errored name (if String.eqb message "" then "Failed to analyze logic file" else message)
  | Returns text =>
      match parse text with
      | Throws message =>
          Errored name (if String.eqb message "" then "Failed to analyze logic file"
                        else message)
      | Returns answer => Analyzed name answer
      end
  end.

(** A result belongs to a file: it is the skipped record for the
    file's path when the heuristic excludes the file, and otherwise an
    error record with a message, or an answer, under that path. *)
Definition ResultFor (file : JsValue) (r : FileAnalysis) : Prop :=
  exists name,
    get "path" file = Str name
    /\ if excludedFile file
       then r = Skipped name "Error handling file excluded from core functionality analysis"
       else (exists message, message <> "" /\ r = Errored name message)
            \/ (exists answer, r = Analyzed name answer).

(** The answer of an analysis carries a truthy key [skipped]. *)
Definition answeredSkipped (r : FileAnalysis) : bool :=
  match r with
  | Analyzed _ answer =>
      match own_skipped answer with
      | Some flag => truthy flag
      | None => false
      end
  | _ => false
  end.

(** A regular file with the C# extension. *)
Definition csBlob (file : TreeEntry) : bool :=
  endsWith (te_path file) ".cs" && String.eqb (te_type file) "blob".

(** A text without the separator of URL segments. *)
Definition segment (s : string) : Prop := includes s "/" = false.

(** The text of the local project for a source text and a test text. *)
Definition localProject (sourceCode testCode : string) : string :=
  projectText
    (trim (removeAll closingBraceLineRe (removeAll namespaceOpenRe sourceCode)))
    (trim (removeAll projectUsingRe testCode))
    (firstGroup projectClassRe sourceCode "DefaultClass").

(** The source code runTestCode works with: its parameter defaults
    to the empty string. *)
Definition givenSource (sourceCode : JsValue) : JsValue :=
  match sourceCode with
  | Undefined => Str ""
  | given => given
  end.

(** The remote execution succeeded: the call answered a value with a
    truthy [success]. *)
Definition runSucceeded (answer : Completion JsValue) : bool :=
  match answer with
  | Returns data => truthy (get "success" data)
  | Throws _ => false
  end.


End Notions.

(* ===================================================================== *)
(** ** Sample inputs *)
(* ===================================================================== *)

Module Examples.
Import JsString Regex Effects Js TestGenerator LogicAnalyzer Server.

(** The segments of a path that are not empty. *)
Definition segments (p : string) : list string :=
  filter (fun s => negb (String.eqb s "")) (split "/" p).

(** [path.basename(p, ext)] of Node on POSIX. *)
Definition posixBasename (p ext : string) : string :=
  if String.eqb ext "" || (length p <? length ext) then last (segments p) ""
  else if String.eqb ext p then ""
  else
    match segments p with
    | [] => p
    | _ :: _ =>
        let base := last (segments p) "" in
        if endsWith base ext && negb (String.eqb base ext)
        then take (length base - length ext) base
        else base
    end.

(** An Azure Function that cannot be reached. *)
Definition azureDown : list AzureRequest -> AzureRequest -> Completion JsValue :=
  fun _ _ => Throws "Network Error".

Definition calculatorSource : string :=
  join LF [ "public class Calculator {";
            "    public int Add(int a, int b) { return a + b; }";
            "}" ].

Definition calculatorTests : string :=
  "public class CalculatorTests { public void TestAdd() { } }".

Definition scriptSource : string := "int x = 1;".

(** A model answer that ignores the instructions on formatting. *)
Definition fencedAnswer : string :=
  join LF [ "```csharp";
            "using System;";
            "[TestFixture]";
            "public class CalculatorTests { [Test] public void TestAdd() { } }";
            "```" ].

(** A file of the request to /api/analyze-logic. *)
Definition fileRecord (path content classification : JsValue) : JsValue :=
  Obj [ ("path", path); ("content", content); ("classification", classification) ].

Definition logicFile (name : string) : JsValue :=
  fileRecord (Str name) (Str "public class Service { }") (Str "logic").

Definition cartFile : JsValue := logicFile "src/Cart.cs".
Definition paymentFile : JsValue := logicFile "src/Payment.cs".
Definition orderFile : JsValue := logicFile "src/Order.cs".

Definition assemblyInfoFile : JsValue :=
  fileRecord (Str "src/AssemblyInfo.cs") (Str "[assembly: AssemblyTitle]") (Str "boilerplate").

Definition testCaseOf (description criticality impact : string) : TestCase :=
  {| description := Str description; criticality := Str criticality; impact := Str impact |}.

Definition lowCase : TestCase :=
  testCaseOf "Empty cart is checked out" "Low" "A confusing message is shown".
Definition highCase1 : TestCase :=
  testCaseOf "Negative quantity is ordered" "High" "The total becomes negative".
Definition mediumCase : TestCase :=
  testCaseOf "Unknown coupon is applied" "Medium" "The discount is silently dropped".
Definition highCase2 : TestCase :=
  testCaseOf "Payment is submitted twice" "High" "The customer is charged twice".

(** A test case whose criticality is none of the three of the prompt. *)
Definition criticalCase : TestCase :=
  testCaseOf "Stock goes below zero" "Critical" "Orders cannot be fulfilled".

(** An answer with the six keys of the prompt and no other. *)
Definition answer (summary : string) (expected actual missing : option (list string))
           (negative legacy : Field TestCase) (coverage : option Number.Number) : Analysis :=
  {| own_success := None;
     own_fileName := None;
     own_skipped := None;
     summary := summary;
     expectedFunctionalities := expected;
     actualFunctionalities := actual;
     missingCoreFunctionalities := missing;
     missingNegativeTestCases := negative;
     missingTestCases := legacy;
     coveragePercentage := coverage |}.

(** Two analyses that report 0 percent although each implements a
    functionality. *)
Definition cartAnalysis : Analysis :=
  answer "Shopping cart" (Some ["Add item"; "Remove item"]) (Some ["Add item"])
         (Some ["Remove item"]) (Items []) Missing (Some (Number.ofZ 0)).

Definition orderAnalysis : Analysis :=
  answer "Order processing" (Some ["Checkout"; "Add item"]) (Some ["Checkout"]) (Some [])
         (Items [lowCase; highCase1; mediumCase; highCase2]) Missing (Some (Number.ofZ 0)).

(** An analysis without a coverage percentage that expects [n]
    functionalities and implements the first [k] of them. *)
Definition featureNames (n : nat) : list string :=
  map (fun i => "Feature " ++ ofNat i) (List.seq 1 n).

Definition wideAnalysis (n k : nat) : Analysis :=
  answer "Feature catalogue" (Some (featureNames n)) (Some (featureNames k)) None
         Missing Missing None.

(** An analysis that reports the coverage [x] and nothing else. *)
Definition measuredAnalysis (x : Number.Number) : Analysis :=
  answer "" None None None Missing Missing (Some x).

(** An analysis in the older format, with the legacy field name. *)
Definition legacyAnalysis : Analysis :=
  answer "Coupons" (Some ["Apply coupon"]) (Some []) None
         Missing (Items [mediumCase; highCase1]) None.

(** An analysis whose test cases are Low, Critical and High. *)
Definition stockAnalysis : Analysis :=
  answer "Stock keeping" None None None (Items [lowCase; criticalCase; highCase1]) Missing None.

(** An answer that carries a key [skipped] of its own. *)
Definition skippingAnswer : Analysis :=
  {| own_success := None;
     own_fileName := None;
     own_skipped := Some (Bool true);
     summary := "Shopping cart";
     expectedFunctionalities := Some ["Add item"];
     actualFunctionalities := Some ["Add item"];
     missingCoreFunctionalities := None;
     missingNegativeTestCases := Missing;
     missingTestCases := Missing;
     coveragePercentage := None |}.

(** A catalogue of 40 expected functionalities, of which 23 are
    implemented, without a coverage percentage. *)
Definition catalogueFile : JsValue := logicFile "src/Catalogue.cs".
Definition catalogueAnalysis : Analysis := wideAnalysis 40 23.

(** A model that answers with the file's name, and is down for Payment.cs. *)
Definition flakyModel : list ChatRequest -> ChatRequest -> Completion string :=
  fun _ request =>
    if String.eqb (chat_fileName request) "src/Payment.cs"
    then Throws "Request timed out"
    else Returns (chat_fileName request).

Definition parseAnswer (text : string) : Completion Analysis :=
  if String.eqb text "src/Cart.cs" then Returns cartAnalysis
  else if String.eqb text "src/Order.cs" then Returns orderAnalysis
  else if String.eqb text "src/Catalogue.cs" then Returns catalogueAnalysis
  else Throws "Unexpected token s in JSON at position 0".

(** The same, with an answer for Cart.cs that says it was skipped. *)
Definition parseSkipping (text : string) : Completion Analysis :=
  if String.eqb text "src/Cart.cs" then Returns skippingAnswer
  else parseAnswer text.

End Examples.

Module MoreExamples.
Import JsString Regex Effects Js TestGenerator LogicAnalyzer Server Routes Frontend.

(** An answer of the Azure Function with one entry that lacks every
    field, two that are no objects and one that is complete; it also
    carries project code of its own. *)
Definition sparseResponse : JsValue :=
  Obj [ ("success", Bool true);
        ("passed", Num (Number.ofZ 1));
        ("failed", Num (Number.ofZ 0));
        ("total", Num (Number.ofZ 1));
        ("duration", Str "12ms");
        ("projectCode", Str "class Injected { }");
        ("details",
         Arr [ Obj [ ("name", Str ""); ("error", Str "") ];
               Null;
               Str "TestMethod PASSED";
               Obj [ ("name", Str "TestMethod"); ("result", Str "Passed");
                     ("duration", Num (Number.ofZ 12)); ("error", Null) ] ]) ].

Definition azureAnswers : list AzureRequest -> AzureRequest -> Completion JsValue :=
  fun _ _ => Returns sparseResponse.

(** A hosting API with one repository on branch main. *)
Definition sampleTree : list TreeEntry :=
  [ {| te_path := "src/Cart.cs"; te_type := "blob" |};
    {| te_path := "src"; te_type := "tree" |};
    {| te_path := "README.md"; te_type := "blob" |};
    {| te_path := "legacy.cs"; te_type := "tree" |};
    {| te_path := "src/Order.cs"; te_type := "blob" |} ].

Definition hostingUp : list GetRequest -> GetRequest -> Completion HostingData :=
  fun _ _ => Returns {| default_branch := Str "main"; tree := Some sampleTree |}.

Definition hostingDown : list GetRequest -> GetRequest -> Completion HostingData :=
  fun _ _ => Throws "Request failed with status code 401".

Definition sampleRepository : RepositoryBody :=
  {| repoUrl := Str "https://github.com/username/repo"; pat := Str "ghp_token" |}.

Definition classifierSays (text : string) : list JsValue -> JsValue -> Completion string :=
  fun _ _ => Returns text.

Definition generatorSays (text : string)
  : list GenerationRequest -> GenerationRequest -> Completion string :=
  fun _ _ => Returns text.

(** Three logic files, one excluded logic file and one boilerplate file. *)
Definition mixedFiles : list JsValue :=
  [ Examples.cartFile; Examples.assemblyInfoFile; Examples.logicFile "src/ErrorPage.cs";
    Examples.paymentFile; Examples.orderFile ].

(** An analysis that only reports missing core functionalities. *)
Definition missingAnalysis (missing : list string) : Analysis :=
  Examples.answer "" None None (Some missing) Missing Missing None.

(** A class written on one line. *)
Definition inlineSource : string :=
  "  public class Calculator { public int Add(int a, int b) { return a + b; } }  ".

Definition listedFiles : list ListedFile :=
  [ {| lf_path := "src/Cart.cs"; lf_classification := Str "logic"; lf_size := Some 1200%Z |};
    {| lf_path := "src/AssemblyInfo.cs"; lf_classification := Str "boilerplate";
       lf_size := Some 300%Z |};
    {| lf_path := "src/Broken.cs"; lf_classification := Str "error"; lf_size := None |} ].

End MoreExamples.

(* ===================================================================== *)
(** ** Properties *)
(* ===================================================================== *)

Import JsString Regex Effects Js TestGenerator LogicAnalyzer Server Spec Aux.
Import Routes Frontend Notions.

(** *** Strings *)

Section StringFacts.

Lemma trimStart_idempotent (s : string) : trimStart (trimStart s) = trimStart s.
Proof.
  induction s as [|c s IH]; simpl; [reflexivity|].
  destruct (isWhiteSpace c) eqn:E; [exact IH|].
  simpl. now rewrite E.
Qed.

Lemma trimEnd_idempotent (s : string) : trimEnd (trimEnd s) = trimEnd s.
Proof.
  induction s as [|c s IH]; simpl; [reflexivity|].
  destruct (trimEnd s) as [|d t] eqn:E.
  - destruct (isWhiteSpace c) eqn:W; simpl; [reflexivity|]. now rewrite W.
  - change (trimEnd (String c (String d t))) with
      (match trimEnd (String d t) with
       | "" => if isWhiteSpace c then "" else String c ""
       | String a b => String c (String a b)
       end).
    now rewrite IH.
Qed.

(** Trimming the end keeps a first code unit that is no white space. *)
Lemma trimEnd_keeps_head (c : ascii) (s : string) :
  isWhiteSpace c = false -> exists t, trimEnd (String c s) = String c t.
Proof.
  intros W. simpl. destruct (trimEnd s) as [|d t].
  - rewrite W. now exists "".
  - now exists (String d t).
Qed.

Lemma trimStart_head (s : string) :
  trimStart s = "" \/ exists c t, trimStart s = String c t /\ isWhiteSpace c = false.
Proof.
  induction s as [|c s IH]; simpl; [now left|].
  destruct (isWhiteSpace c) eqn:W; [exact IH|].
  right. now exists c, s.
Qed.

Lemma trim_idempotent (s : string) : trim (trim s) = trim s.
Proof.
  unfold trim.
  destruct (trimStart_head s) as [E | (c & t & E & W)]; rewrite E.
  - reflexivity.
  - destruct (trimEnd_keeps_head c t W) as [u Eu].
    rewrite Eu. simpl trimStart. rewrite W.
    rewrite <- Eu. apply trimEnd_idempotent.
Qed.

Lemma startsWith_append (p post : string) : startsWith (p ++ post) p = true.
Proof.
  induction p as [|c p IH]; simpl; [now destruct post|].
  now rewrite Ascii.eqb_refl, IH.
Qed.

Lemma includes_unfold (s p : string) :
  includes s p
  = startsWith s p || match s with "" => false | String _ s' => includes s' p end.
Proof. now destruct s. Qed.

Lemma includes_append (pre p post : string) : includes (pre ++ p ++ post) p = true.
Proof.
  induction pre as [|c pre IH]; rewrite includes_unfold.
  - cbn [append]. now rewrite startsWith_append.
  - cbn [append]. rewrite IH. apply orb_true_r.
Qed.

Lemma toLowerCase_append (a b : string) :
  toLowerCase (a ++ b) = toLowerCase a ++ toLowerCase b.
Proof. induction a as [|c a IH]; simpl; [reflexivity | now rewrite IH]. Qed.

Lemma containsIgnoringCase_includes (s p : string) :
  ContainsIgnoringCase s p -> includes (toLowerCase s) p = true.
Proof.
  intros (pre & w & post & -> & <-).
  rewrite !toLowerCase_append. apply includes_append.
Qed.

End StringFacts.

(** *** Replacement *)

Section RemoveFacts.

Variable r : regex.

Lemma removeFrom_no_match (s : string) :
  forall prev, execFrom r prev s = None -> removeFrom r prev s 0 = s.
Proof.
  induction s as [|c s IH]; intros prev H; simpl in *; [reflexivity|].
  destruct (execAt r prev (String c s)) as [m|]; [discriminate|].
  now rewrite IH.
Qed.

(** Where a pattern has no match, removing its matches changes nothing. *)
Lemma removeAll_no_match (s : string) : test r s = false -> removeAll r s = s.
Proof.
  unfold test, exec, removeAll. intros H.
  apply removeFrom_no_match.
  destruct (execFrom r None s); [discriminate | reflexivity].
Qed.

Lemma firstGroup_no_match (s fallback : string) :
  test r s = false -> firstGroup r s fallback = fallback.
Proof.
  unfold test, firstGroup.
  destruct (exec r s) as [[rest g]|]; [discriminate | reflexivity].
Qed.

End RemoveFacts.

(** *** The cleanup of generated test code *)


(** *** The cleanup of generated test code *)

Lemma cleanup_output_trimmed (raw : string) :
  trim (cleanupTestCode raw) = cleanupTestCode raw.
Proof. unfold cleanupTestCode. apply trim_idempotent. Qed.

(** On a text in which none of the four patterns matches, the cleanup
    only trims. *)
Lemma cleanup_trims_clean_text (s : string) :
  cleanText s -> cleanupTestCode s = trim s.
Proof.
  intros (Hf & Hn & Hu & Ha). unfold cleanupTestCode.
  now rewrite (removeAll_no_match fenceRe s Hf), (removeAll_no_match namespaceBlockRe s Hn),
    (removeAll_no_match usingRe s Hu), (removeAll_no_match attributeRe s Ha).
Qed.

(** A pattern that starts with a literal matches only where the
    literal occurs. *)
Lemma run_lit_mismatch (p : string) (r : regex) :
  forall (s : string) (prev : option ascii) (cap : option string) (k : Cont),
    startsWith s p = false -> run (Seq (lit p) r) prev s cap k = None.
Proof.
  induction p as [|c p IH]; intros s prev cap k H.
  - now destruct s.
  - destruct s as [|d s]; [reflexivity|].
    cbn [startsWith] in H. cbn [lit run].
    destruct (Ascii.eqb c d) eqn:E; [|reflexivity].
    cbn [andb] in H. exact (IH s (Some d) cap k H).
Qed.

Lemma run_first_mismatch (c : ascii) (r : regex) (s : string)
      (prev : option ascii) (cap : option string) (k : Cont) :
  startsWith s (String c "") = false -> run (Seq (Char c) r) prev s cap k = None.
Proof.
  intros H. destruct s as [|d s]; [reflexivity|].
  cbn [startsWith] in H. cbn [run].
  destruct (Ascii.eqb c d); [|reflexivity].
  now destruct s.
Qed.

Lemma includes_startsWith (s p : string) : includes s p = false -> startsWith s p = false.
Proof.
  destruct s; cbn [includes]; intros H; now apply orb_false_iff in H.
Qed.

Lemma includes_tail (c : ascii) (s p : string) :
  includes (String c s) p = false -> includes s p = false.
Proof. cbn [includes]. intros H. now apply orb_false_iff in H. Qed.

Lemma no_match_without (r : regex) (p : string) :
  (forall s prev, startsWith s p = false -> execAt r prev s = None) ->
  forall s, includes s p = false -> test r s = false.
Proof.
  intros Hr s H. unfold test, exec.
  assert (forall prev, execFrom r prev s = None) as E.
  { induction s as [|c s IH]; intros prev.
    - cbn [execFrom]. now rewrite (Hr "" prev (includes_startsWith _ _ H)).
    - cbn [execFrom]. rewrite (Hr _ prev (includes_startsWith _ _ H)).
      apply IH. exact (includes_tail _ _ _ H). }
  now rewrite E.
Qed.

Lemma startsWith_one (c d : ascii) (s : string) :
  startsWith (String d s) (String c "") = Ascii.eqb c d.
Proof. cbn [startsWith]. destruct s; apply andb_true_r. Qed.

Lemma run_Seq (r1 r2 : regex) (prev : option ascii) (s : string)
      (cap : option string) (k : Cont) :
  run (Seq r1 r2) prev s cap k
  = run r1 prev s cap (fun prev' s' cap' => run r2 prev' s' cap' k).
Proof. reflexivity. Qed.

Lemma run_Alt (r1 r2 : regex) (prev : option ascii) (s : string)
      (cap : option string) (k : Cont) :
  run (Alt r1 r2) prev s cap k = orTry (run r1 prev s cap k) (run r2 prev s cap k).
Proof. reflexivity. Qed.

Lemma run_LineStart (prev : option ascii) (s : string) (cap : option string) (k : Cont) :
  run LineStart prev s cap k
  = match prev with
    | None => k prev s cap
    | Some c => if isLineTerminator c then k prev s cap else None
    end.
Proof. reflexivity. Qed.

Lemma fence_needs_backquote (s : string) : includes s "`" = false -> test fenceRe s = false.
Proof.
  apply no_match_without. intros t prev H. unfold execAt, fenceRe.
  assert (forall (p : string) k,
            run (Seq LineStart (lit (String "`" p))) prev t None k = None) as L.
  { intros p k. rewrite run_Seq, run_LineStart. cbn [lit].
    destruct prev as [a|]; [destruct (isLineTerminator a)|]; try reflexivity;
      now apply run_first_mismatch. }
  cbn [alt append]. rewrite !run_Alt, !L. cbn [orTry].
  rewrite run_Seq. cbn [lit]. now apply run_first_mismatch.
Qed.

Lemma namespace_needs_its_word (s : string) :
  includes s "namespace" = false -> test namespaceBlockRe s = false.
Proof.
  apply no_match_without. intros t prev H. unfold execAt, namespaceBlockRe.
  cbn [seq]. now apply run_lit_mismatch.
Qed.

Lemma using_needs_its_word (s : string) :
  includes s "using" = false -> test usingRe s = false.
Proof.
  apply no_match_without. intros t prev H. unfold execAt, usingRe.
  cbn [seq]. now apply run_lit_mismatch.
Qed.

Lemma attribute_needs_bracket (s : string) :
  includes s "[" = false -> test attributeRe s = false.
Proof.
  apply no_match_without. intros t prev H. unfold execAt, attributeRe.
  cbn [seq]. now apply run_first_mismatch.
Qed.

(** A text without a mark stays without it when white space is
    trimmed off. *)
Lemma includes_trimStart (s p : string) :
  includes s p = false -> includes (trimStart s) p = false.
Proof.
  induction s as [|c s IH]; intros H; [exact H|].
  cbn [trimStart]. destruct (isWhiteSpace c); [|exact H].
  apply IH. exact (includes_tail _ _ _ H).
Qed.

Lemma trimEnd_prefix (s : string) : exists w, s = trimEnd s ++ w.
Proof.
  induction s as [|c s [w IH]]; [now exists ""|].
  cbn [trimEnd]. destruct (trimEnd s) as [|d t].
  - destruct (isWhiteSpace c); [now exists (String c s)|].
    exists w. cbn [append] in *. now rewrite <- IH.
  - exists w. cbn [append] in *. now rewrite <- IH.
Qed.

Lemma startsWith_prefix_of (a w p : string) :
  startsWith a p = true -> startsWith (a ++ w) p = true.
Proof.
  revert a. induction p as [|c p IH]; intros a H; [now destruct (a ++ w)|].
  destruct a as [|d a]; [discriminate|].
  cbn [startsWith append] in *. apply andb_prop in H as [Hc Hs].
  now rewrite Hc, (IH a Hs).
Qed.

Lemma includes_prefix_of (a w p : string) :
  includes a p = true -> includes (a ++ w) p = true.
Proof.
  induction a as [|c a IH]; intros H.
  - rewrite includes_unfold in H. rewrite orb_false_r in H.
    rewrite includes_unfold. now rewrite (startsWith_prefix_of "" w p H).
  - rewrite includes_unfold in H.
    apply orb_prop in H as [H|H].
    + rewrite includes_unfold. now rewrite (startsWith_prefix_of (String c a) w p H).
    + cbn [append]. rewrite includes_unfold. rewrite (IH H). apply orb_true_r.
Qed.

Lemma includes_trim (s p : string) : includes s p = false -> includes (trim s) p = false.
Proof.
  intros H. apply includes_trimStart in H. unfold trim.
  destruct (trimEnd_prefix (trimStart s)) as [w E].
  destruct (includes (trimEnd (trimStart s)) p) eqn:I; [|reflexivity].
  apply (includes_prefix_of _ w) in I. rewrite <- E in I. congruence.
Qed.

Lemma markFree_cleanText (s : string) : markFree s -> cleanText s.
Proof.
  intros (Hq & Hb & Hn & Hu). repeat split.
  - now apply fence_needs_backquote.
  - now apply namespace_needs_its_word.
  - now apply using_needs_its_word.
  - now apply attribute_needs_bracket.
Qed.

Lemma markFree_trim (s : string) : markFree s -> markFree (trim s).
Proof. intros (Hq & Hb & Hn & Hu). repeat split; now apply includes_trim. Qed.


(** The same happens across two steps: the tag removed by the fourth
    replacement joins the pieces of a using statement, which only a
    second run removes. *)
Example cleanup_leaves_using : cleanupTestCode "using [A]System;" = "using System;".
Proof. reflexivity. Qed.

(** Trimming can complete a match as well: no pattern matches in the
    text below, whose closing fence is followed by a space, and a
    second run removes the fence. *)
Example cleanup_leaves_fence :
  let raw := "int x;``` " in
  test fenceRe raw = false /\ test namespaceBlockRe raw = false
  /\ test usingRe raw = false /\ test attributeRe raw = false
  /\ cleanupTestCode raw = "int x;```"
  /\ cleanupTestCode (cleanupTestCode raw) = "int x;".
Proof. cbv zeta. repeat split; reflexivity. Qed.

Example cleanup_fencedAnswer :
  cleanupTestCode Examples.fencedAnswer
  = "public class CalculatorTests { public void TestAdd() { } }".
Proof. reflexivity. Qed.



(** The hypotheses hold for every text without a backquote, without
    an opening bracket and without the words namespace and using. *)
Lemma cleanup_idempotent_without_marks (raw : string) :
  markFree raw ->
  cleanupTestCode raw = trim raw
  /\ cleanupTestCode (cleanupTestCode raw) = cleanupTestCode raw.
Proof.
  intros H. rewrite (cleanup_trims_clean_text raw (markFree_cleanText raw H)).
  split; [reflexivity|].
  rewrite (cleanup_trims_clean_text (trim raw)
             (markFree_cleanText _ (markFree_trim raw H))).
  apply trim_idempotent.
Qed.

(** *** The cleanup only deletes *)

Section SubsequenceFacts.

Lemma Subsequence_refl (s : string) : Subsequence s s.
Proof. induction s; now constructor. Qed.

Lemma Subsequence_empty (s : string) : Subsequence "" s.
Proof. induction s; now constructor. Qed.

Lemma Subsequence_trans (a b c : string) :
  Subsequence a b -> Subsequence b c -> Subsequence a c.
Proof.
  intros Hab Hbc. revert a Hab.
  induction Hbc as [|x b c Hbc IH|x b c Hbc IH]; intros a Hab.
  - exact Hab.
  - inversion Hab; subst.
    + constructor. now apply IH.
    + apply sub_drop. now apply IH.
  - apply sub_drop. now apply IH.
Qed.

Lemma Subsequence_length (s t : string) : Subsequence s t -> length s <= length t.
Proof. induction 1; cbn; lia. Qed.

(** Whatever the pattern, removing its matches only deletes. *)
Lemma removeFrom_Subsequence (r : regex) (s : string) :
  forall prev skip, Subsequence (removeFrom r prev s skip) s.
Proof.
  induction s as [|c s IH]; intros prev skip; cbn [removeFrom]; [constructor|].
  destruct skip as [|n]; [|apply sub_drop, IH].
  destruct (execAt r prev (String c s)) as [[rest g]|]; [|apply sub_keep, IH].
  destruct (length (String c s) - length rest); [apply sub_keep, IH | apply sub_drop, IH].
Qed.

Lemma removeAll_Subsequence (r : regex) (s : string) : Subsequence (removeAll r s) s.
Proof. apply removeFrom_Subsequence. Qed.

Lemma trimStart_Subsequence (s : string) : Subsequence (trimStart s) s.
Proof.
  induction s as [|c s IH]; cbn [trimStart]; [constructor|].
  destruct (isWhiteSpace c); [now apply sub_drop | apply Subsequence_refl].
Qed.

Lemma trimEnd_Subsequence (s : string) : Subsequence (trimEnd s) s.
Proof.
  induction s as [|c s IH]; cbn [trimEnd]; [constructor|].
  destruct (trimEnd s) as [|d t] eqn:E.
  - destruct (isWhiteSpace c); [apply Subsequence_empty | apply sub_keep, Subsequence_empty].
  - now apply sub_keep.
Qed.

Lemma trim_Subsequence (s : string) : Subsequence (trim s) s.
Proof.
  unfold trim.
  eapply Subsequence_trans; [apply trimEnd_Subsequence | apply trimStart_Subsequence].
Qed.

Lemma cleanup_Subsequence (testCode : string) :
  Subsequence (cleanupTestCode testCode) testCode.
Proof.
  unfold cleanupTestCode.
  eapply Subsequence_trans; [apply trim_Subsequence|].
  eapply Subsequence_trans; [apply removeAll_Subsequence|].
  eapply Subsequence_trans; [apply removeAll_Subsequence|].
  eapply Subsequence_trans; [apply removeAll_Subsequence|].
  apply removeAll_Subsequence.
Qed.

End SubsequenceFacts.

(** X11: the cleanup of generated test code only deletes: its output
    is the model's answer with some characters removed, in the same
    order, so it is never longer than the answer; and the output has no
    leading or trailing white space. *)
Theorem cleanup_only_deletes (testCode : string) :
  Subsequence (cleanupTestCode testCode) testCode
  /\ length (cleanupTestCode testCode) <= length testCode
  /\ trim (cleanupTestCode testCode) = cleanupTestCode testCode.
Proof.
  split; [apply cleanup_Subsequence|].
  split; [apply Subsequence_length, cleanup_Subsequence|].
  unfold cleanupTestCode. apply trim_idempotent.
Qed.

(** *** createTestProject *)

Lemma append_associative (a b c : string) : (a ++ b) ++ c = a ++ b ++ c.
Proof. induction a as [|x a IH]; cbn [append]; [reflexivity | now rewrite IH]. Qed.

Lemma createTestProject_shape (sourceCode testCode : string) :
  exists header middle footer,
    createTestProject sourceCode testCode
    = header
        ++ trim (removeAll closingBraceLineRe (removeAll namespaceOpenRe sourceCode))
        ++ middle ++ trim (removeAll projectUsingRe testCode) ++ footer.
Proof.
  unfold createTestProject. cbv zeta.
  set (src := trim _). set (tst := trim (removeAll projectUsingRe testCode)).
  set (cn := firstGroup _ _ _).
  exists ("using System;" ++ LF ++ "using System.Collections.Generic;" ++ LF
          ++ "using System.Linq;" ++ LF ++ LF ++ "// Original source code" ++ LF).
  exists (LF ++ LF ++ "// Test code" ++ LF).
  eexists.
  cbn [join append LF chr]. reflexivity.
Qed.

(** X13: the local project contains the source code and the test code
    as they are, trimmed, whenever the test code has no using statement
    and the source code has neither a namespace opening nor a line that
    holds only a closing brace. *)
Theorem createTestProject_embeds_clean_inputs (sourceCode testCode : string) :
  test namespaceOpenRe sourceCode = false ->
  test closingBraceLineRe sourceCode = false ->
  test projectUsingRe testCode = false ->
  includes (createTestProject sourceCode testCode) (trim sourceCode) = true
  /\ includes (createTestProject sourceCode testCode) (trim testCode) = true.
Proof.
  intros Hn Hb Hu.
  destruct (createTestProject_shape sourceCode testCode) as (header & middle & footer & E).
  rewrite E.
  rewrite (removeAll_no_match namespaceOpenRe _ Hn), (removeAll_no_match closingBraceLineRe _ Hb),
    (removeAll_no_match projectUsingRe _ Hu).
  split; [apply includes_append|].
  replace (header ++ trim sourceCode ++ middle ++ trim testCode ++ footer)
    with ((header ++ trim sourceCode ++ middle) ++ trim testCode ++ footer).
  - apply includes_append.
  - now rewrite !append_associative.
Qed.

Lemma createTestProject_embeds_clean_inputs_witness :
  test namespaceOpenRe MoreExamples.inlineSource = false
  /\ test closingBraceLineRe MoreExamples.inlineSource = false
  /\ test projectUsingRe Examples.calculatorTests = false
  /\ includes (createTestProject MoreExamples.inlineSource Examples.calculatorTests)
              (trim MoreExamples.inlineSource) = true
  /\ includes (createTestProject MoreExamples.inlineSource Examples.calculatorTests)
              (trim Examples.calculatorTests) = true.
Proof.
  assert (test namespaceOpenRe MoreExamples.inlineSource = false) as Hn by reflexivity.
  assert (test closingBraceLineRe MoreExamples.inlineSource = false) as Hb by reflexivity.
  assert (test projectUsingRe Examples.calculatorTests = false) as Hu by reflexivity.
  split; [exact Hn|]. split; [exact Hb|]. split; [exact Hu|].
  exact (createTestProject_embeds_clean_inputs MoreExamples.inlineSource
           Examples.calculatorTests Hn Hb Hu).
Defined.

(** A class whose closing brace stands on a line of its own loses it. *)
Example createTestProject_drops_brace_lines :
  test closingBraceLineRe Examples.calculatorSource = true
  /\ includes (createTestProject Examples.calculatorSource Examples.calculatorTests)
              (trim Examples.calculatorSource) = false.
Proof. split; vm_compute; reflexivity. Qed.

(** *** Splitting and searching *)

Section SplitFacts.

Lemma split_nonempty (sep : ascii) (s : string) : split sep s <> [].
Proof.
  destruct s as [|c s]; cbn [split]; [discriminate|].
  destruct (Ascii.eqb c sep); [discriminate|]. destruct (split sep s); discriminate.
Qed.

Lemma startsWith_empty (s : string) : startsWith s "" = true.
Proof. now destruct s. Qed.

Lemma segment_cons (c : ascii) (s : string) :
  segment (String c s) -> Ascii.eqb c "/" = false /\ segment s.
Proof.
  unfold segment. rewrite includes_unfold. intros H.
  apply orb_false_iff in H as [Hs Hi]. split; [|exact Hi].
  cbn [startsWith] in Hs. rewrite startsWith_empty, andb_true_r in Hs.
  now rewrite Ascii.eqb_sym.
Qed.

(** A text without the separator is a single segment. *)
Lemma split_segment (s : string) : segment s -> split "/" s = [s].
Proof.
  induction s as [|c s IH]; intros H; [reflexivity|].
  apply segment_cons in H as [Hc Hs]. cbn [split]. now rewrite Hc, (IH Hs).
Qed.

(** Splitting distributes over a separator. *)
Lemma split_append (a b : string) :
  split "/" (a ++ "/" ++ b) = (split "/" a ++ split "/" b)%list.
Proof.
  change ("/" ++ b) with (String "/"%char b).
  induction a as [|c a IH]; cbn [append split].
  - now rewrite Ascii.eqb_refl.
  - rewrite IH. destruct (Ascii.eqb c "/"); [reflexivity|].
    destruct (split "/" a) as [|x rest] eqn:E; [now apply split_nonempty in E | reflexivity].
Qed.

(** A text with a separator has at least two segments. *)
Lemma split_two (s : string) : includes s "/" = true -> 2 <= List.length (split "/" s).
Proof.
  induction s as [|c s IH]; rewrite includes_unfold; intros H; [discriminate|].
  cbn [split]. destruct (Ascii.eqb c "/") eqn:E.
  - pose proof (split_nonempty "/" s) as Hn. destruct (split "/" s); [congruence | cbn; lia].
  - cbn [startsWith] in H. rewrite Ascii.eqb_sym, E in H. cbn [andb orb] in H.
    specialize (IH H). destruct (split "/" s); cbn in *; lia.
Qed.

Lemma fromEnd_last_two (l : list string) (a b : string) :
  fromEnd (l ++ [a; b]) 2 = Some a /\ fromEnd (l ++ [a; b]) 1 = Some b.
Proof.
  unfold fromEnd. rewrite !length_app. cbn [List.length].
  replace (2 <=? List.length l + 2) with true by (symmetry; apply Nat.leb_le; lia).
  replace (1 <=? List.length l + 2) with true by (symmetry; apply Nat.leb_le; lia).
  replace (List.length l + 2 - 2) with (List.length l) by lia.
  replace (List.length l + 2 - 1) with (S (List.length l)) by lia.
  rewrite !nth_error_app2 by lia.
  replace (List.length l - List.length l) with 0 by lia.
  replace (S (List.length l) - List.length l) with 1 by lia.
  now split.
Qed.

Lemma two_last {A : Type} (l : list A) :
  2 <= List.length l -> exists front a b, l = (front ++ [a; b])%list.
Proof.
  intros H. destruct (rev l) as [|b [|a r]] eqn:E.
  - apply (f_equal (@List.length A)) in E. rewrite length_rev in E. cbn in E. lia.
  - apply (f_equal (@List.length A)) in E. rewrite length_rev in E. cbn in E. lia.
  - exists (rev r), a, b. rewrite <- (rev_involutive l), E. cbn [rev].
    now rewrite <- app_assoc.
Qed.

Lemma sliceFromEnd_last_two {A : Type} (front : list A) (a b : A) :
  sliceFromEnd 2 (front ++ [a; b]) = [a; b].
Proof.
  unfold sliceFromEnd. rewrite length_app. cbn [List.length].
  replace (List.length front + 2 - 2) with (List.length front + 0) by lia.
  rewrite skipn_app, Nat.add_0_r, skipn_all, Nat.sub_diag. reflexivity.
Qed.

End SplitFacts.

Section ContainsFacts.

Lemma startsWith_prefix (s p : string) :
  startsWith s p = true -> exists post, s = p ++ post.
Proof.
  revert s. induction p as [|c p IH]; intros s H.
  - now exists s.
  - destruct s as [|d s]; [discriminate|]. cbn [startsWith] in H.
    apply andb_true_iff in H as [Hc Hs]. apply Ascii.eqb_eq in Hc. subst.
    destruct (IH s Hs) as [post ->]. now exists post.
Qed.

Lemma includes_infix (s p : string) :
  includes s p = true -> exists pre post, s = pre ++ p ++ post.
Proof.
  induction s as [|c s IH]; rewrite includes_unfold; intros H.
  - rewrite orb_false_r in H. apply startsWith_prefix in H as [post ->]. now exists "", post.
  - apply orb_true_iff in H as [H | H].
    + apply startsWith_prefix in H as [post ->]. now exists "", post.
    + destruct (IH H) as (pre & post & ->). now exists (String c pre), post.
Qed.

(** A text whose lower case is a concatenation splits accordingly. *)
Lemma toLowerCase_split (a b : string) :
  forall s, toLowerCase s = a ++ b ->
            exists sa sb, s = sa ++ sb /\ toLowerCase sa = a /\ toLowerCase sb = b.
Proof.
  induction a as [|c a IH]; intros s H.
  - now exists "", s.
  - destruct s as [|d s]; [discriminate|]. cbn [toLowerCase append] in H.
    inversion H as [[Hc Hs]]. destruct (IH s Hs) as (sa & sb & -> & Ha & Hb).
    exists (String d sa), sb. cbn [toLowerCase append]. now rewrite Ha, Hb.
Qed.

Lemma includes_containsIgnoringCase (s p : string) :
  includes (toLowerCase s) p = true -> ContainsIgnoringCase s p.
Proof.
  intros H. apply includes_infix in H as (pre & post & H).
  apply toLowerCase_split in H as (spre & rest & -> & _ & H).
  apply toLowerCase_split in H as (w & spost & -> & Hw & _).
  now exists spre, w, spost.
Qed.

Lemma containsIgnoringCase_iff (s p : string) :
  includes (toLowerCase s) p = true <-> ContainsIgnoringCase s p.
Proof. split; [apply includes_containsIgnoringCase | apply containsIgnoringCase_includes]. Qed.

End ContainsFacts.

(** *** Objects *)

Section ObjectFacts.

Lemma lookup_app (key : string) (a b : list (string * JsValue)) :
  lookup key (a ++ b)
  = match lookup key b with
    | Some x => Some x
    | None => lookup key a
    end.
Proof.
  induction a as [|[k y] a IH]; cbn [lookup app]; [now destruct (lookup key b)|].
  rewrite IH. now destruct (lookup key b).
Qed.

Lemma lookup_replaced (key k : string) (x : JsValue) (fields : list (string * JsValue)) :
  lookup key (map (fun member => if String.eqb (fst member) k then (fst member, x) else member)
                  fields)
  = if String.eqb k key
    then if hasKey k fields then Some x else None
    else lookup key fields.
Proof.
  induction fields as [|[k0 y] fields IH].
  - cbn. now destruct (String.eqb k key).
  - cbn [map]. cbn [fst].
    change (hasKey k ((k0, y) :: fields)) with (String.eqb k0 k || hasKey k fields).
    destruct (String.eqb k0 k) eqn:E0.
    + apply String.eqb_eq in E0. subst k0.
      cbn [lookup orb]. rewrite IH.
      destruct (String.eqb k key) eqn:E; [now destruct (hasKey k fields)|].
      now destruct (lookup key fields).
    + cbn [lookup orb]. rewrite IH.
      destruct (String.eqb k key) eqn:E; [|reflexivity].
      apply String.eqb_eq in E. subst key. rewrite E0.
      now destruct (hasKey k fields).
Qed.

Lemma lookup_hasKey (key : string) (fields : list (string * JsValue)) :
  hasKey key fields = false -> lookup key fields = None.
Proof.
  induction fields as [|[k y] fields IH]; cbn [hasKey existsb lookup fst]; [reflexivity|].
  intros H. apply orb_false_iff in H as [Hk Hr]. rewrite (IH Hr). now rewrite Hk.
Qed.

(** After [o.k = x], the object has [x] under [k] and what it had under
    every other key. *)
Lemma lookup_setField (key k : string) (x : JsValue) (fields : list (string * JsValue)) :
  lookup key (setField k x fields)
  = if String.eqb k key then Some x else lookup key fields.
Proof.
  unfold setField. destruct (hasKey k fields) eqn:H.
  - rewrite lookup_replaced, H. reflexivity.
  - rewrite lookup_app. cbn [lookup].
    destruct (String.eqb k key) eqn:E; [reflexivity|reflexivity].
Qed.

Lemma get_setField (key k : string) (x : JsValue) (fields : list (string * JsValue)) :
  get key (Obj (setField k x fields))
  = if String.eqb k key then x else get key (Obj fields).
Proof. cbn [get]. rewrite lookup_setField. now destruct (String.eqb k key). Qed.

Lemma lookup_fold_setField (key : string) (properties base : list (string * JsValue)) :
  lookup key (fold_left (fun fields property => setField (fst property) (snd property) fields)
                        properties base)
  = match lookup key properties with
    | Some x => Some x
    | None => lookup key base
    end.
Proof.
  revert base. induction properties as [|[k x] properties IH]; intros base;
    cbn [fold_left lookup fst snd]; [reflexivity|].
  rewrite IH, lookup_setField.
  destruct (lookup key properties); [reflexivity|].
  now destruct (String.eqb k key).
Qed.

(** In [{...base, ...v}] a key of [v] overrides that of [base]. *)
Lemma get_spread (key : string) (base fields : list (string * JsValue)) :
  get key (Obj (spread base (Obj fields)))
  = match lookup key fields with
    | Some x => x
    | None => get key (Obj base)
    end.
Proof.
  cbn [get]. unfold spread. cbn [ownProperties].
  rewrite lookup_fold_setField. now destruct (lookup key fields).
Qed.

End ObjectFacts.

(** *** The Azure Function client *)

Section AzureFacts.

Variable axios_post : list AzureRequest -> AzureRequest -> Completion JsValue.
Variable path_basename : string -> string -> string.

(** runTestOnAzure posts once, and what it posts is [submitted]. *)
Lemma runTestOnAzure_trace (testCode filePath : JsValue) (sourceCode : string)
      (trace : list AzureRequest) :
  snd (runTestOnAzure axios_post testCode filePath (Str sourceCode) trace)
  = (trace ++ [submitted sourceCode])%list.
Proof.
  unfold runTestOnAzure, bind, call, submitted. cbn [asString].
  destruct (axios_post trace _) as [data|message]; [destruct (truthy data)|]; reflexivity.
Qed.

Lemma runTestOnAzure_result (testCode filePath : JsValue) (sourceCode : string)
      (trace : list AzureRequest) :
  fst (runTestOnAzure axios_post testCode filePath (Str sourceCode) trace)
  = match axios_post trace (submitted sourceCode) with
    | Returns data =>
        if truthy data then withDetails data
        else failedRun "Invalid response from Azure Function"
    | Throws message => failedRun (orElse message "Error running test on Azure")
    end.
Proof.
  unfold runTestOnAzure, bind, call, submitted. cbn [asString].
  destruct (axios_post trace _) as [data|message]; [destruct (truthy data)|]; reflexivity.
Qed.

(** Without a source text nothing is posted. *)
Lemma runTestOnAzure_without_source (testCode filePath sourceCode : JsValue)
      (trace : list AzureRequest) :
  isString sourceCode = false ->
  snd (runTestOnAzure axios_post testCode filePath sourceCode trace) = trace
  /\ truthy (get "success" (fst (runTestOnAzure axios_post testCode filePath sourceCode trace)))
     = false.
Proof.
  intros H. unfold runTestOnAzure.
  destruct sourceCode; try discriminate; cbn; now split.
Qed.

Lemma get_withDetails (key : string) (data : JsValue) :
  String.eqb "details" key = false -> get key (withDetails data) = get key data.
Proof.
  intros H. unfold withDetails. destruct data; try reflexivity.
  rewrite get_setField. now rewrite H.
Qed.

Lemma orElse_filled (x d : string) : d <> "" -> orElse x d <> "".
Proof.
  intros Hd. unfold orElse. destruct (String.eqb x "") eqn:E; [exact Hd|].
  now apply String.eqb_neq.
Qed.

Lemma truthy_Str (s : string) : s <> "" -> truthy (Str s) = true.
Proof. intros H. cbn. apply String.eqb_neq in H. now rewrite H. Qed.

(** What runTestOnAzure makes of a failed execution. *)
Lemma runTestOnAzure_failed (testCode filePath : JsValue) (sourceCode : string)
      (trace : list AzureRequest) :
  executionFailed (axios_post trace (submitted sourceCode)) ->
  let azureResult := fst (runTestOnAzure axios_post testCode filePath (Str sourceCode) trace) in
  truthy (get "success" azureResult) = false
  /\ orValue (get "error" azureResult) (Str "Azure Function execution failed")
     = reportedError (axios_post trace (submitted sourceCode)).
Proof.
  intros H. cbv zeta. rewrite runTestOnAzure_result.
  destruct (axios_post trace (submitted sourceCode)) as [data|message]; cbn [reportedError].
  - cbn [executionFailed] in H. destruct (truthy data) eqn:T.
    + rewrite !get_withDetails by reflexivity. split; [exact H | reflexivity].
    + split; reflexivity.
  - split; [reflexivity|]. unfold failedRun, orValue. cbn [get lookup String.eqb Ascii.eqb Bool.eqb].
    rewrite truthy_Str by (apply orElse_filled; discriminate). reflexivity.
Qed.

(** C9: the body posted to the Azure Function depends on the source code's
    first class-declaration match only.  Two runs on the same source
    code post the same [{sourceCode, testCode}] body whatever their
    test code and file path are: it is the canned snippet for the
    detected class name, and for the placeholder name [TestClass] when
    the source code has no class declaration. *)
Theorem azure_request_ignores_test_code
        (testCode1 filePath1 testCode2 filePath2 : JsValue) (sourceCode : string)
        (trace : list AzureRequest) :
  let sent testCode filePath :=
    snd (runTestOnAzure axios_post testCode filePath (Str sourceCode) trace) in
  sent testCode1 filePath1 = sent testCode2 filePath2
  /\ sent testCode1 filePath1
     = (trace ++ [azureRequestFor (firstGroup azureClassRe sourceCode "TestClass")])%list
  /\ (test azureClassRe sourceCode = false ->
      sent testCode1 filePath1 = (trace ++ [azureRequestFor "TestClass"])%list).
Proof.
  cbv beta zeta. rewrite !runTestOnAzure_trace. unfold submitted.
  repeat split. intros H. now rewrite (firstGroup_no_match _ _ _ H).
Qed.

Lemma join_text (lines : list string) (last : string) :
  join LF (lines ++ [last])%list = text lines ++ last.
Proof.
  induction lines as [|line lines IH]; [reflexivity|].
  cbn [app text]. rewrite !append_associative, <- IH.
  cbn [join]. destruct (lines ++ [last])%list eqn:E; [now destruct lines|reflexivity].
Qed.

Lemma append_empty (s : string) : s ++ "" = s.
Proof. induction s as [|c s IH]; cbn [append]; [reflexivity | now rewrite IH]. Qed.

Lemma localInstructionsText_eq (className : string) :
  localInstructionsText className = instructionsFor className.
Proof. unfold localInstructionsText, instructionsFor. now rewrite <- join_text. Qed.

Lemma createTestProject_eq (sourceCode testCode : string) :
  createTestProject sourceCode testCode
  = projectText
      (trim (removeAll closingBraceLineRe (removeAll namespaceOpenRe sourceCode)))
      (trim (removeAll projectUsingRe testCode))
      (firstGroup projectClassRe sourceCode "DefaultClass").
Proof.
  unfold createTestProject, projectText. cbv zeta.
  match goal with
  | |- join LF ?l = text ?t => change l with (t ++ [""])%list
  end.
  rewrite join_text. apply append_empty.
Qed.

Lemma runTestCode_fallback (testCode fileName sourceCode : string)
      (trace : list AzureRequest) :
  executionFailed (axios_post trace (submitted sourceCode)) ->
  runTestCode axios_post path_basename (Str testCode) (Str fileName) (Str sourceCode) trace
  = (Returns (fallbackResult (reportedError (axios_post trace (submitted sourceCode)))
                             (path_basename fileName ".cs") testCode
                             (localProject sourceCode testCode)),
     (trace ++ [submitted sourceCode])%list).
Proof.
  intros H.
  destruct (runTestOnAzure_failed (Str testCode) (Str fileName) sourceCode trace H)
    as [Hs He].
  unfold runTestCode. cbn [basenameOf]. unfold bind.
  pose proof (runTestOnAzure_trace (Str testCode) (Str fileName) sourceCode trace) as Ht.
  destruct (runTestOnAzure axios_post (Str testCode) (Str fileName) (Str sourceCode) trace)
    as [azureResult trace'] eqn:E.
  cbn [fst snd] in Hs, He, Ht. rewrite Hs, Ht.
  cbn [generateLocalExecutionInstructions basenameOf createTestProjectOf asString ret].
  unfold localFallback. cbn [li_projectCode li_instructions].
  rewrite He, localInstructionsText_eq, createTestProject_eq.
  reflexivity.
Qed.

(** C8: for string inputs, when the remote execution fails (the POST
    throws, or what it answers has no truthy success), runTestCode
    does not raise.  After its one POST it returns an object of
    twelve keys with [success: false], the error of the failure, all
    four counts 0, three details entries that each carry name, result
    ["Pending"], duration and error, the instructions for running the
    tests in a project named after the file, and the text of the local
    project around the source and the test code. *)
Theorem runTestCode_falls_back_without_raising
        (testCode fileName sourceCode : string) (trace : list AzureRequest) :
  executionFailed (axios_post trace (submitted sourceCode)) ->
  let className := path_basename fileName ".cs" in
  exists r,
    runTestCode axios_post path_basename (Str testCode) (Str fileName) (Str sourceCode) trace
    = (Returns r, (trace ++ [submitted sourceCode])%list)
    /\ keys r = [ "success"; "error"; "passed"; "failed"; "skipped"; "total"; "duration";
                  "details"; "localExecution"; "testCode"; "projectCode"; "instructions" ]
    /\ get "success" r = Bool false
    /\ get "error" r = reportedError (axios_post trace (submitted sourceCode))
    /\ get "passed" r = Num Number.zero /\ get "failed" r = Num Number.zero
    /\ get "skipped" r = Num Number.zero /\ get "total" r = Num Number.zero
    /\ get "duration" r = Str "N/A (Local execution required)"
    /\ get "details" r = Arr (map (pendingDetail className) [1; 2; 3])
    /\ Forall (fun d => get "result" d = Str "Pending"
                        /\ keys d = ["name"; "result"; "duration"; "error"])
              (map (pendingDetail className) [1; 2; 3])
    /\ get "localExecution" r = Bool true
    /\ get "testCode" r = Str testCode
    /\ get "instructions" r = Str (instructionsFor className)
    /\ get "projectCode" r
       = Str (projectText
                (trim (removeAll closingBraceLineRe (removeAll namespaceOpenRe sourceCode)))
                (trim (removeAll projectUsingRe testCode))
                (firstGroup projectClassRe sourceCode "DefaultClass")).
Proof.
  intros H. cbv zeta. eexists. split; [exact (runTestCode_fallback _ _ _ _ H)|].
  repeat split; try reflexivity.
  repeat constructor.
Qed.

End AzureFacts.

Lemma azure_request_ignores_test_code_witness :
  test azureClassRe Examples.scriptSource = false
  /\ snd (runTestOnAzure Examples.azureDown (Str Examples.calculatorTests)
            (Str "src/Script.cs") (Str Examples.scriptSource) [])
     = [azureRequestFor "TestClass"].
Proof.
  split; [reflexivity|].
  apply (azure_request_ignores_test_code Examples.azureDown
           (Str Examples.calculatorTests) (Str "src/Script.cs") Undefined Undefined
           Examples.scriptSource []).
  reflexivity.
Defined.

Example azure_request_for_calculator :
  snd (runTestOnAzure Examples.azureDown (Str Examples.calculatorTests)
         (Str "src/Calculator.cs") (Str Examples.calculatorSource) [])
  = [azureRequestFor "Calculator"].
Proof. reflexivity. Qed.

Lemma runTestCode_falls_back_without_raising_witness :
  executionFailed (Examples.azureDown [] (submitted Examples.calculatorSource))
  /\ exists r,
      runTestCode Examples.azureDown Examples.posixBasename
        (Str Examples.calculatorTests) (Str "src/Calculator.cs")
        (Str Examples.calculatorSource) []
      = (Returns r, [azureRequestFor "Calculator"])
      /\ get "success" r = Bool false
      /\ get "error" r = Str "Network Error"
      /\ get "total" r = Num Number.zero
      /\ get "details" r = Arr (map (pendingDetail "Calculator") [1; 2; 3])
      /\ get "instructions" r = Str (instructionsFor "Calculator")
      /\ get "projectCode" r
         = Str (projectText "public class Calculator {
    public int Add(int a, int b) { return a + b; }" Examples.calculatorTests "Calculator").
Proof.
  split; [exact I|].
  destruct (runTestCode_falls_back_without_raising Examples.azureDown Examples.posixBasename
              Examples.calculatorTests "src/Calculator.cs" Examples.calculatorSource [] I)
    as (r & E & _ & Hs & He & _ & _ & _ & Ht & _ & Hd & _ & _ & _ & Hi & Hp).
  exists r. split; [exact E|]. split; [exact Hs|]. split; [exact He|].
  split; [exact Ht|]. split; [exact Hd|]. split; [exact Hi | exact Hp].
Defined.

(** An answer without success is a failed execution as well; the
    error of the answer is reported. *)
Example runTestCode_falls_back_on_a_failed_answer :
  let azure := fun (_ : list AzureRequest) (_ : AzureRequest) =>
                 Returns (Obj [("success", Bool false); ("error", Str "Compilation failed")]) in
  exists r,
    fst (runTestCode azure Examples.posixBasename (Str Examples.calculatorTests)
           (Str "src/Calculator.cs") (Str Examples.calculatorSource) [])
    = Returns r
    /\ get "success" r = Bool false
    /\ get "error" r = Str "Compilation failed"
    /\ get "localExecution" r = Bool true.
Proof. cbv zeta. eexists. split; [reflexivity|]. repeat split. Qed.

(** With a missing file name the [catch] block is entered, and it throws. *)
Example runTestCode_raises_without_file_name :
  fst (runTestCode Examples.azureDown Examples.posixBasename
         (Str Examples.calculatorTests) Undefined (Str Examples.calculatorSource) [])
  = Throws ("The " ++ DQ ++ "path" ++ DQ
            ++ " argument must be of type string. Received undefined").
Proof. reflexivity. Qed.

Example posixBasename_examples :
  Examples.posixBasename "src/Calculator.cs" ".cs" = "Calculator"
  /\ Examples.posixBasename ".cs" ".cs" = ""
  /\ Examples.posixBasename "src/.cs" ".cs" = ".cs"
  /\ Examples.posixBasename "src/Calculator.cs/" ".cs" = "Calculator"
  /\ Examples.posixBasename "README" ".cs" = "README".
Proof. repeat split. Qed.

(** *** The test run *)

Section AzureMore.

Variable axios_post : list AzureRequest -> AzureRequest -> Completion JsValue.
Variable path_basename : string -> string -> string.

Lemma normalizeDetail_eq (entry : JsValue) : normalizeDetail entry = normalizedDetail entry.
Proof.
  unfold normalizeDetail, normalizedDetail, normalized, orValue, defaultDetail.
  destruct entry; try reflexivity.
Qed.

Lemma map_normalizeDetail (entries : list JsValue) :
  map normalizeDetail entries = map normalizedDetail entries.
Proof. apply map_ext. exact normalizeDetail_eq. Qed.

Lemma get_details_withDetails (fields : list (string * JsValue)) :
  get "details" (withDetails (Obj fields)) = normalizedDetails (Obj fields).
Proof.
  unfold withDetails, normalizedDetails. rewrite get_setField. cbn [String.eqb Ascii.eqb Bool.eqb].
  destruct (get "details" (Obj fields)); try reflexivity.
  now rewrite map_normalizeDetail.
Qed.

(** X8: when the Azure Function answers an object, runTestOnAzure
    returns it with its details in normal form and every other key
    unchanged: one entry per entry of the answer's details (none when
    that is no array), each with the four keys name, result, duration
    and error, holding the entry's own value where that is truthy and
    ['Unknown test'], ['Unknown'], ['N/A'] and [null] otherwise. *)
Theorem azure_details_are_normalized
        (testCode filePath : JsValue) (sourceCode : string) (trace : list AzureRequest)
        (fields : list (string * JsValue)) :
  axios_post trace (submitted sourceCode) = Returns (Obj fields) ->
  let result := fst (runTestOnAzure axios_post testCode filePath (Str sourceCode) trace) in
  get "details" result
  = match get "details" (Obj fields) with
    | Arr entries =>
        Arr (map (fun entry =>
                    Obj [ ("name", normalized "name" entry);
                          ("result", normalized "result" entry);
                          ("duration", normalized "duration" entry);
                          ("error", normalized "error" entry) ])
                 entries)
    | _ => Arr []
    end
  /\ forall key, key <> "details" -> get key result = get key (Obj fields).
Proof.
  intros H. cbv zeta. rewrite runTestOnAzure_result, H. cbn [truthy].
  split; [apply get_details_withDetails|].
  intros key Hk. apply get_withDetails. apply String.eqb_neq. congruence.
Qed.

Lemma runTestCodeCatch_throws (testCode fileName sourceCode : JsValue) :
  exists message, runTestCodeCatch path_basename testCode fileName sourceCode = Throws message.
Proof.
  unfold runTestCodeCatch.
  destruct (generateLocalExecutionInstructions path_basename testCode fileName sourceCode)
    as [instructions|message]; eauto.
Qed.

Lemma basenameOf_throws (fileName : JsValue) :
  isString fileName = false -> exists message, basenameOf path_basename fileName = Throws message.
Proof.
  intros H. unfold basenameOf.
  destruct fileName; try discriminate; try (cbn; eauto; fail).
  destruct (received (Obj fields)); eauto.
Qed.

Lemma asString_throws (receiver method : string) (v : JsValue) :
  isString v = false -> exists message, asString receiver method v = Throws message.
Proof. intros H. destruct v; try discriminate; cbn; eauto. Qed.

Lemma runSucceeded_object (answer : Completion JsValue) :
  runSucceeded answer = true -> exists fields, answer = Returns (Obj fields).
Proof.
  destruct answer as [data|message]; [|discriminate].
  destruct data; try discriminate. eauto.
Qed.

Lemma runSucceeded_failed (answer : Completion JsValue) :
  runSucceeded answer = false -> executionFailed answer.
Proof. destruct answer as [data|message]; [intros H; exact H | intros _; exact I]. Qed.

(** What runTestCode does, case by case. *)
Lemma runTestCode_cases (testCode fileName sourceCode : JsValue) (trace : list AzureRequest) :
  let run := runTestCode axios_post path_basename testCode fileName sourceCode trace in
  match fileName, givenSource sourceCode with
  | Str name, Str source =>
      let answer := axios_post trace (submitted source) in
      if runSucceeded answer
      then exists fields,
             answer = Returns (Obj fields)
             /\ run = (Returns (onlineResult (withDetails (Obj fields))),
                       (trace ++ [submitted source])%list)
      else match testCode with
           | Str tests =>
               run = (Returns (fallbackResult (reportedError answer)
                                              (path_basename name ".cs") tests
                                              (localProject source tests)),
                      (trace ++ [submitted source])%list)
           | _ => exists message, run = (Throws message, (trace ++ [submitted source])%list)
           end
  | _, _ => exists message, run = (Throws message, trace)
  end.
Proof.
  cbv zeta.
  assert ((exists m, basenameOf path_basename fileName = Throws m) ->
             exists message0,
               runTestCode axios_post path_basename testCode fileName sourceCode trace
               = (Throws message0, trace)) as NoName.
  { intros [m Hm]. unfold runTestCode. rewrite Hm.
    destruct (runTestCodeCatch_throws testCode fileName (givenSource sourceCode)) as [m' Hm'].
    exists m'. unfold givenSource in Hm'. unfold ret. now rewrite Hm'. }
  destruct fileName as [| |b|x|name|items|fields];
    try (apply NoName; apply basenameOf_throws; reflexivity).
  clear NoName.
  destruct (givenSource sourceCode) as [| |b|x|source|items|fields] eqn:G.
  all:
    try (unfold runTestCode; fold (givenSource sourceCode); rewrite G; cbn [basenameOf];
         unfold bind, runTestOnAzure; cbn [asString ret];
         cbn [failedRun get lookup String.eqb Ascii.eqb Bool.eqb truthy];
         unfold generateLocalExecutionInstructions, runTestCodeCatch,
           generateLocalExecutionInstructions;
         cbn [basenameOf createTestProjectOf asString]; unfold ret; eauto; fail).
  destruct (runSucceeded (axios_post trace (submitted source))) eqn:S.
  - destruct (runSucceeded_object _ S) as [fields E]. exists fields. split; [exact E|].
    unfold runTestCode. fold (givenSource sourceCode). rewrite G. cbn [basenameOf].
    unfold bind.
    pose proof (runTestOnAzure_trace axios_post testCode (Str name) source trace) as Ht.
    pose proof (runTestOnAzure_result axios_post testCode (Str name) source trace) as Hr.
    destruct (runTestOnAzure axios_post testCode (Str name) (Str source) trace)
      as [azureResult trace'].
    cbn [fst snd] in Ht, Hr. rewrite E in Hr. cbn [truthy] in Hr. subst azureResult trace'.
    rewrite E in S. cbn [runSucceeded] in S.
    rewrite get_withDetails by reflexivity. rewrite S. reflexivity.
  - destruct testCode as [| |b|x|tests|items|fields].
    5: { assert (sourceCode = Str source \/ (sourceCode = Undefined /\ source = "")) as D.
         { destruct sourceCode; try discriminate; cbn in G.
           - injection G as <-. now right.
           - injection G as ->. now left. }
         pose proof (runTestCode_fallback axios_post path_basename tests name source trace
                       (runSucceeded_failed _ S)) as F.
         destruct D as [-> | [-> ->]]; exact F. }
    all:
      (unfold runTestCode; fold (givenSource sourceCode); rewrite G; cbn [basenameOf];
       unfold bind;
       match goal with
       | |- context [runTestOnAzure axios_post ?t ?f ?s ?tr] =>
           pose proof (runTestOnAzure_failed axios_post t f source tr
                         (runSucceeded_failed _ S)) as [Hs' _];
           pose proof (runTestOnAzure_trace axios_post t f source tr) as Ht';
           destruct (runTestOnAzure axios_post t f s tr) as [azureResult trace']
       end;
       cbn [fst snd] in Hs', Ht'; rewrite Hs', Ht';
       unfold generateLocalExecutionInstructions, runTestCodeCatch,
         generateLocalExecutionInstructions;
       cbn [basenameOf createTestProjectOf asString]; unfold ret; eauto).
Qed.

Lemma runTestCode_outcome
      (testCode fileName sourceCode : JsValue) (trace : list AzureRequest) :
  let run := runTestCode axios_post path_basename testCode fileName sourceCode trace in
  returned (fst run)
  = isString fileName
    && match givenSource sourceCode with
       | Str source =>
           runSucceeded (axios_post trace (submitted source)) || isString testCode
       | _ => false
       end
  /\ snd run
     = match fileName, givenSource sourceCode with
       | Str _, Str source => (trace ++ [submitted source])%list
       | _, _ => trace
       end.
Proof.
  cbv zeta. pose proof (runTestCode_cases testCode fileName sourceCode trace) as C.
  cbv zeta in C.
  destruct fileName as [| |b|x|name|items|fields];
    try (destruct C as [message ->]; split; reflexivity).
  destruct (givenSource sourceCode) as [| |b|x|source|items|fields];
    try (destruct C as [message ->]; split; reflexivity).
  destruct (runSucceeded (axios_post trace (submitted source))).
  - destruct C as (fields & _ & ->). split; reflexivity.
  - destruct testCode; try (rewrite C; split; reflexivity);
      destruct C as [message ->]; split; reflexivity.
Qed.


(** X9: runTestCode returns exactly when the file name is a string,
    the source code is a string (the empty one when it is not given)
    and either the remote execution succeeds or the test code is a
    string; in every other case it raises.  It posts once when file
    name and source code are strings, and not at all otherwise. *)
Theorem runTestCode_raises_exactly_without_its_inputs
        (testCode fileName sourceCode : JsValue) (trace : list AzureRequest) :
  let run := runTestCode axios_post path_basename testCode fileName sourceCode trace in
  returned (fst run)
  = isString fileName
    && match givenSource sourceCode with
       | Str source =>
           runSucceeded (axios_post trace (submitted source)) || isString testCode
       | _ => false
       end
  /\ snd run
     = match fileName, givenSource sourceCode with
       | Str _, Str source => (trace ++ [submitted source])%list
       | _, _ => trace
       end.
Proof. exact (runTestCode_outcome testCode fileName sourceCode trace). Qed.

Lemma get_onlineResult (key : string) (fields : list (string * JsValue)) :
  truthy (get "success" (Obj fields)) = true ->
  get key (onlineResult (withDetails (Obj fields)))
  = if String.eqb "onlineExecution" key then Bool true
    else if String.eqb "details" key then normalizedDetails (Obj fields)
    else get key (Obj fields).
Proof.
  intros T. unfold onlineResult. rewrite get_setField.
  destruct (String.eqb "onlineExecution" key) eqn:Eo; [reflexivity|].
  destruct (String.eqb "details" key) eqn:Ed.
  - apply String.eqb_eq in Ed. subst key. rewrite <- get_details_withDetails.
    unfold withDetails. rewrite get_spread.
    cbn [get]. rewrite lookup_setField. reflexivity.
  - unfold withDetails. rewrite get_spread, lookup_setField, Ed.
    cbn [get] in *. destruct (lookup key fields) as [x|] eqn:L; [reflexivity|].
    cbn [lookup]. destruct (String.eqb "success" key) eqn:Es; [|reflexivity].
    apply String.eqb_eq in Es. subst key. rewrite L in T. discriminate.
Qed.

(** X10: a result that runTestCode returns is one of two.  After a
    successful remote execution it is the answer of the Azure
    Function, an object with a truthy success, with onlineExecution
    set to true and the details in normal form; every other key of
    the answer, success included, is passed on as it is.  After a
    failed remote execution it is the local fallback: success false,
    the error of the failure, counts 0, three pending details, the
    test code, the local project and the instructions. *)
Theorem runTestCode_result_is_online_or_local
        (testCode fileName sourceCode : JsValue) (trace : list AzureRequest) (r : JsValue) :
  fst (runTestCode axios_post path_basename testCode fileName sourceCode trace) = Returns r ->
  exists name source,
    fileName = Str name /\ givenSource sourceCode = Str source
    /\ ((exists fields,
           axios_post trace (submitted source) = Returns (Obj fields)
           /\ truthy (get "success" (Obj fields)) = true
           /\ get "onlineExecution" r = Bool true
           /\ get "success" r = get "success" (Obj fields)
           /\ get "details" r = normalizedDetails (Obj fields)
           /\ forall key, key <> "details" -> key <> "onlineExecution" ->
                          get key r = get key (Obj fields))
        \/ (executionFailed (axios_post trace (submitted source))
            /\ exists tests,
                testCode = Str tests
                /\ r = fallbackResult (reportedError (axios_post trace (submitted source)))
                                      (path_basename name ".cs") tests
                                      (localProject source tests))).
Proof.
  intros H. pose proof (runTestCode_cases testCode fileName sourceCode trace) as C.
  cbv zeta in C.
  destruct fileName as [| |b|x|name|items|fields];
    try (destruct C as [message E]; rewrite E in H; discriminate).
  destruct (givenSource sourceCode) as [| |b|x|source|items|fields];
    try (destruct C as [message E]; rewrite E in H; discriminate).
  exists name, source. split; [reflexivity|]. split; [reflexivity|].
  destruct (runSucceeded (axios_post trace (submitted source))) eqn:S.
  - left. destruct C as (fields & E & R). rewrite R in H. cbn [fst] in H.
    injection H as <-. exists fields. split; [exact E|].
    rewrite E in S. cbn [runSucceeded] in S. split; [exact S|].
    split; [now rewrite (get_onlineResult _ _ S)|].
    split; [now rewrite (get_onlineResult _ _ S)|].
    split; [now rewrite (get_onlineResult _ _ S)|].
    intros key Hd Ho. rewrite (get_onlineResult _ _ S).
    replace (String.eqb "onlineExecution" key) with false
      by (symmetry; apply String.eqb_neq; congruence).
    replace (String.eqb "details" key) with false
      by (symmetry; apply String.eqb_neq; congruence).
    reflexivity.
  - right. split; [exact (runSucceeded_failed _ S)|].
    destruct testCode;
      try (rewrite C in H; cbn [fst] in H; injection H as <-; eexists; split; reflexivity);
      destruct C as [message E]; rewrite E in H; discriminate.
Qed.

End AzureMore.

Lemma azure_details_are_normalized_witness :
  MoreExamples.azureAnswers [] (submitted Examples.calculatorSource)
  = Returns MoreExamples.sparseResponse
  /\ get "details"
         (fst (runTestOnAzure MoreExamples.azureAnswers (Str Examples.calculatorTests)
                 (Str "src/Calculator.cs") (Str Examples.calculatorSource) []))
     = Arr [ Obj [ ("name", Str "Unknown test"); ("result", Str "Unknown");
                   ("duration", Str "N/A"); ("error", Null) ];
             Obj [ ("name", Str "Unknown test"); ("result", Str "Unknown");
                   ("duration", Str "N/A"); ("error", Null) ];
             Obj [ ("name", Str "Unknown test"); ("result", Str "Unknown");
                   ("duration", Str "N/A"); ("error", Null) ];
             Obj [ ("name", Str "TestMethod"); ("result", Str "Passed");
                   ("duration", Num (Number.ofZ 12)); ("error", Null) ] ].
Proof.
  split; [reflexivity|].
  exact (proj1 (azure_details_are_normalized MoreExamples.azureAnswers
                  (Str Examples.calculatorTests) (Str "src/Calculator.cs")
                  Examples.calculatorSource [] _ eq_refl)).
Defined.

Lemma runTestCode_result_is_online_or_local_witness :
  let r := onlineResult (withDetails MoreExamples.sparseResponse) in
  fst (runTestCode MoreExamples.azureAnswers Examples.posixBasename
         (Str Examples.calculatorTests) (Str "src/Calculator.cs")
         (Str Examples.calculatorSource) [])
  = Returns r
  /\ get "onlineExecution" r = Bool true
  /\ get "projectCode" r = Str "class Injected { }".
Proof.
  cbv zeta. split; [reflexivity|].
  destruct (runTestCode_result_is_online_or_local MoreExamples.azureAnswers
              Examples.posixBasename (Str Examples.calculatorTests) (Str "src/Calculator.cs")
              (Str Examples.calculatorSource) [] _ eq_refl)
    as (name & source & _ & _ & [(fields & E & _ & Ho & _ & _ & Hk) | (F & _)]).
  - split; [exact Ho|].
    rewrite (Hk "projectCode") by discriminate.
    injection E as <-. reflexivity.
  - discriminate F.
Defined.

(** A source code that is null makes the run raise although file
    name and test code are given; nothing is posted. *)
Example runTestCode_raises_on_null_source :
  runTestCode Examples.azureDown Examples.posixBasename
    (Str Examples.calculatorTests) (Str "src/Calculator.cs") Null []
  = (Throws "Cannot read properties of null (reading 'match')", []).
Proof. reflexivity. Qed.

(** *** The routes for generation, classification and the test run *)

Section GeneratorFacts.

Variable create : list GenerationRequest -> GenerationRequest -> Completion string.

(** X12: the generate-test route calls the model once, with the file
    name and the file content of the body as a template literal
    renders them.  When the model answers, the route replies 200 with
    the cleaned answer, which is the answer with characters deleted
    and trimmed; when the call fails, it replies 500 and the message
    of the failure behind the prefix "Failed to generate test code: ".
    A name or a content that cannot be rendered is such a failure,
    and then the model is not called. *)
Theorem generate_test_route_cleans_or_reports
        (fileContent fileName : JsValue) (trace : list GenerationRequest) :
  let response := fst (generateTestRoute create fileContent fileName trace) in
  let sent := snd (generateTestRoute create fileContent fileName trace) in
  match toStr fileName, toStr fileContent with
  | Returns name, Returns content =>
      let request := {| gen_fileName := name; gen_fileContent := content |} in
      sent = (trace ++ [request])%list
      /\ match create trace request with
         | Returns answer =>
             exists testCode,
               response = {| status := 200; body := Success testCode |}
               /\ testCode = cleanupTestCode answer
               /\ Subsequence testCode answer /\ trim testCode = testCode
         | Throws message =>
             response = {| status := 500;
                           body := Failure ("Failed to generate test code: " ++ message) |}
         end
  | Throws message, _ | Returns _, Throws message =>
      sent = trace
      /\ response = {| status := 500;
                       body := Failure ("Failed to generate test code: " ++ message) |}
  end.
Proof.
  cbv zeta. unfold generateTestRoute, generateTestCode, bind, call.
  destruct (toStr fileName) as [name|message]; [|now split].
  destruct (toStr fileContent) as [content|message]; [|now split].
  destruct (create trace _) as [answer|message]; split; try reflexivity.
  exists (cleanupTestCode answer). split; [reflexivity|]. split; [reflexivity|].
  split; [apply cleanup_Subsequence | apply cleanup_output_trimmed].
Qed.

End GeneratorFacts.

Example generate_test_route_on_fenced_answer :
  fst (generateTestRoute (MoreExamples.generatorSays Examples.fencedAnswer)
         (Str Examples.calculatorSource) (Str "src/Calculator.cs") [])
  = {| status := 200;
       body := Success "public class CalculatorTests { public void TestAdd() { } }" |}.
Proof. reflexivity. Qed.

(** A missing name is sent as the word undefined, a number in its
    decimal form. *)
Example generate_test_route_renders_its_arguments :
  snd (generateTestRoute (MoreExamples.generatorSays "") (Num (Number.ofZ 42)) Undefined [])
  = [ {| gen_fileName := "undefined"; gen_fileContent := "42" |} ].
Proof. vm_compute. reflexivity. Qed.

Section ClassifierFacts.

Variable create : list JsValue -> JsValue -> Completion string.

(** X16: when the model answers, the classify route replies 200 with
    the answer as the analysis, and the classification is logic
    exactly when the answer contains the word logic in any letter
    case, as part of a longer word too, and boilerplate otherwise.
    The model is called once, with the file content. *)
Theorem classify_route_decides_by_substring
        (fileContent : JsValue) (trace : list JsValue) (answer : string) :
  create trace fileContent = Returns answer ->
  exists verdict,
    classifyRoute create fileContent trace
    = ({| status := 200;
          body := Success {| cls_classification := verdict; cls_analysis := answer |} |},
       (trace ++ [fileContent])%list)
    /\ (verdict = "logic" <-> ContainsIgnoringCase answer "logic")
    /\ (verdict = "boilerplate" <-> ~ ContainsIgnoringCase answer "logic").
Proof.
  intros H. unfold classifyRoute, bind, call. rewrite H. cbn [ret json].
  eexists. split; [reflexivity|].
  rewrite <- containsIgnoringCase_iff.
  destruct (includes (toLowerCase answer) "logic"); split; split;
    try discriminate; try reflexivity; try congruence.
Qed.

End ClassifierFacts.

Lemma classify_route_decides_by_substring_witness :
  exists verdict,
    classifyRoute (MoreExamples.classifierSays "This file is not business logic.")
                  (Str Examples.calculatorSource) []
    = ({| status := 200;
          body := Success {| cls_classification := verdict;
                             cls_analysis := "This file is not business logic." |} |},
       ([] ++ [Str Examples.calculatorSource])%list)
    /\ (verdict = "logic" <-> ContainsIgnoringCase "This file is not business logic." "logic")
    /\ (verdict = "boilerplate"
        <-> ~ ContainsIgnoringCase "This file is not business logic." "logic").
Proof.
  apply (classify_route_decides_by_substring
           (MoreExamples.classifierSays "This file is not business logic.")
           (Str Examples.calculatorSource) [] "This file is not business logic.").
  reflexivity.
Defined.

(** An answer that denies it, or one about technology, classifies as logic. *)
Example classify_route_on_negation_and_longer_word :
  map (fun answer =>
         body (fst (classifyRoute (MoreExamples.classifierSays answer) (Str "class A { }") [])))
      [ "This file is not business logic."; "Technological glue code."; "Boilerplate." ]
  = [ Success {| cls_classification := "logic";
                 cls_analysis := "This file is not business logic." |};
      Success {| cls_classification := "logic"; cls_analysis := "Technological glue code." |};
      Success {| cls_classification := "boilerplate"; cls_analysis := "Boilerplate." |} ].
Proof. reflexivity. Qed.

Section RunnerFacts.

Variable axios_post : list AzureRequest -> AzureRequest -> Completion JsValue.
Variable path_basename : string -> string -> string.

(** X17: the run-test route replies 200 exactly when runTestCode
    returns, that is when file name and source code are strings (the
    source code may be left out) and the remote execution succeeded
    or the test code is a string; otherwise it replies 500 with the
    message of the error.  A reply of 200 has success true at the top
    level, also when the remote execution failed: the failure only
    shows inside the results, whose success is then false and whose
    localExecution is true. *)
Theorem run_test_route_hides_a_failed_run
        (testCode fileName sourceCode : JsValue) (trace : list AzureRequest) :
  let response :=
    fst (runTestRoute axios_post path_basename testCode fileName sourceCode trace) in
  let run := fst (runTestCode axios_post path_basename testCode fileName sourceCode trace) in
  status response
  = (if isString fileName
        && match givenSource sourceCode with
           | Str source =>
               runSucceeded (axios_post trace (submitted source)) || isString testCode
           | _ => false
           end
     then 200 else 500)
  /\ match run with
     | Returns results => response = {| status := 200; body := Success results |}
     | Throws message => response = {| status := 500; body := Failure message |}
     end
  /\ (forall name source tests,
         fileName = Str name -> givenSource sourceCode = Str source -> testCode = Str tests ->
         executionFailed (axios_post trace (submitted source)) ->
         exists results,
           response = {| status := 200; body := Success results |}
           /\ topLevelSuccess (body response) = true
           /\ get "success" results = Bool false
           /\ get "localExecution" results = Bool true).
Proof.
  cbv zeta.
  pose proof (proj1 (runTestCode_outcome axios_post path_basename
                       testCode fileName sourceCode trace)) as R.
  cbv zeta in R.
  pose proof (runTestCode_cases axios_post path_basename testCode fileName sourceCode trace)
    as C.
  cbv zeta in C.
  unfold runTestRoute, bind.
  destruct (runTestCode axios_post path_basename testCode fileName sourceCode trace)
    as [run trace'] eqn:E.
  cbn [fst] in *. rewrite <- R.
  split; [now destruct run|]. split; [now destruct run|].
  intros name source tests -> Gs -> F. rewrite Gs in C.
  assert (runSucceeded (axios_post trace (submitted source)) = false) as S.
  { destruct (axios_post trace (submitted source)); [exact F | reflexivity]. }
  rewrite S in C. injection C as -> _.
  eexists. split; [reflexivity|]. repeat split.
Qed.

End RunnerFacts.

Example run_test_route_when_azure_is_down :
  let response :=
    fst (runTestRoute Examples.azureDown Examples.posixBasename
           (Str Examples.calculatorTests) (Str "src/Calculator.cs")
           (Str Examples.calculatorSource) []) in
  status response = 200
  /\ topLevelSuccess (body response) = true
  /\ match body response with
     | Success results =>
         get "success" results = Bool false /\ get "localExecution" results = Bool true
     | Failure _ => False
     end.
Proof. cbv zeta. split; [reflexivity|]. split; [reflexivity|]. split; reflexivity. Qed.

(** *** Per-file analysis *)

Section ModelFacts.

Variable create : list ChatRequest -> ChatRequest -> Completion string.
Variable JSON_parse : string -> Completion Analysis.

Lemma mentionsError_eq (name : string) : mentionsError name = nameExcluded name.
Proof. reflexivity. Qed.

Lemma mentionsErrorPage_eq (content : string) :
  mentionsErrorPage content = contentExcluded content.
Proof. reflexivity. Qed.

Lemma analyzeLogicFile_excluded_name (fileContent : JsValue) (fileName : string)
      (trace : list ChatRequest) :
  nameExcluded fileName = true ->
  analyzeLogicFile create JSON_parse fileContent (Str fileName) trace
  = (Returns (Skipped fileName skipReason), trace).
Proof. intros H. unfold analyzeLogicFile. cbn [asString]. now rewrite mentionsError_eq, H. Qed.

Lemma analyzeLogicFile_excluded_content (fileContent fileName : string)
      (trace : list ChatRequest) :
  contentExcluded fileContent = true ->
  analyzeLogicFile create JSON_parse (Str fileContent) (Str fileName) trace
  = (Returns (Skipped fileName skipReason), trace).
Proof.
  intros H. unfold analyzeLogicFile. cbn [asString].
  destruct (mentionsError fileName); [reflexivity|].
  now rewrite mentionsErrorPage_eq, H.
Qed.

Lemma orElse_eq (message fallback : string) :
  orElse message fallback = if String.eqb message "" then fallback else message.
Proof. reflexivity. Qed.

(** The analysis of a file that is not excluded: one call, and the
    result of its answer. *)
Lemma analyzeLogicFile_called (fileContent fileName : string) (trace : list ChatRequest) :
  nameExcluded fileName = false -> contentExcluded fileContent = false ->
  let request := {| chat_fileName := fileName; chat_fileContent := fileContent |} in
  analyzeLogicFile create JSON_parse (Str fileContent) (Str fileName) trace
  = (Returns (resultFrom fileName (create trace request) JSON_parse),
     (trace ++ [request])%list).
Proof.
  intros Hn Hc. cbv zeta. unfold analyzeLogicFile, bind, call. cbn [asString].
  rewrite mentionsError_eq, Hn, mentionsErrorPage_eq, Hc. unfold resultFrom.
  destruct (create trace _) as [text|message]; [destruct (JSON_parse text)|]; reflexivity.
Qed.

(** Where the heuristic cannot be evaluated, the analysis throws
    before any call. *)
Lemma analyzeLogicFile_unreadable (fileContent fileName : JsValue)
      (trace : list ChatRequest) :
  match fileName with
  | Str name => nameExcluded name = false /\ isString fileContent = false
  | _ => True
  end ->
  exists message,
    analyzeLogicFile create JSON_parse fileContent fileName trace = (Throws message, trace).
Proof.
  intros H. unfold analyzeLogicFile.
  destruct fileName as [| |b|x|name|items|fields]; try (cbn; unfold ret; eauto; fail).
  destruct H as [Hn Hc]. cbn [asString]. rewrite mentionsError_eq, Hn.
  destruct fileContent; try discriminate; cbn; unfold ret; eauto.
Qed.

(** C5: a file whose name contains "error" or "exception", or whose
    content contains "error page" or "exception page", in any letter
    case, is marked skipped, and no call to the model is issued for it
    (the trace of calls is unchanged, whatever the model would have
    answered).  A name that matches decides for every content, of any
    type; in particular "ErrorPage.cs" is skipped for every content. *)
Theorem excluded_file_is_skipped_without_call :
  (forall (fileContent : JsValue) (fileName : string) (trace : list ChatRequest),
      ContainsIgnoringCase fileName "error" \/ ContainsIgnoringCase fileName "exception" ->
      analyzeLogicFile create JSON_parse fileContent (Str fileName) trace
      = (Returns (Skipped fileName
                    "Error handling file excluded from core functionality analysis"),
         trace))
  /\ (forall (fileContent fileName : string) (trace : list ChatRequest),
         ContainsIgnoringCase fileName "error"
         \/ ContainsIgnoringCase fileName "exception"
         \/ ContainsIgnoringCase fileContent "error page"
         \/ ContainsIgnoringCase fileContent "exception page" ->
         analyzeLogicFile create JSON_parse (Str fileContent) (Str fileName) trace
         = (Returns (Skipped fileName
                       "Error handling file excluded from core functionality analysis"),
            trace)
         /\ skipped (Skipped fileName
                       "Error handling file excluded from core functionality analysis")
            = true)
  /\ (forall (fileContent : JsValue) (trace : list ChatRequest),
         analyzeLogicFile create JSON_parse fileContent (Str "ErrorPage.cs") trace
         = (Returns (Skipped "ErrorPage.cs"
                       "Error handling file excluded from core functionality analysis"),
            trace)).
Proof.
  assert (forall fileName,
             ContainsIgnoringCase fileName "error" \/ ContainsIgnoringCase fileName "exception" ->
             nameExcluded fileName = true) as N.
  { intros fileName [H|H]; unfold nameExcluded;
      rewrite (containsIgnoringCase_includes _ _ H); rewrite ?orb_true_r; reflexivity. }
  split; [|split].
  - intros fileContent fileName trace H.
    exact (analyzeLogicFile_excluded_name fileContent fileName trace (N fileName H)).
  - intros fileContent fileName trace H. split; [|reflexivity].
    destruct H as [H | [H | H]].
    + exact (analyzeLogicFile_excluded_name _ fileName trace (N fileName (or_introl H))).
    + exact (analyzeLogicFile_excluded_name _ fileName trace (N fileName (or_intror H))).
    + apply analyzeLogicFile_excluded_content. unfold contentExcluded.
      destruct H as [H|H]; rewrite (containsIgnoringCase_includes _ _ H);
        rewrite ?orb_true_r; reflexivity.
  - intros fileContent trace. now apply analyzeLogicFile_excluded_name.
Qed.


(** *** The batch of per-file analyses *)

Lemma mapAll_cons {Ev A B : Type} (f : A -> IO Ev B) (x : A) (rest : list A) (t : list Ev) :
  mapAll f (x :: rest) t
  = (fst (f x t) :: fst (mapAll f rest (snd (f x t))),
     snd (mapAll f rest (snd (f x t)))).
Proof.
  cbn [mapAll]. unfold bind, ret.
  destruct (f x t) as [y t']. cbn [fst snd].
  now destruct (mapAll f rest t') as [ys t''].
Qed.

Lemma isLogic_eq (file : JsValue) : isLogic file = classifiedLogic file.
Proof. reflexivity. Qed.

End ModelFacts.

Lemma excluded_file_is_skipped_without_call_witness :
  ContainsIgnoringCase "src/GlobalExceptionFilter.cs" "exception"
  /\ analyzeLogicFile Examples.flakyModel Examples.parseAnswer
       Null (Str "src/GlobalExceptionFilter.cs") []
     = (Returns (Skipped "src/GlobalExceptionFilter.cs"
                   "Error handling file excluded from core functionality analysis"),
        []).
Proof.
  assert (ContainsIgnoringCase "src/GlobalExceptionFilter.cs" "exception") as H
      by (exists "src/Global", "Exception", "Filter.cs"; split; reflexivity).
  split; [exact H|].
  apply (proj1 (excluded_file_is_skipped_without_call Examples.flakyModel Examples.parseAnswer)
               Null "src/GlobalExceptionFilter.cs" []).
  right. exact H.
Defined.

(** A content that mentions an error page excludes a file whatever
    its name; a content that is no string makes the analysis throw
    unless the name decides. *)
Example analyzeLogicFile_on_contents :
  fst (analyzeLogicFile Examples.flakyModel Examples.parseAnswer
         (Str "<h1>Custom Error Page</h1>") (Str "src/Views/Shared.cs") [])
  = Returns (Skipped "src/Views/Shared.cs"
               "Error handling file excluded from core functionality analysis")
  /\ fst (analyzeLogicFile Examples.flakyModel Examples.parseAnswer
            (Num (Number.ofZ 1)) (Str "src/Cart.cs") [])
     = Throws "fileContent.toLowerCase is not a function".
Proof. split; reflexivity. Qed.

Section BatchFacts.

Variable create : list ChatRequest -> ChatRequest -> Completion string.
Variable JSON_parse : string -> Completion Analysis.

Lemma logicFilesOf_returns (files : list JsValue) :
  existsb isNullish files = false ->
  logicFilesOf files = Returns (filter classifiedLogic files).
Proof.
  induction files as [|file files IH]; [reflexivity|].
  cbn [existsb]. intros H. apply orb_false_iff in H as [Hf Hr].
  cbn [logicFilesOf filter]. rewrite (IH Hr), isLogic_eq.
  destruct file; try discriminate; reflexivity.
Qed.

Lemma logicFilesOf_throws (files : list JsValue) :
  existsb isNullish files = true ->
  exists message, message <> "" /\ logicFilesOf files = Throws message.
Proof.
  induction files as [|file files IH]; [discriminate|].
  cbn [existsb]. intros H. cbn [logicFilesOf].
  destruct file; try (eexists; split; [|reflexivity]; discriminate);
    cbn [isNullish orb] in H; destruct (IH H) as (message & Hm & ->); eauto.
Qed.

(** The calls that the analysis of a file issues. *)
Lemma analyzeFile_trace (file : JsValue) (trace : list ChatRequest) :
  classifiedLogic file = true ->
  snd (analyzeLogicFile create JSON_parse (get "content" file) (get "path" file) trace)
  = (trace ++ match callFor file with Some request => [request] | None => [] end)%list.
Proof.
  intros L. unfold callFor. rewrite L. cbn [andb].
  destruct (get "path" file) as [| |b|x|name|items|fields] eqn:P;
    try (destruct (analyzeLogicFile_unreadable create JSON_parse (get "content" file)
                     (get "path" file) trace) as [message E];
         [now rewrite P | rewrite P in E; rewrite E; cbn [snd]; now rewrite app_nil_r]).
  destruct (nameExcluded name) eqn:Hn.
  - rewrite (analyzeLogicFile_excluded_name create JSON_parse _ name trace Hn). cbn [snd orb negb].
    destruct (get "content" file); now rewrite app_nil_r.
  - destruct (get "content" file) as [| |b|x|content|items|fields] eqn:C;
      try (destruct (analyzeLogicFile_unreadable create JSON_parse (get "content" file)
                       (Str name) trace) as [message E];
           [rewrite C; now split | rewrite C in E; rewrite E; cbn [snd]; now rewrite app_nil_r]).
    cbn [orb]. destruct (contentExcluded content) eqn:Hc; cbn [negb].
    + rewrite (analyzeLogicFile_excluded_content create JSON_parse content name trace Hc).
      cbn [snd]. now rewrite app_nil_r.
    + now rewrite (analyzeLogicFile_called create JSON_parse content name trace Hn Hc).
Qed.

Lemma callsFor_cons (file : JsValue) (files : list JsValue) :
  callsFor (file :: files)
  = (match callFor file with Some request => [request] | None => [] end ++ callsFor files)%list.
Proof. reflexivity. Qed.

Lemma callFor_not_logic (file : JsValue) : classifiedLogic file = false -> callFor file = None.
Proof.
  intros H. unfold callFor. rewrite H.
  destruct (get "path" file); try reflexivity. now destruct (get "content" file).
Qed.

Lemma callsFor_logic (files : list JsValue) :
  callsFor (filter classifiedLogic files) = callsFor files.
Proof.
  induction files as [|file files IH]; [reflexivity|].
  cbn [filter]. destruct (classifiedLogic file) eqn:L.
  - now rewrite !callsFor_cons, IH.
  - rewrite callsFor_cons, (callFor_not_logic file L). exact IH.
Qed.

Lemma analyzeAll_trace (files : list JsValue) :
  forallb classifiedLogic files = true ->
  forall trace,
    snd (analyzeAll create JSON_parse files trace) = (trace ++ callsFor files)%list.
Proof.
  unfold analyzeAll.
  induction files as [|file files IH]; intros H trace.
  - cbn. now rewrite app_nil_r.
  - cbn [forallb] in H. apply andb_prop in H as [L Hr].
    rewrite mapAll_cons. cbn [snd]. rewrite (IH Hr), (analyzeFile_trace file trace L).
    now rewrite <- app_assoc, callsFor_cons.
Qed.

Lemma forallb_filter {A : Type} (p : A -> bool) (l : list A) : forallb p (filter p l) = true.
Proof.
  induction l as [|x l IH]; [reflexivity|].
  cbn [filter]. destruct (p x) eqn:E; [cbn [forallb]; now rewrite E | exact IH].
Qed.

(** The result of an analysis that returns belongs to its file. *)
Lemma analyzeFile_result (file : JsValue) (trace : list ChatRequest) (r : FileAnalysis) :
  fst (analyzeLogicFile create JSON_parse (get "content" file) (get "path" file) trace)
  = Returns r ->
  ResultFor file r /\ skipped r = excludedFile file || answeredSkipped r.
Proof.
  unfold ResultFor, excludedFile.
  destruct (get "path" file) as [| |b|x|name|items|fields] eqn:P;
    try (destruct (analyzeLogicFile_unreadable create JSON_parse (get "content" file)
                     (get "path" file) trace) as [message E];
         [now rewrite P | rewrite P in E; rewrite E; discriminate]).
  destruct (nameExcluded name) eqn:Hn.
  - rewrite (analyzeLogicFile_excluded_name create JSON_parse _ name trace Hn). cbn [fst orb].
    intros H. injection H as <-. split; [|reflexivity]. exists name. now split.
  - destruct (get "content" file) as [| |b|x|content|items|fields] eqn:C;
      try (destruct (analyzeLogicFile_unreadable create JSON_parse (get "content" file)
                       (Str name) trace) as [message E];
           [rewrite C; now split | rewrite C in E; rewrite E; discriminate]).
    cbn [orb]. destruct (contentExcluded content) eqn:Hc.
    + rewrite (analyzeLogicFile_excluded_content create JSON_parse content name trace Hc).
      cbn [fst]. intros H. injection H as <-. split; [|reflexivity]. exists name. now split.
    + rewrite (analyzeLogicFile_called create JSON_parse content name trace Hn Hc).
      cbn [fst]. intros H. injection H as <-. unfold resultFrom.
      destruct (create trace _) as [text|message]; [destruct (JSON_parse text) as [a|message]|].
      * split; [|reflexivity]. exists name. split; [reflexivity|]. right. now exists a.
      * split; [|reflexivity]. exists name. split; [reflexivity|]. left.
        eexists. split; [|reflexivity]. rewrite <- orElse_eq. now apply orElse_filled.
      * split; [|reflexivity]. exists name. split; [reflexivity|]. left.
        eexists. split; [|reflexivity]. rewrite <- orElse_eq. now apply orElse_filled.
Qed.

Lemma analyzeAll_results (files : list JsValue) :
  forall trace results,
    settle (fst (analyzeAll create JSON_parse files trace)) = Returns results ->
    Forall2 ResultFor files results
    /\ map skipped results
       = map (fun pair => excludedFile (fst pair) || answeredSkipped (snd pair))
             (combine files results).
Proof.
  unfold analyzeAll.
  induction files as [|file files IH]; intros trace results H.
  - cbn in H. injection H as <-. split; [constructor | reflexivity].
  - rewrite mapAll_cons in H. cbn [fst settle] in H.
    destruct (fst (analyzeLogicFile create JSON_parse (get "content" file)
                     (get "path" file) trace)) as [r|message] eqn:E; [|discriminate].
    destruct (settle _) as [rest|message] eqn:S in H; [|discriminate].
    injection H as <-.
    destruct (IH _ _ S) as [F M].
    destruct (analyzeFile_result file trace r E) as [R K].
    split; [now constructor|]. cbn [map combine fst snd]. now rewrite K, M.
Qed.

Lemma analyzeAll_all_excluded (files : list JsValue) :
  forallb excludedFile files = true ->
  forall trace,
    exists results,
      analyzeAll create JSON_parse files trace
      = (map Returns results, trace)
      /\ forallb skipped results = true.
Proof.
  unfold analyzeAll.
  induction files as [|file files IH]; intros H trace.
  - exists []. now split.
  - cbn [forallb] in H. apply andb_prop in H as [X Hr].
    assert (exists name,
               analyzeLogicFile create JSON_parse (get "content" file) (get "path" file) trace
               = (Returns (Skipped name skipReason), trace)) as [name E].
    { unfold excludedFile in X.
      destruct (get "path" file) as [| |b|x|name|items|fields]; try discriminate.
      exists name. destruct (nameExcluded name) eqn:Hn.
      - now apply analyzeLogicFile_excluded_name.
      - cbn [orb] in X. destruct (get "content" file); try discriminate.
        now apply analyzeLogicFile_excluded_content. }
    destruct (IH Hr trace) as (results & Er & Hs).
    exists (Skipped name skipReason :: results).
    rewrite mapAll_cons, E. cbn [fst snd]. rewrite Er. now split.
Qed.

Lemma settle_returns {A : Type} (results : list A) : settle (map Returns results) = Returns results.
Proof. induction results as [|r results IH]; cbn; [reflexivity | now rewrite IH]. Qed.

Lemma count_all_skipped (results : list FileAnalysis) :
  forallb skipped results = true ->
  List.length (filter (fun result => negb (skipped result)) results) = 0.
Proof.
  induction results as [|r results IH]; [reflexivity|].
  cbn [forallb filter]. intros H. apply andb_prop in H as [Hs Hr].
  rewrite Hs. cbn [negb]. now apply IH.
Qed.

Lemma analyzeLogicFiles_no_logic (files : list JsValue) (trace : list ChatRequest) :
  existsb isNullish files = false -> filter classifiedLogic files = [] ->
  analyzeLogicFiles create JSON_parse files trace
  = (AggregateFailed "No logic files found for analysis", trace).
Proof.
  intros N H. unfold analyzeLogicFiles. now rewrite (logicFilesOf_returns files N), H.
Qed.

Lemma analyzeLogicFiles_all_excluded (files : list JsValue) (trace : list ChatRequest) :
  existsb isNullish files = false ->
  filter classifiedLogic files <> [] ->
  forallb excludedFile (filter classifiedLogic files) = true ->
  analyzeLogicFiles create JSON_parse files trace
  = (AggregateFailed "All logic files were excluded as error handling files", trace).
Proof.
  intros N Hne Hall. unfold analyzeLogicFiles. rewrite (logicFilesOf_returns files N).
  fold (analyzeAll create JSON_parse).
  destruct (filter classifiedLogic files) as [|f fs] eqn:E; [contradiction|].
  cbn [List.length Nat.eqb]. unfold bind.
  destruct (analyzeAll_all_excluded (f :: fs) Hall trace) as (results & -> & Hs).
  rewrite settle_returns, (count_all_skipped results Hs). reflexivity.
Qed.

(** What an aggregate was built from. *)
Lemma aggregated_inversion (files : list JsValue) (trace : list ChatRequest)
      (a : AggregatedAnalysis) :
  fst (analyzeLogicFiles create JSON_parse files trace) = Aggregated a ->
  existsb isNullish files = false
  /\ exists results critical,
       settle (fst (analyzeAll create JSON_parse (filter classifiedLogic files) trace))
       = Returns results
       /\ extractCriticalTestCases results = Returns critical
       /\ List.length (filter (fun result => negb (skipped result)) results) <> 0
       /\ a = aggregateOf (filter classifiedLogic files) results critical.
Proof.
  unfold analyzeLogicFiles. fold (analyzeAll create JSON_parse).
  destruct (existsb isNullish files) eqn:N.
  - destruct (logicFilesOf_throws files N) as (message & _ & ->). discriminate.
  - rewrite (logicFilesOf_returns files N).
    destruct (List.length (filter classifiedLogic files) =? 0); [discriminate|].
    unfold bind.
    destruct (analyzeAll create JSON_parse (filter classifiedLogic files) trace)
      as [promises trace'].
    cbn [fst]. destruct (settle promises) as [results|message]; [|discriminate].
    destruct (List.length (filter (fun result => negb (skipped result)) results) =? 0) eqn:Z;
      [discriminate|].
    destruct (extractCriticalTestCases results) as [critical|message] eqn:X; [|discriminate].
    cbn [ret fst]. intros H. injection H as <-.
    split; [reflexivity|]. exists results, critical.
    split; [reflexivity|]. split; [exact X|]. split; [now apply Nat.eqb_neq | reflexivity].
Qed.


Lemma analyzeLogicFiles_trace (files : list JsValue) (trace : list ChatRequest) :
  snd (analyzeLogicFiles create JSON_parse files trace)
  = (trace ++ if existsb isNullish files then [] else callsFor files)%list.
Proof.
  unfold analyzeLogicFiles. fold (analyzeAll create JSON_parse).
  destruct (existsb isNullish files) eqn:N.
  - destruct (logicFilesOf_throws files N) as (message & _ & ->). cbn. now rewrite app_nil_r.
  - rewrite (logicFilesOf_returns files N).
    pose proof (analyzeAll_trace (filter classifiedLogic files) (forallb_filter _ files) trace)
      as T.
    rewrite callsFor_logic in T.
    destruct (filter classifiedLogic files) as [|f fs] eqn:E.
    + cbn in T. cbn [List.length Nat.eqb ret snd]. exact T.
    + cbn [List.length Nat.eqb]. unfold bind.
      destruct (analyzeAll create JSON_parse (f :: fs) trace) as [promises trace'].
      cbn [snd] in T. subst trace'.
      destruct (settle promises) as [results|message]; [|reflexivity].
      destruct (List.length (filter (fun result => negb (skipped result)) results) =? 0);
        [reflexivity|].
      now destruct (extractCriticalTestCases results).
Qed.


(** X3: analyzeLogicFiles calls the model exactly once for every file
    that is classified logic, has a string as path and as content and
    is not excluded, in the order of the input, with that path and
    content, and for no other file; this holds whatever the model
    answers, also when an earlier call failed and when the aggregate
    fails.  When an entry of the list is null, no call is issued. *)
Theorem model_is_called_once_per_analyzable_file
        (files : list JsValue) (trace : list ChatRequest) :
  snd (analyzeLogicFiles create JSON_parse files trace)
  = (trace ++ if existsb isNullish files then [] else callsFor files)%list.
Proof. exact (analyzeLogicFiles_trace files trace). Qed.

End BatchFacts.

Example calls_for_mixed_files :
  snd (analyzeLogicFiles Examples.flakyModel Examples.parseAnswer MoreExamples.mixedFiles [])
  = [ {| chat_fileName := "src/Cart.cs"; chat_fileContent := "public class Service { }" |};
      {| chat_fileName := "src/Payment.cs"; chat_fileContent := "public class Service { }" |};
      {| chat_fileName := "src/Order.cs"; chat_fileContent := "public class Service { }" |} ].
Proof. vm_compute. reflexivity. Qed.

(** A null entry makes the filter throw; the error is caught. *)
Example null_entry_fails_the_aggregate :
  analyzeLogicFiles Examples.flakyModel Examples.parseAnswer [Examples.cartFile; Null] []
  = (AggregateFailed "Cannot read properties of null (reading 'classification')", []).
Proof. reflexivity. Qed.

(** A logic file without content makes its analysis throw outside the
    [try] block; the calls for the other files are issued all the same. *)
Example unreadable_file_fails_the_aggregate :
  analyzeLogicFiles Examples.flakyModel Examples.parseAnswer
    [ Examples.fileRecord (Str "src/Cart.cs") Undefined (Str "logic"); Examples.orderFile ] []
  = (AggregateFailed "Cannot read properties of undefined (reading 'toLowerCase')",
     [ {| chat_fileName := "src/Order.cs"; chat_fileContent := "public class Service { }" |} ]).
Proof. reflexivity. Qed.

(** *** The functionality comparison *)

Section CollectFacts.

Lemma includesString_spec (l : list string) (x : string) :
  includesString l x = true <-> In x l.
Proof.
  unfold includesString. rewrite existsb_exists. split.
  - intros (y & Hy & E). apply String.eqb_eq in E. now subst.
  - intros H. exists x. split; [exact H | apply String.eqb_refl].
Qed.


Lemma addOnce_NoDup (seen : list string) (x : string) :
  NoDup seen -> NoDup (addOnce seen x).
Proof.
  intros H. unfold addOnce. destruct (includesString seen x) eqn:E; [exact H|].
  apply (Permutation_NoDup (Permutation_cons_append seen x)).
  constructor; [|exact H].
  intros Hin. apply includesString_spec in Hin. congruence.
Qed.


Lemma addAll_NoDup (funcs : list string) :
  forall seen, NoDup seen -> NoDup (fold_left addOnce funcs seen).
Proof.
  induction funcs as [|x funcs IH]; intros seen H; cbn [fold_left]; [exact H|].
  apply IH. now apply addOnce_NoDup.
Qed.

Variable get : Analysis -> option (list string).


Lemma collectFrom_NoDup (results : list FileAnalysis) :
  forall acc, NoDup acc -> NoDup (fold_left (collectStep get) results acc).
Proof.
  induction results as [|r results IH]; intros acc H; cbn [fold_left]; [exact H|].
  apply IH. unfold collectStep. destruct (field get r); [now apply addAll_NoDup | exact H].
Qed.


Lemma collect_NoDup (results : list FileAnalysis) : NoDup (collect get results).
Proof. unfold collect. fold (collectStep get). apply collectFrom_NoDup. constructor. Qed.

End CollectFacts.

Section TableFacts.

Variable analyses : list FileAnalysis.


Lemma comparisonTable_eq :
  comparisonTable (generateFunctionalityComparison analyses)
  = map (comparisonRow (filter success analyses))
        (collect expectedFunctionalities (filter success analyses)).
Proof.
  unfold generateFunctionalityComparison.
  destruct (filter success analyses) as [|r rs]; reflexivity.
Qed.

Lemma comparisonTable_keys :
  map functionality (comparisonTable (generateFunctionalityComparison analyses))
  = collect expectedFunctionalities (filter success analyses).
Proof.
  rewrite comparisonTable_eq, map_map. cbn [comparisonRow functionality]. apply map_id.
Qed.




Lemma filter_twice {A : Type} (p q : A -> bool) (l : list A) :
  filter q (filter p l) = filter (fun x => p x && q x) l.
Proof.
  induction l as [|x l IH]; [reflexivity|]. cbn [filter].
  destruct (p x); cbn [filter andb]; [destruct (q x)|]; now rewrite ?IH.
Qed.


End TableFacts.

(** Two files expect "Add item": the table has it once; names that
    differ in letter case only are different keys. *)
Example comparison_of_cart_and_order :
  comparisonTable
    (generateFunctionalityComparison
       [ Analyzed "src/Cart.cs" Examples.cartAnalysis;
         Skipped "src/ErrorPage.cs" skipReason;
         Analyzed "src/Order.cs" Examples.orderAnalysis ])
  = [ {| functionality := "Add item"; implemented := true;
         implementationStatus := "Complete"; implementedIn := [Str "src/Cart.cs"] |};
      {| functionality := "Remove item"; implemented := false;
         implementationStatus := "Missing"; implementedIn := [] |};
      {| functionality := "Checkout"; implemented := true;
         implementationStatus := "Complete"; implementedIn := [Str "src/Order.cs"] |} ].
Proof. reflexivity. Qed.

Example comparison_is_case_sensitive :
  addOnce ["Add item"] "add item" = ["Add item"; "add item"].
Proof. reflexivity. Qed.

(** *** Sorting by criticality *)


Section OrderFacts.

Lemma includesString_app (a b : list string) (y : string) :
  includesString (a ++ b) y = includesString a y || includesString b y.
Proof. unfold includesString. apply existsb_app. Qed.

(** Adding a list to the values seen so far appends its first
    occurrences, less the values already seen. *)
Lemma addAll_firstSeen (l : list string) :
  forall seen,
    fold_left addOnce l seen
    = (seen ++ filter (fun y => negb (includesString seen y)) (firstSeen l))%list.
Proof.
  induction l as [|x l IH]; intros seen; cbn [fold_left firstSeen filter].
  - now rewrite app_nil_r.
  - rewrite IH. unfold addOnce. destruct (includesString seen x) eqn:E; cbn [negb].
    + f_equal. rewrite filter_twice. apply filter_ext. intros y.
      destruct (String.eqb y x) eqn:Ey; [|reflexivity].
      apply String.eqb_eq in Ey. subst. now rewrite E.
    + rewrite <- app_assoc. cbn [app]. do 2 f_equal.
      rewrite filter_twice. apply filter_ext. intros y.
      rewrite includesString_app. unfold includesString at 2. cbn [existsb].
      rewrite orb_false_r, negb_orb. apply andb_comm.
Qed.

Variable get : Analysis -> option (list string).

Lemma collectFrom_flat (results : list FileAnalysis) :
  forall acc,
    fold_left (collectStep get) results acc
    = fold_left addOnce (flat_map (listed get) results) acc.
Proof.
  induction results as [|r results IH]; intros acc; [reflexivity|].
  cbn [fold_left flat_map]. rewrite fold_left_app, IH. f_equal.
  unfold collectStep, listed. now destruct (field get r).
Qed.

Lemma collect_firstSeen (results : list FileAnalysis) :
  collect get results = firstSeen (flat_map (listed get) results).
Proof.
  unfold collect. fold (collectStep get).
  rewrite collectFrom_flat, addAll_firstSeen. cbn [app].
  rewrite <- (filter_ext (fun _ => true)); [|reflexivity].
  induction (firstSeen _) as [|y l IH]; [reflexivity|]. cbn [filter]. now rewrite IH.
Qed.

End OrderFacts.

Lemma missingCore_eq (analyses : list FileAnalysis) :
  fd_missingCoreFunctionalities (generateFunctionalityComparison analyses)
  = collect missingCoreFunctionalities (filter success analyses).
Proof.
  unfold generateFunctionalityComparison.
  destruct (filter success analyses); reflexivity.
Qed.

(** X5: missingCoreFunctionalities lists what the successful analyses
    report as missing, each name once, in the order in which the names
    are first seen when the analyses are read in order; the rows of
    the comparison table follow the expected functionalities in the
    same way. *)
Theorem functionalities_are_listed_in_first_seen_order (analyses : list FileAnalysis) :
  let data := generateFunctionalityComparison analyses in
  let successful := filter success analyses in
  fd_missingCoreFunctionalities data
  = firstSeen (flat_map (listed missingCoreFunctionalities) successful)
  /\ map functionality (comparisonTable data)
     = firstSeen (flat_map (listed expectedFunctionalities) successful)
  /\ NoDup (fd_missingCoreFunctionalities data).
Proof.
  cbv zeta. rewrite missingCore_eq, comparisonTable_keys, !collect_firstSeen.
  repeat split. rewrite <- collect_firstSeen. apply collect_NoDup.
Qed.

Example missing_core_of_three_files :
  fd_missingCoreFunctionalities
    (generateFunctionalityComparison
       [ Analyzed "src/A.cs" (MoreExamples.missingAnalysis ["Refund"; "Export"; "Refund"]);
         Errored "src/B.cs" "Request timed out";
         Analyzed "src/C.cs" (MoreExamples.missingAnalysis ["Audit"; "Export"]) ])
  = ["Refund"; "Export"; "Audit"].
Proof. reflexivity. Qed.

(** *** Sorting by criticality *)

Section SortFacts.

Context {A : Type}.
Variable rank : A -> Z.

Lemma negative_byRank (a b : A) : negative (byRank rank a b) = (rank a <? rank b)%Z.
Proof.
  unfold byRank, negative.
  destruct (Z.ltb_spec (rank a - rank b) 0), (Z.ltb_spec (rank a) (rank b)); try reflexivity; lia.
Qed.

Lemma inOrder_transitive : Relations_1.Transitive (inOrder rank).
Proof. intros a b c. unfold inOrder. lia. Qed.

Lemma descending_transitive : Relations_1.Transitive (descending rank).
Proof. intros a b c. unfold descending. lia. Qed.

Lemma sorted_nth (l : list A) :
  StronglySorted (inOrder rank) l ->
  forall i j a b, i <= j -> nth_error l i = Some a -> nth_error l j = Some b ->
                  (rank a <= rank b)%Z.
Proof.
  induction 1 as [|x l Hs IH Hx]; intros i j a b Hij Ha Hb.
  - now destruct i.
  - destruct i as [|i], j as [|j]; cbn [nth_error] in *.
    + injection Ha as <-. injection Hb as <-. lia.
    + injection Ha as <-. apply nth_error_In in Hb.
      rewrite Forall_forall in Hx. exact (Hx b Hb).
    + lia.
    + apply (IH i j); [lia | assumption | assumption].
Qed.

(** The binary search finds the place behind the elements that do not
    rank above the pivot. *)
Lemma place_spec (pivot : A) (sorted : list A) :
  StronglySorted (inOrder rank) sorted ->
  forall fuel left right,
    left <= right -> right <= List.length sorted -> right - left < fuel ->
    (forall i y, i < left -> nth_error sorted i = Some y -> (rank y <= rank pivot)%Z) ->
    (forall i y, right <= i -> nth_error sorted i = Some y -> (rank pivot < rank y)%Z) ->
    let p := place (byRank rank) fuel pivot sorted left right in
    (forall i y, i < p -> nth_error sorted i = Some y -> (rank y <= rank pivot)%Z)
    /\ (forall i y, p <= i -> nth_error sorted i = Some y -> (rank pivot < rank y)%Z).
Proof.
  intros Hs. induction fuel as [|fuel IH]; intros left right Hlr Hr Hf Hleft Hright; [lia|].
  cbn [place]. destruct (left <? right) eqn:E.
  - apply Nat.ltb_lt in E.
    assert (left <= left + (right - left) / 2 < right) as Hmid.
    { pose proof (Nat.div_lt (right - left) 2). pose proof (Nat.Div0.div_le_upper_bound).
      assert ((right - left) / 2 < right - left) by (apply Nat.div_lt; lia). lia. }
    destruct (nth_error sorted (left + (right - left) / 2)) as [y|] eqn:N.
    + rewrite negative_byRank. destruct (Z.ltb_spec (rank pivot) (rank y)) as [L|L].
      * apply IH; try lia; [exact Hleft|].
        intros i z Hi Hz.
        pose proof (sorted_nth sorted Hs _ i y z Hi N Hz). lia.
      * apply IH; try lia; [|exact Hright].
        intros i z Hi Hz.
        assert (i <= left + (right - left) / 2) as Hi' by lia.
        pose proof (sorted_nth sorted Hs i _ z y Hi' Hz N). lia.
    + apply nth_error_None in N. lia.
  - apply Nat.ltb_ge in E. assert (left = right) as -> by lia. now split.
Qed.

Lemma StronglySorted_insert (R : A -> A -> Prop) (x : A) (a b : list A) :
  StronglySorted R (a ++ b) ->
  Forall (fun y => R y x) a -> Forall (R x) b ->
  StronglySorted R (a ++ x :: b).
Proof.
  induction a as [|y a IH]; cbn [app]; intros Hs Ha Hb.
  - now constructor.
  - inversion Hs as [|? ? Hs' Hy]; subst. inversion Ha as [|? ? Hyx Ha']; subst.
    constructor; [now apply IH|].
    apply Forall_app in Hy as [Hy1 Hy2].
    apply Forall_app. split; [exact Hy1 | now constructor].
Qed.

Lemma filter_none (p : A -> bool) (l : list A) :
  Forall (fun y => p y = false) l -> filter p l = [].
Proof.
  induction 1 as [|y l Hy Hl IH]; [reflexivity|]. cbn [filter]. now rewrite Hy.
Qed.

(** A binary insertion keeps the list sorted and puts the pivot
    behind the elements of its rank. *)
Lemma binaryInsert_spec (sorted : list A) (pivot : A) :
  StronglySorted (inOrder rank) sorted ->
  let inserted := binaryInsert (byRank rank) sorted pivot in
  Permutation inserted (sorted ++ [pivot])
  /\ StronglySorted (inOrder rank) inserted
  /\ forall k, filter (ranksAs rank k) inserted = filter (ranksAs rank k) (sorted ++ [pivot]).
Proof.
  intros Hs. cbv zeta. unfold binaryInsert.
  set (p := place (byRank rank) (S (List.length sorted)) pivot sorted 0 (List.length sorted)).
  destruct (place_spec pivot sorted Hs (S (List.length sorted)) 0 (List.length sorted))
    as [Hbefore Hafter]; try lia.
  { intros i y Hi Hy. assert (nth_error sorted i = None) as N by (apply nth_error_None; lia).
    congruence. }
  fold p in Hbefore, Hafter.
  assert (Forall (fun y => inOrder rank y pivot) (firstn p sorted)) as Fa.
  { apply Forall_forall. intros y Hy. apply In_nth_error in Hy as [i Hi].
    rewrite nth_error_firstn in Hi. destruct (i <? p) eqn:E; [|discriminate].
    apply Nat.ltb_lt in E. exact (Hbefore i y E Hi). }
  assert (Forall (fun y => (rank pivot < rank y)%Z) (skipn p sorted)) as Fb.
  { apply Forall_forall. intros y Hy. apply In_nth_error in Hy as [i Hi].
    rewrite nth_error_skipn in Hi. apply (Hafter (p + i)); [lia | exact Hi]. }
  split; [|split].
  - transitivity (pivot :: sorted); [|apply Permutation_cons_append].
    pose proof (Permutation_middle (firstn p sorted) (skipn p sorted) pivot) as M.
    rewrite firstn_skipn in M. symmetry. exact M.
  - apply StronglySorted_insert; [now rewrite firstn_skipn | exact Fa|].
    eapply Forall_impl; [|exact Fb]. intros y Hy. unfold inOrder. cbn beta in Hy. lia.
  - intros k.
    pose proof (f_equal (filter (ranksAs rank k)) (firstn_skipn p sorted)) as E.
    rewrite filter_app in E. rewrite !filter_app, <- E. cbn [filter].
    rewrite <- app_assoc. f_equal. clear E.
    change (ranksAs rank k pivot) with (rank pivot =? k)%Z.
    destruct (rank pivot =? k)%Z eqn:E.
    + apply Z.eqb_eq in E.
      rewrite (filter_none (ranksAs rank k) (skipn p sorted)); [reflexivity|].
      eapply Forall_impl; [|exact Fb]. intros y Hy. cbn beta in Hy.
      unfold ranksAs. apply Z.eqb_neq. lia.
    + now rewrite app_nil_r.
Qed.

Lemma fold_binaryInsert (rest : list A) :
  forall init,
    StronglySorted (inOrder rank) init ->
    let sorted := fold_left (binaryInsert (byRank rank)) rest init in
    Permutation sorted (init ++ rest)
    /\ StronglySorted (inOrder rank) sorted
    /\ forall k, filter (ranksAs rank k) sorted = filter (ranksAs rank k) (init ++ rest).
Proof.
  induction rest as [|x rest IH]; intros init Hs; cbv zeta; cbn [fold_left].
  - rewrite app_nil_r. now repeat split.
  - destruct (binaryInsert_spec init x Hs) as (P & S & F).
    destruct (IH _ S) as (P' & S' & F'). cbv zeta in P', S', F'.
    split; [|split].
    + rewrite P', P, <- app_assoc. reflexivity.
    + exact S'.
    + intros k. rewrite F', filter_app, F.
      change (x :: rest) with ([x] ++ rest)%list. now rewrite !filter_app, app_assoc.
Qed.

(** The run that starts the array. *)
Lemma continued_run (previous : A) (rest : list A) :
  Sorted (inOrder rank) (previous :: firstn (continued (byRank rank) false previous rest) rest).
Proof.
  revert previous. induction rest as [|current rest IH]; intros previous; cbn [continued].
  - repeat constructor.
  - rewrite negative_byRank.
    destruct (Z.ltb_spec (rank current) (rank previous)) as [L|L]; cbn [Bool.eqb firstn].
    + repeat constructor.
    + constructor; [apply IH|]. constructor. exact L.
Qed.

Lemma continued_descent (previous : A) (rest : list A) :
  Sorted (descending rank)
         (previous :: firstn (continued (byRank rank) true previous rest) rest).
Proof.
  revert previous. induction rest as [|current rest IH]; intros previous; cbn [continued].
  - repeat constructor.
  - rewrite negative_byRank.
    destruct (Z.ltb_spec (rank current) (rank previous)) as [L|L]; cbn [Bool.eqb firstn].
    + constructor; [apply IH|]. constructor. exact L.
    + repeat constructor.
Qed.

(** Reversing a strictly descending run sorts it, and moves no
    element past one of its rank. *)
Lemma rev_descent (l : list A) :
  StronglySorted (descending rank) l ->
  StronglySorted (inOrder rank) (rev l)
  /\ forall k, filter (ranksAs rank k) (rev l) = filter (ranksAs rank k) l.
Proof.
  induction 1 as [|x l Hs IH Hx]; [split; [constructor | reflexivity]|].
  destruct IH as [S F]. cbn [rev]. split.
  - apply StronglySorted_insert; [rewrite app_nil_r; exact S| |constructor].
    apply Forall_rev. eapply Forall_impl; [|exact Hx].
    intros y Hy. unfold inOrder, descending in *. lia.
  - intros k. rewrite filter_app, F. cbn [filter].
    change (ranksAs rank k x) with (rank x =? k)%Z.
    destruct (rank x =? k)%Z eqn:E; [|now rewrite app_nil_r].
    apply Z.eqb_eq in E. rewrite (filter_none (ranksAs rank k) l); [reflexivity|].
    eapply Forall_impl; [|exact Hx]. intros y Hy. unfold descending in Hy.
    unfold ranksAs. apply Z.eqb_neq. lia.
Qed.

(** On a comparator by rank, the sort is a stable sort. *)
Lemma Array_sort_byRank (l : list A) :
  let sorted := Array_sort (byRank rank) l in
  Permutation sorted l
  /\ StronglySorted (inOrder rank) sorted
  /\ forall k, filter (ranksAs rank k) sorted = filter (ranksAs rank k) l.
Proof.
  cbv zeta. destruct l as [|first [|second rest]].
  - repeat split; constructor.
  - repeat split; repeat constructor.
  - unfold Array_sort. cbv zeta.
    set (down := negative (byRank rank second first)).
    set (n := continued (byRank rank) down second rest).
    change (firstn (2 + n) (first :: second :: rest))
      with (first :: second :: firstn n rest).
    change (skipn (2 + n) (first :: second :: rest)) with (skipn n rest).
    assert (let init := if down then rev (first :: second :: firstn n rest)
                        else first :: second :: firstn n rest in
            Permutation init (first :: second :: firstn n rest)
            /\ StronglySorted (inOrder rank) init
            /\ forall k, filter (ranksAs rank k) init
                         = filter (ranksAs rank k) (first :: second :: firstn n rest))
      as (P & S & F).
    { cbv zeta. subst n. destruct down eqn:D.
      - assert (StronglySorted (descending rank)
                  (first :: second
                     :: firstn (continued (byRank rank) true second rest) rest)) as Hd.
        { apply Sorted_StronglySorted; [apply descending_transitive|].
          constructor; [apply continued_descent|]. constructor.
          unfold down in D. rewrite negative_byRank in D. apply Z.ltb_lt in D. exact D. }
        destruct (rev_descent _ Hd) as [S F].
        split; [symmetry; apply Permutation_rev|]. now split.
      - split; [reflexivity|]. split; [|reflexivity].
        apply Sorted_StronglySorted; [apply inOrder_transitive|].
        constructor; [apply continued_run|]. constructor.
        unfold down in D. rewrite negative_byRank in D. apply Z.ltb_ge in D. exact D. }
    destruct (fold_binaryInsert (skipn n rest) _ S) as (P' & S' & F'). cbv zeta in P', S', F'.
    assert ((first :: second :: firstn n rest) ++ skipn n rest = first :: second :: rest)%list
      as Whole by (cbn [app]; now rewrite firstn_skipn).
    split; [|split].
    + rewrite P', P, Whole. reflexivity.
    + exact S'.
    + intros k. rewrite F', filter_app, F, <- filter_app, Whole. reflexivity.
Qed.

End SortFacts.

Lemma In_firstn {A : Type} (n : nat) (l : list A) (x : A) : In x (firstn n l) -> In x l.
Proof. intros H. rewrite <- (firstn_skipn n l). apply in_or_app. now left. Qed.

Lemma In_skipn {A : Type} (n : nat) (l : list A) (x : A) : In x (skipn n l) -> In x l.
Proof. intros H. rewrite <- (firstn_skipn n l). apply in_or_app. now right. Qed.

Section SortExtensionality.

Context {A : Type}.
Variables compare compare' : A -> A -> option Z.
Variable l : list A.
Hypothesis agree :
  forall a b, In a l -> In b l -> negative (compare a b) = negative (compare' a b).

Lemma continued_ext (down : bool) (rest : list A) :
  forall previous, In previous l -> incl rest l ->
                   continued compare down previous rest = continued compare' down previous rest.
Proof.
  induction rest as [|current rest IH]; intros previous Hp Hr; [reflexivity|].
  cbn [continued]. rewrite (agree current previous (Hr current (in_eq _ _)) Hp).
  destruct (Bool.eqb _ down); [|reflexivity].
  f_equal. apply IH; [apply Hr, in_eq|]. intros x Hx. apply Hr. now right.
Qed.

Lemma place_ext (pivot : A) (sorted : list A) :
  In pivot l -> incl sorted l ->
  forall fuel left right,
    place compare fuel pivot sorted left right = place compare' fuel pivot sorted left right.
Proof.
  intros Hp Hs. induction fuel as [|fuel IH]; intros left right; [reflexivity|].
  cbn [place]. destruct (left <? right); [|reflexivity].
  destruct (nth_error sorted (left + (right - left) / 2)) as [y|] eqn:N; [|reflexivity].
  rewrite (agree pivot y Hp (Hs y (nth_error_In _ _ N))).
  destruct (negative (compare' pivot y)); apply IH.
Qed.

Lemma binaryInsert_ext (sorted : list A) (pivot : A) :
  In pivot l -> incl sorted l ->
  binaryInsert compare sorted pivot = binaryInsert compare' sorted pivot
  /\ incl (binaryInsert compare' sorted pivot) l.
Proof.
  intros Hp Hs. unfold binaryInsert. rewrite (place_ext pivot sorted Hp Hs).
  split; [reflexivity|].
  intros x Hx. apply in_app_or in Hx as [Hx | [<- | Hx]].
  - apply Hs. eapply In_firstn; eauto.
  - exact Hp.
  - apply Hs. eapply In_skipn; eauto.
Qed.

Lemma fold_binaryInsert_ext (rest : list A) :
  forall init, incl init l -> incl rest l ->
               fold_left (binaryInsert compare) rest init
               = fold_left (binaryInsert compare') rest init.
Proof.
  induction rest as [|x rest IH]; intros init Hi Hr; [reflexivity|].
  cbn [fold_left].
  destruct (binaryInsert_ext init x (Hr x (in_eq _ _)) Hi) as [-> Hincl].
  apply IH; [exact Hincl|]. intros y Hy. apply Hr. now right.
Qed.

End SortExtensionality.

(** Two comparators that agree on the sign for the elements of an
    array sort it alike. *)
Lemma Array_sort_ext {A : Type} (compare compare' : A -> A -> option Z) (l : list A) :
  (forall a b, In a l -> In b l -> negative (compare a b) = negative (compare' a b)) ->
  Array_sort compare l = Array_sort compare' l.
Proof.
  intros H. destruct l as [|first [|second rest]]; try reflexivity.
  unfold Array_sort. cbv zeta.
  assert (In first (first :: second :: rest)) as Hf by now left.
  assert (In second (first :: second :: rest)) as Hs by (right; now left).
  assert (incl rest (first :: second :: rest)) as Hr by (intros x Hx; now do 2 right).
  rewrite (H second first Hs Hf).
  rewrite (continued_ext compare compare' _ H _ rest second Hs Hr).
  set (n := 2 + continued compare' (negative (compare' second first)) second rest).
  assert (incl (firstn n (first :: second :: rest)) (first :: second :: rest)) as Hn
      by (intros x Hx; eapply In_firstn; eauto).
  apply (fold_binaryInsert_ext compare compare' _ H).
  - destruct (negative (compare' second first)); [|exact Hn].
    intros x Hx. apply Hn. now apply in_rev.
  - intros x Hx. eapply In_skipn; eauto.
Qed.

Lemma flattened_eq (analyses : list FileAnalysis) :
  flat_map taggedTestCases (filter success analyses) = flattened analyses.
Proof.
  induction analyses as [|r analyses IH]; [reflexivity|].
  cbn [filter flattened flat_map]. fold (flattened analyses).
  destruct (success r) eqn:S.
  - cbn [flat_map]. rewrite IH. f_equal.
    destruct r as [name reason|name error|name answer]; try discriminate.
    unfold taggedTestCases, testCasesField, casesOf, tag.
    destruct (missingNegativeTestCases answer), (missingTestCases answer); reflexivity.
  - rewrite IH. destruct r; reflexivity.
Qed.

Lemma ranked_orderOf (t : TaggedTestCase) : ranked t -> orderOf t = Some (rankOf t).
Proof.
  unfold ranked, orderOf, rankOf, rankOfCriticality, criticalityOrder.
  destruct (criticality (testCase t)) as [| |b|x|s|items|fields]; try congruence.
  cbn [toStr]. intros H.
  destruct (String.eqb s "High"); [reflexivity|].
  destruct (String.eqb s "Medium"); [reflexivity|].
  destruct (String.eqb s "Low"); [reflexivity | congruence].
Qed.

Lemma ranked_convertible (l : list TaggedTestCase) :
  Forall ranked l ->
  exists keys, settle (map (fun t => toStr (criticality (testCase t))) l) = Returns keys.
Proof.
  induction 1 as [|t l Ht Hl [keys IH]]; [now exists []|].
  cbn [map settle]. unfold ranked, rankOfCriticality in Ht.
  destruct (criticality (testCase t)) as [| |b|x|s|items|fields]; try congruence.
  cbn [toStr]. rewrite IH. eauto.
Qed.

Lemma extractCriticalTestCases_ranked (analyses : list FileAnalysis) :
  Forall ranked (flattened analyses) ->
  extractCriticalTestCases analyses
  = Returns (Array_sort (byRank rankOf) (flattened analyses)).
Proof.
  intros H. unfold extractCriticalTestCases. rewrite flattened_eq.
  assert (Array_sort byCriticality (flattened analyses)
          = Array_sort (byRank rankOf) (flattened analyses)) as E.
  { apply Array_sort_ext. intros a b Ha Hb. rewrite Forall_forall in H.
    unfold byCriticality, byRank.
    now rewrite (ranked_orderOf a (H a Ha)), (ranked_orderOf b (H b Hb)). }
  destruct (List.length (filter success analyses) =? 0) eqn:Z.
  - apply Nat.eqb_eq in Z. apply length_zero_iff_nil in Z.
    rewrite <- flattened_eq, Z. reflexivity.
  - destruct (List.length (flattened analyses) <? 2) eqn:L.
    + destruct (flattened analyses) as [|x [|y l]]; try reflexivity. discriminate.
    + destruct (ranked_convertible _ H) as [keys ->]. now rewrite E.
Qed.

(** C4 (amended): when every test case of a successful analysis has
    High, Medium or Low as its criticality, criticalTestCases is the
    flattening of the successful analyses' missingNegativeTestCases
    (of the legacy missingTestCases where the new field is absent),
    each entry tagged with the file name of its analysis, sorted by
    the rank High 0, Medium 1, Low 2; the sort is stable, so the
    entries of one criticality keep their input order.  Input
    criticalities Low, High, Medium, High come out as High, High,
    Medium, Low with the two High entries in their input order. *)
Theorem critical_test_cases_sorted_stably :
  (forall analyses,
      Forall ranked (flattened analyses) ->
      exists sorted,
        extractCriticalTestCases analyses = Returns sorted
        /\ Permutation sorted (flattened analyses)
        /\ StronglySorted (fun a b => (rankOf a <= rankOf b)%Z) sorted
        /\ forall k, filter (hasRank k) sorted = filter (hasRank k) (flattened analyses))
  /\ map (fun t => criticality (testCase t))
         (flattened [Analyzed "src/Order.cs" Examples.orderAnalysis])
     = [Str "Low"; Str "High"; Str "Medium"; Str "High"]
  /\ extractCriticalTestCases [Analyzed "src/Order.cs" Examples.orderAnalysis]
     = Returns (map (tag (Str "src/Order.cs"))
                    [ Examples.highCase1; Examples.highCase2; Examples.mediumCase;
                      Examples.lowCase ]).
Proof.
  split; [|split; reflexivity].
  intros analyses H. rewrite (extractCriticalTestCases_ranked analyses H).
  destruct (Array_sort_byRank rankOf (flattened analyses)) as (P & S & F).
  eexists. split; [reflexivity|]. split; [exact P|]. split; [exact S | exact F].
Qed.

Lemma critical_test_cases_sorted_stably_witness :
  let analyses := [ Analyzed "src/Coupon.cs" Examples.legacyAnalysis;
                    Errored "src/Payment.cs" "Request timed out";
                    Analyzed "src/Order.cs" Examples.orderAnalysis ] in
  Forall ranked (flattened analyses)
  /\ exists sorted,
      extractCriticalTestCases analyses = Returns sorted
      /\ Permutation sorted (flattened analyses)
      /\ StronglySorted (fun a b => (rankOf a <= rankOf b)%Z) sorted
      /\ forall k, filter (hasRank k) sorted = filter (hasRank k) (flattened analyses).
Proof.
  cbv zeta.
  assert (Forall ranked (flattened [ Analyzed "src/Coupon.cs" Examples.legacyAnalysis;
                                     Errored "src/Payment.cs" "Request timed out";
                                     Analyzed "src/Order.cs" Examples.orderAnalysis ])) as H
      by (repeat constructor; discriminate).
  split; [exact H|].
  exact (proj1 critical_test_cases_sorted_stably _ H).
Defined.

(** C4, as stated, fails: a criticality outside the table makes the
    comparator return NaN, which the sort reads as equal.  Of the
    criticalities Low, Critical, High nothing is moved: Low stays
    before High, in whatever place a ranking puts Critical. *)
Lemma unknown_criticality_is_not_sorted :
  let sorted := map (tag (Str "src/Stock.cs"))
                    [Examples.lowCase; Examples.criticalCase; Examples.highCase1] in
  extractCriticalTestCases [Analyzed "src/Stock.cs" Examples.stockAnalysis] = Returns sorted
  /\ map (fun t => criticality (testCase t)) sorted = [Str "Low"; Str "Critical"; Str "High"]
  /\ forall rank : TaggedTestCase -> Z,
       (rank (tag (Str "src/Stock.cs") Examples.highCase1)
        < rank (tag (Str "src/Stock.cs") Examples.lowCase))%Z ->
       ~ StronglySorted (fun a b => (rank a <= rank b)%Z) sorted.
Proof.
  cbv zeta. split; [reflexivity|]. split; [reflexivity|].
  intros rank H S. cbn [map] in S.
  inversion S as [|? ? _ F]; subst.
  inversion F as [|? ? _ F']; subst. inversion F' as [|? ? L _]; subst. lia.
Qed.

(** The legacy field is read where the new one is absent, and the
    entries of two files are merged. *)
Example critical_test_cases_of_two_formats :
  extractCriticalTestCases
    [ Analyzed "src/Coupon.cs" Examples.legacyAnalysis;
      Errored "src/Payment.cs" "Request timed out";
      Analyzed "src/Order.cs" Examples.orderAnalysis ]
  = Returns [ tag (Str "src/Coupon.cs") Examples.highCase1;
              tag (Str "src/Order.cs") Examples.highCase1;
              tag (Str "src/Order.cs") Examples.highCase2;
              tag (Str "src/Coupon.cs") Examples.mediumCase;
              tag (Str "src/Order.cs") Examples.mediumCase;
              tag (Str "src/Order.cs") Examples.lowCase ].
Proof. reflexivity. Qed.

(** A criticality that is an object with a key toString cannot be
    converted to a property key: the extraction throws, and
    analyzeLogicFiles reports the failure instead of an aggregate. *)
Example criticality_that_cannot_be_converted :
  let odd := {| description := Str "Cart is shared"; impact := Null;
                criticality := Obj [("toString", Str "High")] |} in
  let answer := Examples.answer "Cart" None None None
                                (Items [Examples.lowCase; odd]) Missing None in
  extractCriticalTestCases [Analyzed "src/Cart.cs" answer]
  = Throws "Cannot convert object to primitive value"
  /\ fst (analyzeLogicFiles (fun _ _ => Returns "") (fun _ => Returns answer)
            [Examples.cartFile] [])
     = AggregateFailed "Cannot convert object to primitive value".
Proof. cbv zeta. split; reflexivity. Qed.

(** *** The coverage percentage *)

Section CoverageFacts.

(** [Math.round] rounds to the nearest integer, a half upwards. *)
Lemma Math_round_RoundOf (x : Number.Number) : RoundOf x (Number.Math_round x).
Proof.
  unfold RoundOf, Number.value, Number.Math_round.
  destruct x as [s|s| |s m e]; try reflexivity.
  - exists 0%Z. split; [unfold Nearest; change (inject_Z 0) with 0%Q; split; lra|].
    destruct s; [right; now split | now left].
  - set (q := (if s then - Number.magnitude m e else Number.magnitude m e)%Q).
    exists (Qfloor (q + (1 # 2))). split.
    + unfold Nearest.
      pose proof (Qfloor_le (q + (1 # 2))) as L.
      pose proof (Qlt_floor (q + (1 # 2))) as U.
      rewrite inject_Z_plus in U. change (inject_Z 1) with 1%Q in U. split; lra.
    + destruct (Qfloor (q + (1 # 2))) eqn:E; [|now left|now left].
      destruct s; [right; now split | now left].
Qed.

Lemma numericCoverages_eq (analyses : list FileAnalysis) :
  numericCoverages (filter success analyses) = reported analyses.
Proof.
  induction analyses as [|r analyses IH]; [reflexivity|].
  cbn [filter reported]. destruct r as [name reason|name error|name answer];
    cbn [success reportedBy]; try exact IH.
  destruct (own_success answer) as [flag|].
  - destruct (truthy flag); [|exact IH].
    cbn [numericCoverages flat_map field]. fold (numericCoverages (filter success analyses)).
    rewrite IH. now destruct (coveragePercentage answer).
  - cbn [numericCoverages flat_map field]. fold (numericCoverages (filter success analyses)).
    rewrite IH. now destruct (coveragePercentage answer).
Qed.

Lemma implementedCount_eq (table : list ComparisonRow) :
  List.length (filter implemented table) = implementedCount table.
Proof.
  induction table as [|row table IH]; [reflexivity|].
  cbn [filter implementedCount]. destruct (implemented row); cbn [List.length]; now rewrite IH.
Qed.

Lemma existsb_implemented (table : list ComparisonRow) :
  existsb implemented table = (0 <? implementedCount table).
Proof.
  induction table as [|row table IH]; [reflexivity|].
  cbn [existsb implementedCount]. destruct (implemented row); [reflexivity | exact IH].
Qed.

(** The coverage before the two adjustments. *)
Lemma overallCoverage_eq (analyses : list FileAnalysis) :
  let table := comparisonTable (generateFunctionalityComparison analyses) in
  let computed :=
    match reported analyses, table with
    | _ :: _, _ => Number.Math_round (mean (reported analyses))
    | [], _ :: _ =>
        Number.Math_round (percentage (implementedCount table) (List.length table))
    | [], [] => Number.Int 0
    end in
  overallCoveragePercentage (generateFunctionalityComparison analyses)
  = if Number.isZero computed && existsb implemented table
    then Math_max_1 computed else computed.
Proof.
  cbv zeta. rewrite <- numericCoverages_eq.
  unfold generateFunctionalityComparison.
  destruct (filter success analyses) as [|r rs] eqn:E; [reflexivity|].
  cbn [List.length Nat.eqb]. cbv zeta.
  cbn [comparisonTable overallCoveragePercentage].
  set (table := map (comparisonRow (r :: rs)) (collect expectedFunctionalities (r :: rs))).
  rewrite implementedCount_eq.
  destruct (numericCoverages (r :: rs)) as [|x l]; cbn [List.length Nat.ltb Nat.leb].
  - destruct table; reflexivity.
  - reflexivity.
Qed.

(** What analyzeLogicFiles reports is the coverage of the
    specification: the clamp to 50 never applies. *)
Lemma reported_coverage (analyses : list FileAnalysis) :
  Coverage analyses (comparisonTable (generateFunctionalityComparison analyses))
           (coverageOf analyses)
  /\ (existsb implemented (comparisonTable (generateFunctionalityComparison analyses)) = true ->
      Number.isZero (coverageOf analyses) = false).
Proof.
  unfold coverageOf, Coverage. cbv zeta. rewrite overallCoverage_eq. cbv zeta.
  set (table := comparisonTable (generateFunctionalityComparison analyses)).
  set (computed :=
         match reported analyses, table with
         | _ :: _, _ => Number.Math_round (mean (reported analyses))
         | [], _ :: _ =>
             Number.Math_round (percentage (implementedCount table) (List.length table))
         | [], [] => Number.Int 0
         end).
  assert (match reported analyses, table with
          | _ :: _, _ => RoundOf (mean (reported analyses)) computed
          | [], _ :: _ =>
              RoundOf (percentage (implementedCount table) (List.length table)) computed
          | [], [] => computed = Number.Int 0
          end) as R.
  { subst computed. destruct (reported analyses); [destruct table|];
      try reflexivity; apply Math_round_RoundOf. }
  rewrite <- existsb_implemented.
  destruct (Number.isZero computed) eqn:Z; cbn [andb].
  - destruct (existsb implemented table) eqn:X.
    + assert (Math_max_1 computed = Number.Int 1) as ->.
      { destruct computed as [z| |x]; try discriminate; [|reflexivity].
        cbn in Z. apply Z.eqb_eq in Z. now subst z. }
      cbn [Number.isZero Z.eqb andb]. split; [|reflexivity].
      exists computed. split; [exact R|]. now rewrite Z.
    + rewrite Z. cbn [andb]. split; [|discriminate].
      exists computed. split; [exact R|]. now rewrite Z.
  - rewrite Z. cbn [andb]. split; [|intros _; exact Z].
    exists computed. split; [exact R|]. now rewrite Z.
Qed.

End CoverageFacts.

Section AggregateFacts.

Variable create : list ChatRequest -> ChatRequest -> Completion string.
Variable JSON_parse : string -> Completion Analysis.

(** C1 (amended): the coveragePercentage of an aggregate that
    analyzeLogicFiles returns is the arithmetic mean of the per-file
    numeric coveragePercentage values of the successful analyses,
    rounded to the nearest integer, when some file reports one, and
    otherwise the share of the implemented rows of
    functionalityComparison, rounded to the nearest integer (0 over an
    empty table), where mean and share are computed in binary64
    arithmetic, the share as (implementedCount / totalCount) * 100;
    when that value is 0 and some row is implemented, the reported
    coverage is 1, and it is never 0 then. *)
Theorem aggregate_coverage_follows_the_floor_rule
        (files : list JsValue) (trace : list ChatRequest) (a : AggregatedAnalysis) :
  fst (analyzeLogicFiles create JSON_parse files trace) = Aggregated a ->
  Coverage (fileAnalyses a) (functionalityComparison a) (agg_coveragePercentage a)
  /\ (existsb implemented (functionalityComparison a) = true ->
      Number.isZero (agg_coveragePercentage a) = false).
Proof.
  intros H.
  destruct (aggregated_inversion create JSON_parse files trace a H)
    as (_ & results & critical & _ & _ & _ & ->).
  cbn [aggregateOf fileAnalyses functionalityComparison agg_coveragePercentage].
  apply reported_coverage.
Qed.

End AggregateFacts.

Lemma aggregate_coverage_follows_the_floor_rule_witness :
  exists a,
    fst (analyzeLogicFiles Examples.flakyModel Examples.parseAnswer
           [Examples.cartFile; Examples.orderFile] [])
    = Aggregated a
    /\ Coverage (fileAnalyses a) (functionalityComparison a) (agg_coveragePercentage a)
    /\ existsb implemented (functionalityComparison a) = true
    /\ agg_coveragePercentage a = Number.Int 1.
Proof.
  eexists. split; [vm_compute; reflexivity|].
  split; [|split; vm_compute; reflexivity].
  apply (aggregate_coverage_follows_the_floor_rule Examples.flakyModel Examples.parseAnswer
           [Examples.cartFile; Examples.orderFile] []).
  vm_compute. reflexivity.
Defined.

(** C1, as stated, fails: the code computes (23 / 40) * 100 in
    binary64, which is 57.49999999999999 and is rounded to 57, while
    round(100 * 23 / 40) is round(57.5) = 58. *)
Lemma ratio_is_rounded_in_binary64 :
  exists a,
    fst (analyzeLogicFiles Examples.flakyModel Examples.parseAnswer
           [Examples.catalogueFile] [])
    = Aggregated a
    /\ reported (fileAnalyses a) = []
    /\ List.length (functionalityComparison a) = 40
    /\ implementedCount (functionalityComparison a) = 23
    /\ agg_coveragePercentage a = Number.Int 57
    /\ exactPercentage 23 40 58
    /\ Number.toString (percentage 23 40) = "57.49999999999999".
Proof.
  eexists. split; [vm_compute; reflexivity|].
  repeat split; vm_compute; reflexivity || discriminate.
Qed.

(** Two files report 0 percent while functionalities are implemented:
    the aggregate reports 1, neither 0 nor 50. *)
Example coverage_floor_of_two_files :
  exists a,
    fst (analyzeLogicFiles Examples.flakyModel Examples.parseAnswer
           [Examples.cartFile; Examples.orderFile] [])
    = Aggregated a
    /\ existsb implemented (functionalityComparison a) = true
    /\ agg_coveragePercentage a = Number.Int 1.
Proof. eexists. split; [vm_compute; reflexivity | split; reflexivity]. Qed.

(** One functionality of 201 is implemented and no file reports a
    percentage: the share rounds to 0 and the aggregate reports 1.  Of
    200, the share rounds to 1 by itself. *)
Example coverage_floor_of_a_small_ratio :
  overallCoveragePercentage
    (generateFunctionalityComparison
       [Analyzed "src/Catalogue.cs" (Examples.wideAnalysis 201 1)])
  = Number.Int 1
  /\ Number.Math_round (percentage 1 201) = Number.Int 0
  /\ Number.Math_round (percentage 1 200) = Number.Int 1.
Proof. repeat split; vm_compute; reflexivity. Qed.

(** The mean of 75 and 50 is 62.5, reported as 63; failed and skipped
    files do not enter the mean, and neither does an answer that
    carries a success of its own that is false. *)
Example coverage_mean_of_reported_values :
  overallCoveragePercentage
    (generateFunctionalityComparison
       [ Analyzed "src/A.cs" (Examples.measuredAnalysis (Number.ofZ 75));
         Errored "src/B.cs" "Request timed out";
         Skipped "src/ErrorPage.cs" skipReason;
         Analyzed "src/C.cs" (Examples.measuredAnalysis (Number.ofZ 50));
         Analyzed "src/D.cs"
           {| own_success := Some (Bool false); own_fileName := None; own_skipped := None;
              summary := ""; expectedFunctionalities := None; actualFunctionalities := None;
              missingCoreFunctionalities := None; missingNegativeTestCases := Missing;
              missingTestCases := Missing; coveragePercentage := Some (Number.ofZ 10) |} ])
  = Number.Int 63.
Proof. vm_compute. reflexivity. Qed.

(** *** The aggregate *)

Section AggregateMore.

Variable create : list ChatRequest -> ChatRequest -> Completion string.
Variable JSON_parse : string -> Completion Analysis.






(** X1: in every aggregate that analyzeLogicFiles returns,
    fileCount.total is the number of files classified logic, each of
    which has one entry in fileAnalyses; fileCount.analyzed is the
    number of entries without a truthy skipped, which is at least 1,
    and analyzed + skipped = total.  The files that the heuristic
    excludes are among the skipped ones, and they are all of them
    unless an answer of the model carries a truthy skipped of its own. *)
Theorem fileCount_accounts_for_every_logic_file
        (files : list JsValue) (trace : list ChatRequest) (a : AggregatedAnalysis) :
  fst (analyzeLogicFiles create JSON_parse files trace) = Aggregated a ->
  let logic := filter classifiedLogic files in
  total (fileCount a) = List.length logic
  /\ List.length (fileAnalyses a) = List.length logic
  /\ analyzed (fileCount a)
     = List.length (filter (fun r => negb (skipped r)) (fileAnalyses a))
  /\ 1 <= analyzed (fileCount a)
  /\ analyzed (fileCount a) + fc_skipped (fileCount a) = total (fileCount a)
  /\ List.length (filter excludedFile logic) <= fc_skipped (fileCount a)
  /\ (forallb (fun r => negb (answeredSkipped r)) (fileAnalyses a) = true ->
      fc_skipped (fileCount a) = List.length (filter excludedFile logic)).
Proof.
  intros H. cbv zeta.
  destruct (aggregated_inversion create JSON_parse files trace a H)
    as (_ & results & critical & S & _ & Z & ->).
  destruct (analyzeAll_results create JSON_parse _ _ _ S) as [F M].
  cbn [aggregateOf fileCount total analyzed fc_skipped fileAnalyses].
  pose proof (Forall2_length F) as L.
  set (logic := filter classifiedLogic files) in *. clearbody logic. clear S H.
  assert (List.length (filter (fun r => negb (skipped r)) results) <= List.length results)
    as Hle by apply filter_length_le.
  assert (List.length (filter excludedFile logic)
          <= List.length results - List.length (filter (fun r => negb (skipped r)) results)
          /\ (forallb (fun r => negb (answeredSkipped r)) results = true ->
              List.length results - List.length (filter (fun r => negb (skipped r)) results)
              = List.length (filter excludedFile logic))) as [C1 C2].
  { clear Z Hle F. revert results L M.
    induction logic as [|file logic IH]; intros [|r results] L M; try discriminate.
    - split; [cbn; lia | reflexivity].
    - cbn [List.length] in L. injection L as L.
      cbn [map combine fst snd] in M. injection M as Mr M.
      destruct (IH results L M) as [I1 I2].
      pose proof (filter_length_le (fun r => negb (skipped r)) results) as Hle.
      cbn [filter forallb List.length]. rewrite Mr.
      destruct (excludedFile file); cbn [orb negb List.length].
      + split; [lia|]. intros A. apply andb_prop in A as [_ A]. specialize (I2 A). lia.
      + destruct (answeredSkipped r); cbn [negb andb List.length].
        * split; [lia | discriminate].
        * split; [lia|]. intros A. specialize (I2 A). lia. }
  repeat split; try lia.
  intros A. specialize (C2 A). lia.
Qed.


(** X4: analyzeLogicFiles fails with 'No logic files found for
    analysis' when no file of the list is classified logic, and with
    'All logic files were excluded as error handling files' when some
    are and the heuristic excludes them all; in both cases the model
    is not called.  An aggregate is returned only when some file
    classified logic is not excluded. *)
Theorem aggregate_needs_a_file_that_is_not_excluded
        (files : list JsValue) (trace : list ChatRequest) :
  existsb isNullish files = false ->
  let logic := filter classifiedLogic files in
  (logic = [] ->
   analyzeLogicFiles create JSON_parse files trace
   = (AggregateFailed "No logic files found for analysis", trace))
  /\ (logic <> [] -> forallb excludedFile logic = true ->
      analyzeLogicFiles create JSON_parse files trace
      = (AggregateFailed "All logic files were excluded as error handling files", trace))
  /\ (forall a,
         fst (analyzeLogicFiles create JSON_parse files trace) = Aggregated a ->
         exists file, In file logic /\ excludedFile file = false).
Proof.
  intros N. cbv zeta. split; [|split].
  - now apply analyzeLogicFiles_no_logic.
  - now apply analyzeLogicFiles_all_excluded.
  - intros a H.
    destruct (aggregated_inversion create JSON_parse files trace a H)
      as (_ & results & critical & S & _ & Z & _).
    destruct (analyzeAll_results create JSON_parse _ _ _ S) as [F M].
    set (logic := filter classifiedLogic files) in *. clearbody logic.
    pose proof (Forall2_length F) as L. clear S H F.
    revert results L M Z. induction logic as [|file logic IH]; intros [|r results] L M Z;
      try discriminate; [now contradiction Z|].
    cbn [List.length] in L. injection L as L.
    cbn [map combine fst snd] in M. injection M as Mr M.
    destruct (excludedFile file) eqn:E.
    + cbn [orb] in Mr. cbn [filter] in Z. rewrite Mr in Z. cbn [negb] in Z.
      destruct (IH results L M Z) as (f & Hin & Hf). exists f. split; [now right | exact Hf].
    + exists file. split; [now left | exact E].
Qed.

End AggregateMore.



(** An answer that carries a skipped of its own counts as a skipped
    file: of the three files, two are reported as analyzed. *)
Example answered_skipped_counts_as_skipped :
  exists a,
    fst (analyzeLogicFiles Examples.flakyModel Examples.parseSkipping
           [Examples.cartFile; Examples.paymentFile; Examples.orderFile] [])
    = Aggregated a
    /\ total (fileCount a) = 3 /\ analyzed (fileCount a) = 2 /\ fc_skipped (fileCount a) = 1.
Proof. eexists. split; [vm_compute; reflexivity|]. repeat split. Qed.

Lemma fileCount_accounts_for_every_logic_file_witness :
  exists a,
    fst (analyzeLogicFiles Examples.flakyModel Examples.parseAnswer MoreExamples.mixedFiles [])
    = Aggregated a
    /\ total (fileCount a) = 4 /\ analyzed (fileCount a) = 3 /\ fc_skipped (fileCount a) = 1.
Proof.
  eexists. split; [vm_compute; reflexivity|].
  destruct (fileCount_accounts_for_every_logic_file Examples.flakyModel Examples.parseAnswer
              MoreExamples.mixedFiles [] _ eq_refl) as (T & _ & _ & _ & _ & _ & K).
  split; [exact T|]. split; [reflexivity|]. exact (K eq_refl).
Defined.


Lemma aggregate_needs_a_file_that_is_not_excluded_witness :
  analyzeLogicFiles Examples.flakyModel Examples.parseAnswer
    [Examples.assemblyInfoFile; Examples.logicFile "src/ErrorPage.cs"] []
  = (AggregateFailed "All logic files were excluded as error handling files", []).
Proof.
  apply (aggregate_needs_a_file_that_is_not_excluded Examples.flakyModel Examples.parseAnswer
           [Examples.assemblyInfoFile; Examples.logicFile "src/ErrorPage.cs"] [] eq_refl).
  - discriminate.
  - reflexivity.
Defined.

(** *** The routes for analysis and for the repository *)

Section RouteFacts.

Variable create : list ChatRequest -> ChatRequest -> Completion string.
Variable JSON_parse : string -> Completion Analysis.

(** C10: for a non-empty list of files, the logic-analysis route
    answers with status 200 and top-level [success: true] and embeds
    whatever analyzeLogicFiles returned as [results]; this includes
    the failed aggregates for "no logic files" and for "all logic
    files excluded", whose failure shows as [results.success] being
    false only, so the top-level flag is the same for a failed and for
    a successful aggregate. *)
Theorem analyze_logic_route_reports_success_for_any_aggregate
        (files : list JsValue) (trace : list ChatRequest) :
  files <> [] ->
  let response := fst (analyzeLogicRoute create JSON_parse (Files files) trace) in
  let aggregate := fst (analyzeLogicFiles create JSON_parse files trace) in
  status response = 200
  /\ topLevelSuccess (body response) = true
  /\ body response = Success aggregate
  /\ (existsb isNullish files = false -> filter classifiedLogic files = [] ->
      aggregate = AggregateFailed "No logic files found for analysis"
      /\ agg_success aggregate = false)
  /\ (existsb isNullish files = false -> filter classifiedLogic files <> [] ->
      forallb excludedFile (filter classifiedLogic files) = true ->
      aggregate = AggregateFailed "All logic files were excluded as error handling files"
      /\ agg_success aggregate = false).
Proof.
  intros Hne. cbv zeta.
  destruct files as [|f fs]; [contradiction|].
  cbn [analyzeLogicRoute]. unfold bind.
  destruct (analyzeLogicFiles create JSON_parse (f :: fs) trace) as [aggregate trace'] eqn:E.
  cbn [fst]. split; [reflexivity|]. split; [reflexivity|]. split; [reflexivity|]. split.
  - intros N H. rewrite analyzeLogicFiles_no_logic in E by assumption.
    inversion E. now split.
  - intros N H Hall. rewrite analyzeLogicFiles_all_excluded in E by assumption.
    inversion E. now split.
Qed.

End RouteFacts.

Lemma analyze_logic_route_reports_success_for_any_aggregate_witness :
  [Examples.assemblyInfoFile] <> []
  /\ (let response :=
        fst (analyzeLogicRoute Examples.flakyModel Examples.parseAnswer
               (Files [Examples.assemblyInfoFile]) []) in
      status response = 200
      /\ topLevelSuccess (body response) = true
      /\ body response = Success (AggregateFailed "No logic files found for analysis")).
Proof.
  assert ([Examples.assemblyInfoFile] <> []) as H by discriminate.
  split; [exact H|].
  destruct (analyze_logic_route_reports_success_for_any_aggregate
              Examples.flakyModel Examples.parseAnswer [Examples.assemblyInfoFile] [] H)
    as (Hs & Ht & Hb & _ & _).
  cbv zeta. split; [exact Hs|]. split; [exact Ht | exact Hb].
Defined.

(** A failed and a successful aggregate under the same top-level flag. *)
Example top_level_flag_hides_the_failure :
  let failed :=
    fst (analyzeLogicRoute Examples.flakyModel Examples.parseAnswer
           (Files [Examples.logicFile "src/ErrorPage.cs"]) []) in
  let succeeded :=
    fst (analyzeLogicRoute Examples.flakyModel Examples.parseAnswer
           (Files [Examples.cartFile]) []) in
  body failed
  = Success (AggregateFailed "All logic files were excluded as error handling files")
  /\ (exists a, body succeeded = Success (Aggregated a))
  /\ status failed = status succeeded
  /\ topLevelSuccess (body failed) = topLevelSuccess (body succeeded).
Proof.
  cbv zeta. split; [reflexivity|]. split; [|split; reflexivity].
  eexists. vm_compute. reflexivity.
Qed.

Example analyze_logic_route_rejects_empty_list :
  fst (analyzeLogicRoute Examples.flakyModel Examples.parseAnswer (Files []) [])
  = {| status := 400; body := Failure "No files provided for analysis" |}.
Proof. reflexivity. Qed.

Section LogicRouteFacts.

Variable create : list ChatRequest -> ChatRequest -> Completion string.
Variable JSON_parse : string -> Completion Analysis.

(** X18: the analyze-logic route replies 400 exactly when files is
    missing, is no array or is an empty array, with the error
    "No files provided for analysis" and without calling the model;
    every other request is answered with 200. *)
Theorem analyze_logic_route_rejects_only_an_empty_request
        (files : FilesField) (trace : list ChatRequest) :
  let response := fst (analyzeLogicRoute create JSON_parse files trace) in
  (status response = 200 \/ status response = 400)
  /\ (status response = 400 <-> forall list, files = Files list -> list = [])
  /\ (status response = 400 ->
      body response = Failure "No files provided for analysis"
      /\ snd (analyzeLogicRoute create JSON_parse files trace) = trace).
Proof.
  cbv zeta. destruct files as [| |[|f fs]]; cbn [analyzeLogicRoute].
  - split; [now right|]. split; [|intros _; now split].
    split; [intros _ list H; discriminate | reflexivity].
  - split; [now right|]. split; [|intros _; now split].
    split; [intros _ list H; discriminate | reflexivity].
  - split; [now right|]. split; [|intros _; now split].
    split; [intros _ list H; now inversion H | reflexivity].
  - unfold bind.
    destruct (analyzeLogicFiles create JSON_parse (f :: fs) trace) as [aggregate trace'].
    cbn [ret fst json status]. split; [now left|]. split; [|discriminate].
    split; [discriminate|]. intros H. specialize (H (f :: fs) eq_refl). discriminate.
Qed.

End LogicRouteFacts.

Section RepositoryFacts.

Variable axios_get : list GetRequest -> GetRequest -> Completion HostingData.

(** C7: what the repository route does on a URL that cannot be split.
    With the URL missing from the body the route answers 500 and the
    message of the TypeError, and issues no call; whatever the
    request, its status is 200 or 500, never 400. *)
Theorem repository_route_never_answers_400 :
  (forall token trace,
      repositoryRoute axios_get {| repoUrl := Undefined; pat := token |} trace
      = ({| status := 500;
            body := Failure "Cannot read properties of undefined (reading 'split')" |},
         trace))
  /\ (forall req trace,
         let response := fst (repositoryRoute axios_get req trace) in
         status response = 200 \/ status response = 500).
Proof.
  split; [reflexivity|].
  intros [url token] trace; cbv zeta; unfold repositoryRoute; cbn [repoUrl pat].
  destruct (asString "repoUrl" "split" url) as [text|message]; [|now right].
  destruct (toStr token) as [rendered|message]; [|now right].
  unfold bind, call.
  destruct (axios_get trace _) as [info|message]; [|now right].
  destruct (toStr (default_branch info)) as [branch|message]; [|now right].
  destruct (axios_get _ _) as [data|message]; [|now right].
  destruct (tree data); [now left | now right].
Qed.

End RepositoryFacts.

(** A URL without a separator has no owner segment: the route asks the
    hosting API for the repository "undefined/repo". *)
Example repository_route_without_owner :
  snd (repositoryRoute (fun _ _ => Throws "Request failed with status code 404")
         {| repoUrl := Str "repo"; pat := Str "ghp_token" |} [])
  = [ {| get_url := "https://api.github.com/repos/undefined/repo";
         get_authorization := "token ghp_token" |} ].
Proof. reflexivity. Qed.

Example repository_route_splits_url :
  snd (repositoryRoute (fun _ _ => Throws "Request failed with status code 404")
         {| repoUrl := Str "https://github.com/username/repo"; pat := Str "ghp_token" |} [])
  = [ {| get_url := "https://api.github.com/repos/username/repo";
         get_authorization := "token ghp_token" |} ].
Proof. reflexivity. Qed.

Section RepositoryMore.

Variable axios_get : list GetRequest -> GetRequest -> Completion HostingData.

Lemma filter_csBlob (entries : list TreeEntry) :
  Forall (fun file => endsWith (te_path file) ".cs" = true /\ te_type file = "blob")
         (filter csBlob entries).
Proof.
  apply Forall_forall. intros file H. apply filter_In in H as [_ H].
  unfold csBlob in H. apply andb_true_iff in H as [Hp Ht].
  split; [exact Hp | now apply String.eqb_eq].
Qed.

(** The route asks for the repository named by the last two segments. *)
Lemma repositoryRoute_first_request
      (front : list string) (owner repo url : string) (token : JsValue) (rendered : string)
      (trace : list GetRequest) :
  split "/" url = (front ++ [owner; repo])%list ->
  toStr token = Returns rendered ->
  exists rest,
    snd (repositoryRoute axios_get {| repoUrl := Str url; pat := token |} trace)
    = (trace ++ {| get_url := "https://api.github.com/repos/" ++ owner ++ "/" ++ repo;
                   get_authorization := "token " ++ rendered |} :: rest)%list.
Proof.
  intros E T. unfold repositoryRoute. cbn [repoUrl pat asString]. rewrite E, T.
  destruct (fromEnd_last_two front owner repo) as [-> ->].
  cbn [interpolate]. unfold bind, call.
  destruct (axios_get trace _) as [info|message]; [|cbn [ret snd]; eexists; reflexivity].
  destruct (toStr (default_branch info)); [|cbn [ret snd]; eexists; reflexivity].
  destruct (axios_get _ _) as [data|message].
  - destruct (tree data); cbn [ret snd]; rewrite <- app_assoc; eexists; reflexivity.
  - cbn [ret snd]. rewrite <- app_assoc. eexists. reflexivity.
Qed.

(** X14: a list of files that the repository route answers is what
    two authorized requests gave: the first for the repository, the
    second for the recursive tree of the default branch the first one
    reported; the list holds exactly the entries of that tree that are
    blobs with a path ending in .cs, in the tree's order, and the
    status is 200. *)
Theorem repository_route_lists_cs_blobs_only
        (req : RepositoryBody) (trace : list GetRequest) (files : list TreeEntry) :
  body (fst (repositoryRoute axios_get req trace)) = Success files ->
  status (fst (repositoryRoute axios_get req trace)) = 200
  /\ Forall (fun file => endsWith (te_path file) ".cs" = true /\ te_type file = "blob") files
  /\ exists token branch first second info data entries,
       snd (repositoryRoute axios_get req trace) = (trace ++ [first; second])%list
       /\ toStr (pat req) = Returns token
       /\ get_authorization first = "token " ++ token
       /\ get_authorization second = "token " ++ token
       /\ axios_get trace first = Returns info
       /\ toStr (default_branch info) = Returns branch
       /\ get_url second = get_url first ++ "/git/trees/" ++ branch ++ "?recursive=1"
       /\ axios_get (trace ++ [first]) second = Returns data
       /\ tree data = Some entries
       /\ files = filter csBlob entries.
Proof.
  unfold repositoryRoute.
  destruct (asString "repoUrl" "split" (repoUrl req)) as [url|message]; [|discriminate].
  destruct (toStr (pat req)) as [token|message] eqn:T; [|discriminate].
  unfold bind, call.
  destruct (axios_get trace _) as [info|message] eqn:E1; [|discriminate].
  destruct (toStr (default_branch info)) as [branch|message] eqn:B; [|discriminate].
  destruct (axios_get (trace ++ _) _) as [data|message] eqn:E2; [|discriminate].
  destruct (tree data) as [entries|] eqn:Et; [|discriminate].
  cbn [ret fst snd json body status]. intros H. inversion H. subst files.
  split; [reflexivity|]. split; [apply filter_csBlob|].
  exists token, branch. do 5 eexists. rewrite <- app_assoc. cbn [app].
  split; [reflexivity|]. split; [reflexivity|]. split; [reflexivity|]. split; [reflexivity|].
  split; [exact E1|]. split; [exact B|]. split; [reflexivity|]. split; [exact E2|].
  split; [exact Et | reflexivity].
Qed.

(** X15: for a repository URL that ends in /owner/repo, the first
    request of the repository route goes to
    https://api.github.com/repos/owner/repo with the header
    "token " followed by the access token as a template literal
    renders it, whatever stands before. *)
Theorem repository_route_reads_the_last_two_segments
        (base owner repo : string) (token : JsValue) (rendered : string)
        (trace : list GetRequest) :
  segment owner -> segment repo -> toStr token = Returns rendered ->
  let url := base ++ "/" ++ owner ++ "/" ++ repo in
  exists rest,
    snd (repositoryRoute axios_get {| repoUrl := Str url; pat := token |} trace)
    = (trace ++ {| get_url := "https://api.github.com/repos/" ++ owner ++ "/" ++ repo;
                   get_authorization := "token " ++ rendered |} :: rest)%list.
Proof.
  intros Ho Hr T. cbv zeta.
  apply (repositoryRoute_first_request (split "/" base)); [|exact T].
  now rewrite !split_append, (split_segment owner Ho), (split_segment repo Hr).
Qed.

(** X20: for a repository URL that contains a slash, the URL the
    application fetches a file's content from extends the URL of the
    repository route's first request: both address the same
    repository. *)
Theorem content_url_addresses_the_listed_repository
        (url filePath : string) (token : JsValue) (rendered : string)
        (trace : list GetRequest) :
  includes url "/" = true -> toStr token = Returns rendered ->
  exists first rest,
    snd (repositoryRoute axios_get {| repoUrl := Str url; pat := token |} trace)
    = (trace ++ first :: rest)%list
    /\ contentUrl url filePath = get_url first ++ "/contents/" ++ filePath.
Proof.
  intros H T. destruct (two_last (split "/" url) (split_two url H)) as (front & a & b & E).
  destruct (repositoryRoute_first_request front a b url token rendered trace E T)
    as [rest ->].
  eexists. exists rest. split; [reflexivity|].
  unfold contentUrl. rewrite E, sliceFromEnd_last_two. cbn [join get_url].
  now rewrite !append_associative.
Qed.

End RepositoryMore.

Lemma repository_route_lists_cs_blobs_only_witness :
  body (fst (repositoryRoute MoreExamples.hostingUp MoreExamples.sampleRepository []))
  = Success [ {| te_path := "src/Cart.cs"; te_type := "blob" |};
              {| te_path := "src/Order.cs"; te_type := "blob" |} ]
  /\ status (fst (repositoryRoute MoreExamples.hostingUp MoreExamples.sampleRepository []))
     = 200.
Proof.
  assert (body (fst (repositoryRoute MoreExamples.hostingUp MoreExamples.sampleRepository []))
          = Success [ {| te_path := "src/Cart.cs"; te_type := "blob" |};
                      {| te_path := "src/Order.cs"; te_type := "blob" |} ]) as H
      by reflexivity.
  split; [exact H|].
  exact (proj1 (repository_route_lists_cs_blobs_only
                  MoreExamples.hostingUp MoreExamples.sampleRepository [] _ H)).
Defined.

Lemma repository_route_reads_the_last_two_segments_witness :
  segment "username" /\ segment "repo"
  /\ exists rest,
       snd (repositoryRoute MoreExamples.hostingUp
              {| repoUrl := Str ("https://github.com" ++ "/" ++ "username" ++ "/" ++ "repo");
                 pat := Str "ghp_token" |} [])
       = ([] ++ {| get_url := "https://api.github.com/repos/" ++ "username" ++ "/" ++ "repo";
                   get_authorization := "token " ++ "ghp_token" |}
             :: rest)%list.
Proof.
  assert (segment "username") as Ho by reflexivity.
  assert (segment "repo") as Hr by reflexivity.
  split; [exact Ho|]. split; [exact Hr|].
  exact (repository_route_reads_the_last_two_segments
           MoreExamples.hostingUp "https://github.com" "username" "repo"
           (Str "ghp_token") "ghp_token" [] Ho Hr eq_refl).
Defined.

Lemma content_url_addresses_the_listed_repository_witness :
  includes "https://github.com/username/repo" "/" = true
  /\ exists first rest,
       snd (repositoryRoute MoreExamples.hostingUp
              {| repoUrl := Str "https://github.com/username/repo";
                 pat := Str "ghp_token" |} [])
       = ([] ++ first :: rest)%list
       /\ contentUrl "https://github.com/username/repo" "src/Cart.cs"
          = get_url first ++ "/contents/" ++ "src/Cart.cs".
Proof.
  assert (includes "https://github.com/username/repo" "/" = true) as H by reflexivity.
  split; [exact H|].
  exact (content_url_addresses_the_listed_repository
           MoreExamples.hostingUp "https://github.com/username/repo" "src/Cart.cs"
           (Str "ghp_token") "ghp_token" [] H eq_refl).
Defined.

(** Without a slash the two differ: the route asks for undefined/name,
    the application for name. *)
Example content_url_without_a_slash :
  snd (repositoryRoute MoreExamples.hostingDown
         {| repoUrl := Str "repo"; pat := Str "ghp_token" |} [])
  = [ {| get_url := "https://api.github.com/repos/undefined/repo";
         get_authorization := "token ghp_token" |} ]
  /\ contentUrl "repo" "src/Cart.cs" = "https://api.github.com/repos/repo/contents/src/Cart.cs".
Proof. split; reflexivity. Qed.

(** *** Statistics *)

Section StatisticsFacts.

Lemma classes_partition (files : list ListedFile) :
  List.length (filter (classifiedAs "logic") files)
  + List.length (filter (classifiedAs "boilerplate") files)
  + List.length (filter (fun file => negb (classifiedAs "logic" file)
                                     && negb (classifiedAs "boilerplate" file)) files)
  = List.length files.
Proof.
  induction files as [|f files IH]; [reflexivity|]. cbn [filter].
  assert (classifiedAs "logic" f = true -> classifiedAs "boilerplate" f = false) as Hx.
  { unfold classifiedAs. destruct (lf_classification f) as [| |b|x|c|items|fields];
      try discriminate.
    intros H. apply String.eqb_eq in H. now subst. }
  destruct (classifiedAs "logic" f), (classifiedAs "boilerplate" f);
    cbn [negb andb List.length];
    first [lia | specialize (Hx eq_refl); discriminate].
Qed.

(** X19: the statistics of a non-empty file list account for every
    file once: the logic, boilerplate and error counts add up to the
    total, a file counting as an error when its classification is
    neither logic nor boilerplate or is missing; each of the three
    percentages is the share of its count, (count / total) * 100 in
    binary64 arithmetic, rounded to the nearest integer. *)
Theorem statistics_account_for_every_file (files : list ListedFile) (s : RepositoryStatistics) :
  statistics files = Some s ->
  totalFiles s = List.length files
  /\ 0 < totalFiles s
  /\ logicFiles s + boilerplateFiles s + errorFiles s = totalFiles s
  /\ RoundOf (percentage (logicFiles s) (totalFiles s)) (logicPercentage s)
  /\ RoundOf (percentage (boilerplateFiles s) (totalFiles s)) (boilerplatePercentage s)
  /\ RoundOf (percentage (errorFiles s) (totalFiles s)) (errorPercentage s).
Proof.
  destruct files as [|f files]; [discriminate|].
  intros H. inversion H. clear H.
  cbn [totalFiles logicFiles boilerplateFiles errorFiles
       logicPercentage boilerplatePercentage errorPercentage].
  pose proof (classes_partition (f :: files)) as Hp.
  split; [reflexivity|]. split; [cbn; lia|]. split; [exact Hp|].
  repeat split; apply Math_round_RoundOf.
Qed.

End StatisticsFacts.

Lemma statistics_account_for_every_file_witness :
  exists s,
    statistics MoreExamples.listedFiles = Some s
    /\ totalFiles s = 3
    /\ logicFiles s + boilerplateFiles s + errorFiles s = totalFiles s.
Proof.
  destruct (statistics MoreExamples.listedFiles) as [s|] eqn:E;
    [|vm_compute in E; discriminate E].
  exists s. split; [reflexivity|].
  destruct (statistics_account_for_every_file MoreExamples.listedFiles s E)
    as (Ht & _ & Hc & _).
  split; [exact Ht | exact Hc].
Defined.

(** Three classes of one file each: the percentages add up to 99. *)
Example statistics_of_three_classes :
  option_map (fun s => (logicPercentage s, boilerplatePercentage s, errorPercentage s,
                        averageSize s))
             (statistics MoreExamples.listedFiles)
  = Some (Number.Int 33, Number.Int 33, Number.Int 33, Number.Int 500).
Proof. vm_compute. reflexivity. Qed.
